(** * TEASER [TwoElement]: aggregation and chain-matrix reduction

    A shallow embedding of
    [teaser/logic/buildingobjects/calculation/two_element.py].

    Numbers.  The Python code computes with floats (and the integer [t_bt]).
    They are embedded as exact rationals [Q]: sums, products, quotients and
    squares are the exact ones, and [x / y] raises [ZeroDivisionError] when
    [y] is zero, as Python's true division does.  Rounding is outside the
    model, so an equation "within floating-point tolerance" is stated here as
    an equation between rationals ([==]).  So are the values that are not
    numbers: a rational is never [inf] or [nan], no sum or product
    overflows, no square raises [OverflowError], and every integer converts
    to a float.  A statement that a call always raises therefore carries the
    hypothesis that keeps the floats finite where the outcome depends on it
    ([sum_is_finite], [in_float_range]); a statement that a call completes
    is one of exact arithmetic.

    Effects.  A method of [TwoElement] maps the object to a [Res]: either the
    object after the call ([Done]) or the exception that left the call
    together with the object as it was when the exception was raised
    ([Raised]).  Expressions that may raise are values of [Exc].

    Objects.  The elements of a thermal zone are records held in the zone's
    lists; a method that writes an attribute of an element rewrites the
    element in its list.  The lists of one zone are taken to hold distinct
    objects. *)

From Stdlib Require Import String QArith ZArith List Bool Lia Lqa Permutation.
From coqutil Require Import Datatypes.RecordSettersUsingExistingGetters.
Import ListNotations.
Local Open Scope Q_scope.

(** ** Exceptions and results *)

Inductive PyExc : Type :=
| ZeroDivisionError
| IndexError
| UnboundLocalError
| RuntimeError
| ValueError (msg : string).

Inductive Exc (A : Type) : Type :=
| Ok (a : A)
| Raise (e : PyExc).
Arguments Ok {A} a.
Arguments Raise {A} e.

Definition bind {A B : Type} (x : Exc A) (k : A -> Exc B) : Exc B :=
  match x with
  | Ok a => k a
  | Raise e => Raise e
  end.

Notation "x <- e ;; k" := (bind e (fun x => k))
  (at level 61, e at next level, right associativity).

(** ** Python arithmetic on numbers *)

(** [a / b] under [from __future__ import division]. *)
Definition pydiv (a b : Q) : Exc Q :=
  if Qeq_bool b 0 then Raise ZeroDivisionError else Ok (a / b).

(** [sum(xs)] for a list of numbers: starts at 0 and adds from the left. *)
Definition pysum (xs : list Q) : Q := fold_left Qplus xs 0.

(** [sum(f(x) for x in xs)] where evaluating [f(x)] may raise: the generator
    is consumed from the left and the first exception leaves the sum. *)
Fixpoint pysum_from {A : Type} (f : A -> Exc Q) (xs : list A) (acc : Q) : Exc Q :=
  match xs with
  | [] => Ok acc
  | x :: xs' => v <- f x ;; pysum_from f xs' (acc + v)
  end.

Definition pysumE {A : Type} (f : A -> Exc Q) (xs : list A) : Exc Q :=
  pysum_from f xs 0.

(** [xs[i]] for a non-negative index. *)
Definition py_index {A : Type} (xs : list A) (i : nat) : Exc A :=
  match nth_error xs i with
  | Some x => Ok x
  | None => Raise IndexError
  end.

(** [xs[-1]]. *)
Definition py_last {A : Type} (xs : list A) : Exc A :=
  match xs with
  | [] => Raise IndexError
  | _ :: _ => py_index xs (length xs - 1)
  end.

(** [for x in xs: x.attr = f(x)] where [f(x)] may raise. *)
Fixpoint py_for_each {A : Type} (f : A -> Exc A) (xs : list A) : Exc (list A) :=
  match xs with
  | [] => Ok []
  | x :: xs' => y <- f x ;; ys <- py_for_each f xs' ;; Ok (y :: ys)
  end.

(** [math.pi]: the binary64 number 0x1.921fb54442d18p+1. *)
Definition math_pi : Q := 884279719003555 # 281474976710656.

(** ** The envelope data read by the class *)

Record Material : Type := {
  ir_emissivity : Q;
  solar_absorp : Q
}.

Record Layer : Type := {
  material : Material
}.

(** The attributes of a building element (wall, rooftop, ground floor, window,
    floor, ceiling) that [TwoElement] reads or writes. *)
Record Element : Type := {
  area : Q;
  ua_value : Q;
  r_inner_conv : Q;
  r_inner_rad : Q;
  r_inner_comb : Q;
  r_outer_conv : Q;
  r_outer_rad : Q;
  r_outer_comb : Q;
  r1 : Q;
  c1 : Q;
  c1_korr : Q;
  layer : list Layer;
  g_value : Q;
  wf_out : Q
}.

Record ThermalZone : Type := {
  outer_walls : list Element;
  ground_floors : list Element;
  rooftops : list Element;
  windows : list Element;
  inner_walls : list Element;
  floors : list Element;
  ceilings : list Element
}.

(** A Python value as far as [x is True] and [x is False] tell values apart. *)
Inductive PyObj : Type :=
| PyBool (b : bool)
| PyNone
| PyInt (z : Z)
| PyStr (s : string).

Definition is_True (x : PyObj) : bool :=
  match x with PyBool true => true | _ => false end.

Definition is_False (x : PyObj) : bool :=
  match x with PyBool false => true | _ => false end.

(** ** The [TwoElement] object

    The attributes in the order [__init__] creates them.  [internal_id]
    (a random number no method reads) is left out.  The three attributes
    [ir_emissivity_inner_iw], [r1_1w] and [c1_1w] do not exist after
    [__init__]; a method creates them, hence [option].  [warnings_issued]
    and [printed] are not attributes: they record the calls of
    [warnings.warn] and [print] made on behalf of the object, newest
    first. *)
Record TwoElement : Type := {
  thermal_zone : ThermalZone;
  merge_windows : PyObj;
  t_bt : Z;
  (* Attributes of inner walls *)
  area_iw : Q;
  alpha_conv_inner_iw : Q;
  alpha_rad_inner_iw : Q;
  alpha_comb_inner_iw : Q;
  alpha_conv_outer_iw : Q;
  alpha_rad_outer_iw : Q;
  alpha_comb_outer_iw : Q;
  ua_value_iw : Q;
  r_conv_inner_iw : Q;
  r_rad_inner_iw : Q;
  r_comb_inner_iw : Q;
  r_conv_outer_iw : Q;
  r_rad_outer_iw : Q;
  r_comb_outer_iw : Q;
  r1_iw : Q;
  c1_iw : Q;
  (* Attributes for outer walls (OuterWall, Rooftop, GroundFloor) *)
  area_ow : Q;
  alpha_conv_inner_ow : Q;
  alpha_rad_inner_ow : Q;
  alpha_comb_inner_ow : Q;
  alpha_conv_outer_ow : Q;
  alpha_rad_outer_ow : Q;
  alpha_comb_outer_ow : Q;
  ua_value_ow : Q;
  r_conv_inner_ow : Q;
  r_rad_inner_ow : Q;
  r_comb_inner_ow : Q;
  r_conv_outer_ow : Q;
  r_rad_outer_ow : Q;
  r_comb_outer_ow : Q;
  r1_ow : Q;
  r_rest_ow : Q;
  c1_ow : Q;
  r_total_ow : Q;
  ir_emissivity_outer_ow : Q;
  ir_emissivity_inner_ow : Q;
  solar_absorp_ow : Q;
  weightfactor_ow : list Q;
  weightfactor_ground : list Q;
  tilt_wall : list Q;
  orientation_wall : list Q;
  outer_walls_areas : list Q;
  r_rad_ow_iw : Q;
  (* Attributes for windows *)
  area_win : Q;
  alpha_conv_inner_win : Q;
  alpha_rad_inner_win : Q;
  alpha_comb_inner_win : Q;
  alpha_conv_outer_win : Q;
  alpha_rad_outer_win : Q;
  alpha_comb_outer_win : Q;
  ua_value_win : Q;
  r_conv_inner_win : Q;
  r_rad_inner_win : Q;
  r_comb_inner_win : Q;
  r_conv_outer_win : Q;
  r_rad_outer_win : Q;
  r_comb_outer_win : Q;
  r1_win : Q;
  ir_emissivity_outer_win : Q;
  ir_emissivity_inner_win : Q;
  solar_absorp_win : Q;
  weightfactor_win : list Q;
  tilt_win : list Q;
  orientation_win : list Q;
  window_areas : list Q;
  g_sunblind_list : list Q;
  weighted_g_value : Q;
  (* attributes created outside __init__ *)
  ir_emissivity_inner_iw : option Q;
  r1_1w : option Q;
  c1_1w : option Q;
  (* output of the process *)
  warnings_issued : list string;
  printed : list string
}.

(** The outcome of a method call on the object. *)
Inductive Res : Type :=
| Done (self : TwoElement)
| Raised (e : PyExc) (self : TwoElement).

(** Evaluate an expression while the object is [self]; an exception leaves
    the method with the object as it is. *)
Definition eval_in {A : Type} (self : TwoElement) (x : Exc A) (k : A -> Res) : Res :=
  match x with
  | Ok a => k a
  | Raise e => Raised e self
  end.

Notation "x <-[ self ] e ;; k" := (eval_in self e (fun x => k))
  (at level 61, e at next level, right associativity).

(** Statement sequencing: the next statement runs on the object the previous
    one left, unless an exception is on its way out. *)
Definition and_then (r : Res) (k : TwoElement -> Res) : Res :=
  match r with
  | Done self => k self
  | Raised e self => Raised e self
  end.

Notation "r ;;> k" := (and_then r k) (at level 60, right associativity).

(** [try: body  except RuntimeError: handler]. *)
Definition try_except_RuntimeError (body : Res) (handler : TwoElement -> Res) : Res :=
  match body with
  | Raised RuntimeError self => handler self
  | r => r
  end.

(** [warnings.warn(msg)] and [print(msg)]. *)
Definition warnings_warn (msg : string) (self : TwoElement) : TwoElement :=
  self <| warnings_issued ::= cons msg |>.

Definition print (msg : string) (self : TwoElement) : TwoElement :=
  self <| printed ::= cons msg |>.

(** ** Generator expressions the aggregation passes repeat *)

(** [sum(1 / x.attr for x in xs)]. *)
Definition sum_recip (attr : Element -> Q) (xs : list Element) : Exc Q :=
  pysumE (fun x => pydiv 1 (attr x)) xs.

(** [sum(x.layer[0].material.prop * x.area for x in xs)]. *)
Definition sum_layer0 (prop : Material -> Q) (xs : list Element) : Exc Q :=
  pysumE (fun x => ly <- py_index (layer x) 0 ;; Ok (prop (material ly) * area x)) xs.

(** [sum(x.layer[-1].material.prop * x.area for x in xs)]. *)
Definition sum_layer_last (prop : Material -> Q) (xs : list Element) : Exc Q :=
  pysumE (fun x => ly <- py_last (layer x) ;; Ok (prop (material ly) * area x)) xs.

(** [1 / (sum(1 / x.attr for x in xs) + sum(...ys) + sum(...zs))]. *)
Definition recip_sum3 (attr : Element -> Q) (xs ys zs : list Element) : Exc Q :=
  a <- sum_recip attr xs ;;
  b <- sum_recip attr ys ;;
  c <- sum_recip attr zs ;;
  pydiv 1 (a + b + c).

(** [1 / (sum(1 / x.attr for x in xs) + sum(1 / y.attr for y in ys))]. *)
Definition recip_sum2 (attr : Element -> Q) (xs ys : list Element) : Exc Q :=
  a <- sum_recip attr xs ;;
  b <- sum_recip attr ys ;;
  pydiv 1 (a + b).

(** [1 / (sum(1 / x.attr for x in xs))]. *)
Definition recip_sum1 (attr : Element -> Q) (xs : list Element) : Exc Q :=
  a <- sum_recip attr xs ;;
  pydiv 1 a.

(** [sum(x.attr for x in xs) + sum(...ys) + sum(...zs)]. *)
Definition sum3 (attr : Element -> Q) (xs ys zs : list Element) : Q :=
  pysum (map attr xs) + pysum (map attr ys) + pysum (map attr zs).

(** ** [_calc_chain_matrix] *)

(** The body of [for wall_count in range(len(element_list) - 1)].  The locals
    [r1] and [c1] are unbound ([None]) until the first pass binds them. *)
Definition chain_matrix_body (element_list : list Element) (omega : Q)
    (wall_count : nat) (locals : option (Q * Q)) : Exc (option (Q * Q)) :=
  if (wall_count =? 0)%nat then
    e <- py_index element_list wall_count ;;
    e' <- py_index element_list (wall_count + 1) ;;
    r1' <- pydiv
      (r1 e * c1 e ^ 2 + r1 e' * c1 e' ^ 2 +
       omega ^ 2 * r1 e * r1 e' * (r1 e + r1 e') * c1 e ^ 2 * c1 e' ^ 2)
      ((c1 e + c1 e') ^ 2 +
       omega ^ 2 * (r1 e + r1 e') ^ 2 * c1 e ^ 2 * c1 e' ^ 2) ;;
    c1' <- pydiv
      ((c1 e + c1 e') ^ 2 +
       omega ^ 2 * (r1 e + r1 e') ^ 2 * c1 e ^ 2 * c1 e' ^ 2)
      (c1 e + c1 e' +
       omega ^ 2 * (r1 e ^ 2 * c1 e + r1 e' ^ 2 * c1 e') * c1 e * c1 e') ;;
    Ok (Some (r1', c1'))
  else
    match locals with
    | None => Raise UnboundLocalError
    | Some (r1x, c1x) =>
      e' <- py_index element_list (wall_count + 1) ;;
      r1' <- pydiv
        (r1x * c1x ^ 2 + r1 e' * c1 e' ^ 2 +
         omega ^ 2 * r1x * r1 e' * (r1x + r1 e') * c1x ^ 2 * c1 e' ^ 2)
        ((c1x + c1 e') ^ 2 +
         omega ^ 2 * (r1x + r1 e') ^ 2 * c1x ^ 2 * c1 e' ^ 2) ;;
      c1' <- pydiv
        ((c1x + c1 e') ^ 2 +
         omega ^ 2 * (r1x + r1 e') ^ 2 * c1x ^ 2 * c1 e' ^ 2)
        (c1x + c1 e' +
         omega ^ 2 * (r1x ^ 2 * c1x + r1 e' ^ 2 * c1 e') * c1x * c1 e') ;;
      Ok (Some (r1', c1'))
    end.

Fixpoint chain_matrix_loop (element_list : list Element) (omega : Q)
    (range : list nat) (locals : option (Q * Q)) : Exc (option (Q * Q)) :=
  match range with
  | [] => Ok locals
  | wall_count :: range' =>
    locals' <- chain_matrix_body element_list omega wall_count locals ;;
    chain_matrix_loop element_list omega range' locals'
  end.

Definition _calc_chain_matrix (element_list : list Element) (omega : Q) : Exc (Q * Q) :=
  locals <- chain_matrix_loop element_list omega
              (seq 0 (length element_list - 1)) None ;;
  match locals with
  | Some (r1, c1) => Ok (r1, c1)
  | None => Raise UnboundLocalError
  end.

(** The reducer in the words of the specification: the closed forms for one
    combination, and a fold from the left over the elements after the first. *)
Definition combined_r1 (omega r1 c1 r2 c2 : Q) : Q :=
  (r1 * c1 ^ 2 + r2 * c2 ^ 2 + omega ^ 2 * r1 * r2 * (r1 + r2) * c1 ^ 2 * c2 ^ 2)
  / ((c1 + c2) ^ 2 + omega ^ 2 * (r1 + r2) ^ 2 * c1 ^ 2 * c2 ^ 2).

Definition combined_c1 (omega r1 c1 r2 c2 : Q) : Q :=
  ((c1 + c2) ^ 2 + omega ^ 2 * (r1 + r2) ^ 2 * c1 ^ 2 * c2 ^ 2)
  / (c1 + c2 + omega ^ 2 * (r1 ^ 2 * c1 + r2 ^ 2 * c2) * c1 * c2).

Definition spec_combine (omega : Q) (running : Q * Q) (next : Element) : Exc (Q * Q) :=
  let '(ra, ca) := running in
  let rb := r1 next in
  let cb := c1 next in
  if Qeq_bool ((ca + cb) ^ 2 + omega ^ 2 * (ra + rb) ^ 2 * ca ^ 2 * cb ^ 2) 0
  then Raise ZeroDivisionError
  else if Qeq_bool (ca + cb + omega ^ 2 * (ra ^ 2 * ca + rb ^ 2 * cb) * ca * cb) 0
  then Raise ZeroDivisionError
  else Ok (combined_r1 omega ra ca rb cb, combined_c1 omega ra ca rb cb).

(** One step of the fold; a failed combination stays failed. *)
Definition spec_step (omega : Q) (running : Exc (Q * Q)) (next : Element) : Exc (Q * Q) :=
  p <- running ;; spec_combine omega p next.

Definition spec_reduce (omega : Q) (first : Element) (others : list Element) : Exc (Q * Q) :=
  fold_left (spec_step omega) others (Ok (r1 first, c1 first)).

(** ** [_sum_outer_wall_elements] *)

Definition _sum_outer_wall_elements (self : TwoElement) : Res :=
  let tz := thermal_zone self in
  let self := self <| area_ow :=
    sum3 area (outer_walls tz) (ground_floors tz) (rooftops tz) |> in
  let self := self <| ua_value_ow :=
    sum3 ua_value (outer_walls tz) (ground_floors tz) (rooftops tz) |> in
  (* values facing the inside of the thermal zone *)
  v <-[self] recip_sum3 r_inner_conv
               (outer_walls tz) (ground_floors tz) (rooftops tz) ;;
  let self := self <| r_conv_inner_ow := v |> in
  v <-[self] recip_sum3 r_inner_rad
               (outer_walls tz) (ground_floors tz) (rooftops tz) ;;
  let self := self <| r_rad_inner_ow := v |> in
  v <-[self] recip_sum3 r_inner_comb
               (outer_walls tz) (ground_floors tz) (rooftops tz) ;;
  let self := self <| r_comb_inner_ow := v |> in
  v <-[self] (a <- sum_layer0 ir_emissivity (outer_walls tz) ;;
              b <- sum_layer0 ir_emissivity (ground_floors tz) ;;
              c <- sum_layer0 ir_emissivity (rooftops tz) ;;
              q <- pydiv c (area_ow self) ;;
              Ok (a + b + q)) ;;
  let self := self <| ir_emissivity_inner_ow := v |> in
  v <-[self] pydiv 1 (r_conv_inner_ow self * area_ow self) ;;
  let self := self <| alpha_conv_inner_ow := v |> in
  v <-[self] pydiv 1 (r_rad_inner_ow self * area_ow self) ;;
  let self := self <| alpha_rad_inner_ow := v |> in
  v <-[self] pydiv 1 (r_comb_inner_ow self * area_ow self) ;;
  let self := self <| alpha_comb_inner_ow := v |> in
  (* values facing the ambient; ground floors have none *)
  v <-[self] recip_sum2 r_outer_conv (outer_walls tz) (rooftops tz) ;;
  let self := self <| r_conv_outer_ow := v |> in
  v <-[self] recip_sum2 r_outer_rad (outer_walls tz) (rooftops tz) ;;
  let self := self <| r_rad_outer_ow := v |> in
  v <-[self] recip_sum2 r_outer_comb (outer_walls tz) (rooftops tz) ;;
  let self := self <| r_comb_outer_ow := v |> in
  v <-[self] (a <- sum_layer_last ir_emissivity (outer_walls tz) ;;
              c <- sum_layer_last ir_emissivity (rooftops tz) ;;
              q <- pydiv c (area_ow self) ;;
              Ok (a + q)) ;;
  let self := self <| ir_emissivity_outer_ow := v |> in
  v <-[self] (a <- sum_layer_last solar_absorp (outer_walls tz) ;;
              c <- sum_layer_last solar_absorp (rooftops tz) ;;
              q <- pydiv c (area_ow self) ;;
              Ok (a + q)) ;;
  let self := self <| solar_absorp_ow := v |> in
  v <-[self] pydiv 1 (r_conv_outer_ow self * area_ow self) ;;
  let self := self <| alpha_conv_outer_ow := v |> in
  v <-[self] pydiv 1 (r_rad_outer_ow self * area_ow self) ;;
  let self := self <| alpha_rad_outer_ow := v |> in
  v <-[self] pydiv 1 (r_comb_outer_ow self * area_ow self) ;;
  let self := self <| alpha_comb_outer_ow := v |> in
  Done self.

(** The composite the documentation of the class announces for the optical
    attributes ("area-weighted"): the whole sum over the area. *)
Definition area_weighted (prop : Element -> Exc Q) (members : list Element)
    (total_area : Q) : Exc Q :=
  s <- pysumE (fun x => p <- prop x ;; Ok (p * area x)) members ;;
  pydiv s total_area.

(** ** [_sum_inner_wall_elements] *)

Definition _sum_inner_wall_elements (self : TwoElement) : Res :=
  let tz := thermal_zone self in
  let self := self <| area_iw :=
    sum3 area (inner_walls tz) (floors tz) (ceilings tz) |> in
  let self := self <| ua_value_iw :=
    sum3 ua_value (inner_walls tz) (floors tz) (ceilings tz) |> in
  (* values facing the inside of the thermal zone *)
  v <-[self] recip_sum3 r_inner_conv (inner_walls tz) (floors tz) (ceilings tz) ;;
  let self := self <| r_conv_inner_iw := v |> in
  v <-[self] recip_sum3 r_inner_rad (inner_walls tz) (floors tz) (ceilings tz) ;;
  let self := self <| r_rad_inner_iw := v |> in
  v <-[self] recip_sum3 r_inner_comb (inner_walls tz) (floors tz) (ceilings tz) ;;
  let self := self <| r_comb_inner_iw := v |> in
  v <-[self] (a <- sum_layer0 ir_emissivity (inner_walls tz) ;;
              b <- sum_layer0 ir_emissivity (floors tz) ;;
              c <- sum_layer0 ir_emissivity (ceilings tz) ;;
              q <- pydiv c (area_iw self) ;;
              Ok (a + b + q)) ;;
  let self := self <| ir_emissivity_inner_iw := Some v |> in
  v <-[self] pydiv 1 (r_conv_inner_iw self * area_iw self) ;;
  let self := self <| alpha_conv_inner_iw := v |> in
  v <-[self] pydiv 1 (r_rad_inner_iw self * area_iw self) ;;
  let self := self <| alpha_rad_inner_iw := v |> in
  v <-[self] pydiv 1 (r_comb_inner_iw self * area_iw self) ;;
  let self := self <| alpha_comb_inner_iw := v |> in
  (* adjacent thermal zones are not supported! *)
  Done self.

(** ** [_sum_window_elements] *)

Definition _sum_window_elements (self : TwoElement) : Res :=
  let tz := thermal_zone self in
  let self := self <| area_win := pysum (map area (windows tz)) |> in
  let self := self <| ua_value_win := pysum (map ua_value (windows tz)) |> in
  (* values facing the inside of the thermal zone *)
  v <-[self] recip_sum1 r_inner_conv (windows tz) ;;
  let self := self <| r_conv_inner_win := v |> in
  v <-[self] recip_sum1 r_inner_rad (windows tz) ;;
  let self := self <| r_rad_inner_ow := v |> in
  v <-[self] recip_sum1 r_inner_comb (windows tz) ;;
  let self := self <| r_comb_inner_ow := v |> in
  v <-[self] sum_layer0 ir_emissivity (windows tz) ;;
  let self := self <| ir_emissivity_inner_ow := v |> in
  v <-[self] pydiv 1 (r_conv_inner_win self * area_win self) ;;
  let self := self <| alpha_conv_inner_win := v |> in
  v <-[self] pydiv 1 (r_rad_inner_win self * area_win self) ;;
  let self := self <| alpha_rad_inner_win := v |> in
  v <-[self] pydiv 1 (r_comb_inner_win self * area_win self) ;;
  let self := self <| alpha_comb_inner_win := v |> in
  (* values facing the ambient *)
  v <-[self] recip_sum1 r_outer_conv (windows tz) ;;
  let self := self <| r_conv_outer_win := v |> in
  v <-[self] recip_sum1 r_outer_rad (windows tz) ;;
  let self := self <| r_rad_outer_win := v |> in
  v <-[self] recip_sum1 r_outer_comb (windows tz) ;;
  let self := self <| r_comb_outer_win := v |> in
  v <-[self] sum_layer_last ir_emissivity (windows tz) ;;
  let self := self <| ir_emissivity_outer_win := v |> in
  v <-[self] sum_layer_last solar_absorp (windows tz) ;;
  let self := self <| solar_absorp_win := v |> in
  let self := self <| weighted_g_value :=
    pysum (map (fun win => g_value win * area win) (windows tz)) |> in
  v <-[self] pydiv 1 (r_conv_outer_win self * area_win self) ;;
  let self := self <| alpha_conv_outer_win := v |> in
  v <-[self] pydiv 1 (r_rad_outer_win self * area_win self) ;;
  let self := self <| alpha_rad_outer_win := v |> in
  v <-[self] pydiv 1 (r_comb_outer_win self * area_win self) ;;
  let self := self <| alpha_comb_outer_win := v |> in
  Done self.

(** ** Loops over the elements of the zone *)

(** [outer_walls + ground_floors + rooftops]. *)
Definition outer_elements (tz : ThermalZone) : list Element :=
  (outer_walls tz ++ ground_floors tz) ++ rooftops tz.

(** [inner_walls + floors + ceilings]. *)
Definition inner_elements (tz : ThermalZone) : list Element :=
  (inner_walls tz ++ floors tz) ++ ceilings tz.

(** [for x in outer_walls + ground_floors + rooftops: <write attributes of x>]:
    the three lists of the zone are visited in this order and hold the written
    elements afterwards. *)
Definition for_each_outer (f : Element -> Exc Element) (tz : ThermalZone) : Exc ThermalZone :=
  ows <- py_for_each f (outer_walls tz) ;;
  gfs <- py_for_each f (ground_floors tz) ;;
  rts <- py_for_each f (rooftops tz) ;;
  Ok (tz <| outer_walls := ows |> <| ground_floors := gfs |> <| rooftops := rts |>).

Definition for_each_inner (f : Element -> Exc Element) (tz : ThermalZone) : Exc ThermalZone :=
  iws <- py_for_each f (inner_walls tz) ;;
  fls <- py_for_each f (floors tz) ;;
  cls <- py_for_each f (ceilings tz) ;;
  Ok (tz <| inner_walls := iws |> <| floors := fls |> <| ceilings := cls |>).

Definition for_each_window (f : Element -> Exc Element) (tz : ThermalZone) : Exc ThermalZone :=
  ws <- py_for_each f (windows tz) ;;
  Ok (tz <| windows := ws |>).

(** [omega = 2 * math.pi / 86400 / self.t_bt]. *)
Definition omega_of (t : Z) : Exc Q :=
  pydiv (2 * math_pi / 86400) (inject_Z t).

Definition msg_no_outer_walls : string :=
  "No walls are defined as outer walls, please be careful with results. In addition this might lead to RunTimeErrors".

Definition msg_no_lumped : string :=
  "As no outer walls or no windows are defined lumped parameter cannot be calculated".

Definition msg_merge_windows : string :=
  "specify merge window method correctly".

(** *** [_calc_outer_elements], block by block *)

(** The [if 0 < len(outer_walls) <= 1: ... elif len(outer_walls) > 1: ...
    else: ...] statement. *)
Definition lump_outer (outer_walls : list Element) (omega : Q) (self : TwoElement) : Res :=
  let n := length outer_walls in
  if ((0 <? n) && (n <=? 1))%nat then
    (* only one outer wall, no need to calculate chain matrix *)
    e <-[self] py_index outer_walls 0 ;;
    let self := self <| r1_ow := r1 e |> in
    e <-[self] py_index outer_walls 0 ;;
    let self := self <| c1_ow := c1_korr e |> in
    Done self
  else if (1 <? n)%nat then
    (* more than one outer wall, calculate chain matrix *)
    p <-[self] _calc_chain_matrix outer_walls omega ;;
    let self := self <| r1_ow := fst p |> <| c1_ow := snd p |> in
    Done self
  else
    Done (warnings_warn msg_no_outer_walls self).

(** The suite of the [try] under [if self.merge_windows is False:]. *)
Definition separate_windows_try (self : TwoElement) : Res :=
  v <-[self] (s <- pysumE (fun win => pydiv 1 (r1 win + r_outer_comb win))
                          (windows (thermal_zone self)) ;;
              pydiv 1 s) ;;
  let self := self <| r1_win := v |> in
  v <-[self] pydiv 1 (ua_value_ow self) ;;
  let self := self <| r_total_ow := v |> in
  v <-[self] (a <- pydiv 1 (r_rad_inner_ow self) ;; pydiv 1 a) ;;
  let self := self <| r_rad_ow_iw := v |> in
  v <-[self] (a <- pydiv 1 (r_conv_inner_ow self) ;;
              b <- pydiv 1 (r_rad_ow_iw self) ;;
              p <- pydiv 1 (a + b) ;;
              Ok (r_total_ow self - r1_ow self - p)) ;;
  let self := self <| r_rest_ow := v |> in
  Done self.

(** The statement [if self.merge_windows is False: try: ... except
    RuntimeError: print(...)]. *)
Definition separate_windows (self : TwoElement) : Res :=
  if is_False (merge_windows self) then
    try_except_RuntimeError (separate_windows_try self)
                            (fun self => Done (print msg_no_lumped self))
  else Done self.

(** The suite of the [try] under [if self.merge_windows is True:]. *)
Definition merged_windows_try (self : TwoElement) : Res :=
  v <-[self] pysumE (fun win => pydiv 1 (r1 win / 6))
                    (windows (thermal_zone self)) ;;
  let self := self <| r1_win := v |> in
  v <-[self] (a <- pydiv 1 (r1_ow self) ;; pydiv 1 (a + r1_win self)) ;;
  let self := self <| r1_ow := v |> in
  v <-[self] pydiv 1 (ua_value_ow self + ua_value_win self) ;;
  let self := self <| r_total_ow := v |> in
  v <-[self] (a <- pydiv 1 (r_rad_inner_ow self) ;;
              b <- pydiv 1 (r_rad_inner_win self) ;;
              pydiv 1 (a + b)) ;;
  let self := self <| r_rad_ow_iw := v |> in
  v <-[self] (a <- pydiv 1 (r_conv_inner_ow self) ;;
              b <- pydiv 1 (r_conv_inner_win self) ;;
              c <- pydiv 1 (r_rad_ow_iw self) ;;
              p <- pydiv 1 (a + b + c) ;;
              Ok (r_total_ow self - r1_ow self - p)) ;;
  let self := self <| r_rest_ow := v |> in
  (* TODO: should we handle this in another way? *)
  v <-[self] pydiv (ir_emissivity_inner_ow self * area_ow self
                    + ir_emissivity_inner_win self * area_win self)
                   (area_ow self + area_win self) ;;
  let self := self <| ir_emissivity_inner_ow := v |> in
  v <-[self] pydiv (ir_emissivity_outer_ow self * area_ow self
                    + ir_emissivity_outer_win self * area_win self)
                   (area_ow self + area_win self) ;;
  let self := self <| ir_emissivity_outer_ow := v |> in
  v <-[self] pydiv (solar_absorp_ow self * area_ow self
                    + solar_absorp_win self * area_win self)
                   (area_ow self + area_win self) ;;
  let self := self <| solar_absorp_ow := v |> in
  Done self.

(** The statement [if self.merge_windows is True: try: ... except
    RuntimeError: print(...)]. *)
Definition merged_windows (self : TwoElement) : Res :=
  if is_True (merge_windows self) then
    try_except_RuntimeError (merged_windows_try self)
                            (fun self => Done (print msg_no_lumped self))
  else Done self.

Section ElementMethods.

(** The methods [calc_equivalent_res()] and [calc_ua_value()] belong to the
    element classes, which are not part of this module: each takes an element
    to the element with its attributes recalculated.  They are assumed to
    return. *)
Variable calc_equivalent_res : Element -> Element.
Variable calc_ua_value : Element -> Element.

(** [x.calc_equivalent_res(); x.calc_ua_value()]. *)
Definition recalculate (x : Element) : Exc Element :=
  Ok (calc_ua_value (calc_equivalent_res x)).

(** The zone after every outer element and every window has recalculated
    itself. *)
Definition recalculated (tz : ThermalZone) : ThermalZone :=
  tz <| outer_walls := map (fun x => calc_ua_value (calc_equivalent_res x)) (outer_walls tz) |>
     <| ground_floors := map (fun x => calc_ua_value (calc_equivalent_res x)) (ground_floors tz) |>
     <| rooftops := map (fun x => calc_ua_value (calc_equivalent_res x)) (rooftops tz) |>
     <| windows := map (fun x => calc_ua_value (calc_equivalent_res x)) (windows tz) |>.

(** The two [for] loops at the head of [_calc_outer_elements]. *)
Definition recalculate_outer (self : TwoElement) : Res :=
  tz <-[self] for_each_outer recalculate (thermal_zone self) ;;
  let self := self <| thermal_zone := tz |> in
  tz <-[self] for_each_window recalculate (thermal_zone self) ;;
  let self := self <| thermal_zone := tz |> in
  Done self.

Definition _calc_outer_elements (self : TwoElement) : Res :=
  omega <-[self] omega_of (t_bt self) ;;
  recalculate_outer self ;;> fun self =>
  lump_outer (outer_elements (thermal_zone self)) omega self ;;> fun self =>
  separate_windows self ;;> fun self =>
  merged_windows self.

(** ** [_calc_inner_elements] *)

Definition _calc_inner_elements (self : TwoElement) : Res :=
  omega <-[self] omega_of (t_bt self) ;;
  tz <-[self] for_each_inner recalculate (thermal_zone self) ;;
  let self := self <| thermal_zone := tz |> in
  let inner_walls := inner_elements (thermal_zone self) in
  let n := length inner_walls in
  if ((0 <? n) && (n <=? 1))%nat then
    e <-[self] py_index inner_walls 0 ;;
    let self := self <| r1_1w := Some (r1 e) |> in
    e <-[self] py_index inner_walls 0 ;;
    let self := self <| c1_1w := Some (c1_korr e) |> in
    Done self
  else if (1 <? n)%nat then
    p <-[self] _calc_chain_matrix inner_walls omega ;;
    let self := self <| r1_1w := Some (fst p) |> <| c1_1w := Some (snd p) |> in
    Done self
  else
    Done (warnings_warn msg_no_outer_walls self).

(** ** [_calc_wf] *)

(** [x.wf_out = x.ua_value / denominator]. *)
Definition assign_wf_out (denominator : Q) (x : Element) : Exc Element :=
  v <- pydiv (ua_value x) denominator ;;
  Ok (x <| wf_out := v |>).

Definition _calc_wf (self : TwoElement) : Res :=
  if is_True (merge_windows self) then
    tz <-[self] for_each_outer
                  (assign_wf_out (ua_value_ow self + ua_value_win self))
                  (thermal_zone self) ;;
    let self := self <| thermal_zone := tz |> in
    tz <-[self] for_each_window
                  (assign_wf_out (ua_value_ow self + ua_value_win self))
                  (thermal_zone self) ;;
    let self := self <| thermal_zone := tz |> in
    Done self
  else if is_False (merge_windows self) then
    tz <-[self] for_each_outer (assign_wf_out (ua_value_ow self))
                               (thermal_zone self) ;;
    let self := self <| thermal_zone := tz |> in
    tz <-[self] for_each_window (assign_wf_out (ua_value_win self))
                                (thermal_zone self) ;;
    let self := self <| thermal_zone := tz |> in
    Done self
  else
    Raised (ValueError msg_merge_windows) self.

(** ** [__init__] *)

(** The object after the attribute assignments of the constructor, before
    its five method calls. *)
Definition initial (tz : ThermalZone) (mw : PyObj) (t : Z) : TwoElement := {|
  thermal_zone := tz;
  merge_windows := mw;
  t_bt := t;
  area_iw := 0;
  alpha_conv_inner_iw := 0;
  alpha_rad_inner_iw := 0;
  alpha_comb_inner_iw := 0;
  alpha_conv_outer_iw := 0;
  alpha_rad_outer_iw := 0;
  alpha_comb_outer_iw := 0;
  ua_value_iw := 0;
  r_conv_inner_iw := 0;
  r_rad_inner_iw := 0;
  r_comb_inner_iw := 0;
  r_conv_outer_iw := 0;
  r_rad_outer_iw := 0;
  r_comb_outer_iw := 0;
  r1_iw := 0;
  c1_iw := 0;
  area_ow := 0;
  alpha_conv_inner_ow := 0;
  alpha_rad_inner_ow := 0;
  alpha_comb_inner_ow := 0;
  alpha_conv_outer_ow := 0;
  alpha_rad_outer_ow := 0;
  alpha_comb_outer_ow := 0;
  ua_value_ow := 0;
  r_conv_inner_ow := 0;
  r_rad_inner_ow := 0;
  r_comb_inner_ow := 0;
  r_conv_outer_ow := 0;
  r_rad_outer_ow := 0;
  r_comb_outer_ow := 0;
  r1_ow := 0;
  r_rest_ow := 0;
  c1_ow := 0;
  r_total_ow := 0;
  ir_emissivity_outer_ow := 0;
  ir_emissivity_inner_ow := 0;
  solar_absorp_ow := 0;
  weightfactor_ow := [];
  weightfactor_ground := [];
  tilt_wall := [];
  orientation_wall := [];
  outer_walls_areas := [];
  r_rad_ow_iw := 0;
  area_win := 0;
  alpha_conv_inner_win := 0;
  alpha_rad_inner_win := 0;
  alpha_comb_inner_win := 0;
  alpha_conv_outer_win := 0;
  alpha_rad_outer_win := 0;
  alpha_comb_outer_win := 0;
  ua_value_win := 0;
  r_conv_inner_win := 0;
  r_rad_inner_win := 0;
  r_comb_inner_win := 0;
  r_conv_outer_win := 0;
  r_rad_outer_win := 0;
  r_comb_outer_win := 0;
  r1_win := 0;
  ir_emissivity_outer_win := 0;
  ir_emissivity_inner_win := 0;
  solar_absorp_win := 0;
  weightfactor_win := [];
  tilt_win := [];
  orientation_win := [];
  window_areas := [];
  g_sunblind_list := [];
  weighted_g_value := 0;
  ir_emissivity_inner_iw := None;
  r1_1w := None;
  c1_1w := None;
  warnings_issued := [];
  printed := []
|}.

Definition __init__ (tz : ThermalZone) (mw : PyObj) (t : Z) : Res :=
  _sum_outer_wall_elements (initial tz mw t) ;;> fun self =>
  _sum_inner_wall_elements self ;;> fun self =>
  _sum_window_elements self ;;> fun self =>
  _calc_outer_elements self ;;> fun self =>
  _calc_wf self.

End ElementMethods.

(** ** The window policies in the words of the specification *)

(** [1 / (1/a + 1/b)]. *)
Definition parallel (a b : Q) : Q := 1 / (1 / a + 1 / b).

(** Separate policy ([merge_windows = false]). *)
Definition spec_separate (s : TwoElement) : TwoElement :=
  let r1_win' :=
    1 / pysum (map (fun win => 1 / (r1 win + r_outer_comb win))
                   (windows (thermal_zone s))) in
  let r_total_ow' := 1 / ua_value_ow s in
  let r_rad_ow_iw' := 1 / (1 / r_rad_inner_ow s) in
  let r_rest_ow' :=
    r_total_ow' - r1_ow s - parallel (r_conv_inner_ow s) r_rad_ow_iw' in
  s <| r1_win := r1_win' |> <| r_total_ow := r_total_ow' |>
    <| r_rad_ow_iw := r_rad_ow_iw' |> <| r_rest_ow := r_rest_ow' |>.

(** Merged policy ([merge_windows = true]). *)
Definition spec_merged (s : TwoElement) : TwoElement :=
  let r1_win' :=
    pysum (map (fun win => 1 / (r1 win / 6)) (windows (thermal_zone s))) in
  let r1_ow' := 1 / (1 / r1_ow s + r1_win') in
  let r_total_ow' := 1 / (ua_value_ow s + ua_value_win s) in
  let r_rad_ow_iw' := 1 / (1 / r_rad_inner_ow s + 1 / r_rad_inner_win s) in
  let r_rest_ow' :=
    r_total_ow' - r1_ow'
    - 1 / (1 / r_conv_inner_ow s + 1 / r_conv_inner_win s + 1 / r_rad_ow_iw') in
  let total_area := area_ow s + area_win s in
  s <| r1_win := r1_win' |> <| r1_ow := r1_ow' |>
    <| r_total_ow := r_total_ow' |> <| r_rad_ow_iw := r_rad_ow_iw' |>
    <| r_rest_ow := r_rest_ow' |>
    <| ir_emissivity_inner_ow :=
         (ir_emissivity_inner_ow s * area_ow s
          + ir_emissivity_inner_win s * area_win s) / total_area |>
    <| ir_emissivity_outer_ow :=
         (ir_emissivity_outer_ow s * area_ow s
          + ir_emissivity_outer_win s * area_win s) / total_area |>
    <| solar_absorp_ow :=
         (solar_absorp_ow s * area_ow s
          + solar_absorp_win s * area_win s) / total_area |>.

(** An element with the weight factor [ua_value / d]. *)
Definition with_wf_out (d : Q) (x : Element) : Element :=
  x <| wf_out := ua_value x / d |>.

(** How the window pass ends when it starts from the object [s]: with an
    exception, [r_rad_inner_win] still as in [s]; the exception is
    [ZeroDivisionError], or [IndexError] from [layer[0]] of a window without
    layers. *)
Definition window_pass_fails (s : TwoElement) (r : Res) : Prop :=
  match r with
  | Done _ => False
  | Raised e s' =>
    r_rad_inner_win s' = r_rad_inner_win s /\
    (e = ZeroDivisionError \/
     (e = IndexError /\
      Exists (fun win => layer win = []) (windows (thermal_zone s))))
  end.

(** The outcome [r] of a call on [s] left [r1_iw] and [c1_iw] as they were,
    whether the call completed or raised. *)
Definition keeps_inner_pair (s : TwoElement) (r : Res) : Prop :=
  match r with
  | Done s' | Raised _ s' => r1_iw s' = r1_iw s /\ c1_iw s' = c1_iw s
  end.

(** ** Sample data *)

(** Elements whose equivalent resistance and UA value are up to date:
    recalculating them changes nothing. *)
Definition up_to_date (x : Element) : Element := x.

Definition plaster : Material := {| ir_emissivity := 9 # 10; solar_absorp := 1 # 2 |}.
Definition glass : Material := {| ir_emissivity := 8 # 10; solar_absorp := 0 |}.

Definition sample_wall : Element := {|
  area := 20; ua_value := 40;
  r_inner_conv := 1 # 50; r_inner_rad := 1 # 100; r_inner_comb := 1 # 150;
  r_outer_conv := 1 # 400; r_outer_rad := 1 # 100; r_outer_comb := 1 # 500;
  r1 := 2 # 1000; c1 := 4000000; c1_korr := 5000000;
  layer := [ {| material := plaster |} ]; g_value := 0; wf_out := 0 |}.

Definition sample_roof : Element := {|
  area := 10; ua_value := 10;
  r_inner_conv := 1 # 20; r_inner_rad := 1 # 50; r_inner_comb := 1 # 70;
  r_outer_conv := 1 # 200; r_outer_rad := 1 # 50; r_outer_comb := 1 # 250;
  r1 := 3 # 1000; c1 := 2000000; c1_korr := 2500000;
  layer := [ {| material := plaster |} ]; g_value := 0; wf_out := 0 |}.

Definition sample_window : Element := {|
  area := 4; ua_value := 8;
  r_inner_conv := 1 # 10; r_inner_rad := 1 # 20; r_inner_comb := 1 # 30;
  r_outer_conv := 1 # 80; r_outer_rad := 1 # 20; r_outer_comb := 2 # 100;
  r1 := 1 # 100; c1 := 0; c1_korr := 0;
  layer := [ {| material := glass |} ]; g_value := 6 # 10; wf_out := 0 |}.

Definition sample_zone (ows rts ws iws : list Element) : ThermalZone := {|
  outer_walls := ows; ground_floors := []; rooftops := rts; windows := ws;
  inner_walls := iws; floors := []; ceilings := [] |}.

(** The object a call leaves, whether it completed or raised. *)
Definition after (r : Res) : TwoElement :=
  match r with Done s => s | Raised _ s => s end.

(** The object on which the assembler is run below: the attributes of the
    outer walls as [_sum_outer_wall_elements] leaves them, and the window
    attributes the assembler reads set to the aggregates of the sample
    window. *)
Definition sample_object (tz : ThermalZone) (mw : PyObj) : TwoElement :=
  (after (_sum_outer_wall_elements (initial tz mw 5)))
    <| area_win := 4 |> <| ua_value_win := 8 |>
    <| r_conv_inner_win := 1 # 10 |> <| r_rad_inner_win := 1 # 20 |>.

Definition zone_wall_window : ThermalZone :=
  sample_zone [sample_wall] [] [sample_window] [sample_wall].

Definition zone_wall_roof_window : ThermalZone :=
  sample_zone [sample_wall] [sample_roof] [sample_window] [sample_wall].

Definition zone_no_windows : ThermalZone :=
  sample_zone [sample_wall] [] [] [sample_wall].

Definition zone_no_outer : ThermalZone :=
  sample_zone [] [] [sample_window] [sample_wall].


(** The object the assembler leaves for the sample object of a zone. *)
Definition assembled (tz : ThermalZone) (mw : PyObj) : TwoElement :=
  after (_calc_outer_elements up_to_date up_to_date (sample_object tz mw)).

(** [x.layer[0].material.ir_emissivity]. *)
Definition inner_emissivity (x : Element) : Exc Q :=
  ly <- py_index (layer x) 0 ;; Ok (ir_emissivity (material ly)).

(** The objects the first two passes of the constructor leave on a zone. *)
Definition outer_summed (tz : ThermalZone) (mw : PyObj) : TwoElement :=
  after (_sum_outer_wall_elements (initial tz mw 5)).

Definition inner_summed (tz : ThermalZone) (mw : PyObj) : TwoElement :=
  after (_sum_inner_wall_elements (outer_summed tz mw)).

(** ** The range of the finite floats *)

(** [sys.float_info.max], the largest finite float:
    [(2 - 2^-52) * 2^1023]. *)
Definition float_max : Q := inject_Z (2 ^ 1024 - 2 ^ 971).

Definition in_float_range (x : Q) : bool :=
  Qle_bool (- float_max) x && Qle_bool x float_max.



(** ** Quantities and outcomes the further properties are stated with *)

(** The admittance of a resistance [r] in series with a capacity [c] at the
    angular frequency [omega] is
    [(omega^2 r c^2 + i omega c) / (1 + omega^2 r^2 c^2)]: its real part
    divided by [omega^2], and its imaginary part divided by [omega]. *)
Definition branch_re (omega r c : Q) : Q :=
  r * c ^ 2 / (1 + omega ^ 2 * r ^ 2 * c ^ 2).

Definition branch_im (omega r c : Q) : Q :=
  c / (1 + omega ^ 2 * r ^ 2 * c ^ 2).

(** An expression raises nothing but [ZeroDivisionError] and
    [IndexError]. *)
Definition zde_or_index {A : Type} (x : Exc A) : Prop :=
  forall e, x = Raise e -> e = ZeroDivisionError \/ e = IndexError.


(** The outcome [r] of the window statements of the assembler on [s]: what
    they leave alone, and the only exception they raise. *)
Definition assembler_tail_outcome (s : TwoElement) (r : Res) : Prop :=
  match r with
  | Done s' =>
    thermal_zone s' = thermal_zone s /\ c1_ow s' = c1_ow s /\
    warnings_issued s' = warnings_issued s /\ printed s' = printed s
  | Raised e s' =>
    e = ZeroDivisionError /\
    thermal_zone s' = thermal_zone s /\ c1_ow s' = c1_ow s /\
    warnings_issued s' = warnings_issued s /\ printed s' = printed s
  end.

(** * The week profiles of [example_change_boundary_conditions] *)

(** [for val in workday: <entry>; week.append(<entry>)], for one day. *)
Definition append_day (entry : Q -> Q) (workday week : list Q) : list Q :=
  fold_left (fun week val => week ++ [entry val]) workday week.

(** [week = []; for day in range(7): for val in workday: ...]. *)
Definition week_loop (entry : nat -> Q -> Q) (workday : list Q) : list Q :=
  fold_left (fun week day => append_day (entry day) workday week) (seq 0 7) [].

(** [if day < 5: ratio = val
     else: if val == 1: ratio = 0.2 else: ratio = 0.0]. *)
Definition ratio (day : nat) (val : Q) : Q :=
  if (day <? 5)%nat then val
  else if Qeq_bool val 1 then 2 # 10 else 0.

Definition v_flow_week (workday : list Q) : list Q :=
  week_loop ratio workday.

(** [if day < 5: set_point = val else: set_point = 290.0]. *)
Definition set_point (day : nat) (val : Q) : Q :=
  if (day <? 5)%nat then val else 290.

Definition heating_profile_week (workday : list Q) : list Q :=
  week_loop set_point workday.

(** The two workday lists of the example, 25 entries each. *)
Definition v_flow_workday : list Q :=
  [0; 0; 0; 0; 0; 0; 1; 1; 1; 1; 1; 1; 1; 1; 1; 1; 1; 1; 0; 0; 0; 0; 0; 0; 0].

Definition heating_profile_workday : list Q :=
  [293; 293; 293; 293; 293; 293; 293; 293; 293; 293; 293; 293; 293; 293; 293;
   293; 293; 293; 293; 293; 293; 293; 293; 293; 293].

(** ** Further sample data *)

(** A zone whose only outer element is a ground floor, and one without
    inner elements. *)
Definition zone_ground_only : ThermalZone :=
  (sample_zone [] [] [sample_window] [sample_wall])
    <| ground_floors := [sample_wall] |>.

Definition zone_no_inner : ThermalZone :=
  sample_zone [sample_wall] [] [sample_window] [].


(** * Properties *)

(** ** Results of expressions *)

Lemma pydiv_Ok (a b v : Q) :
  pydiv a b = Ok v -> ~ b == 0 /\ v = a / b.
Proof.
  unfold pydiv. destruct (Qeq_bool b 0) eqn:E; intros H; inversion H.
  split; [|reflexivity].
  intros Hb. apply Qeq_bool_iff in Hb. congruence.
Qed.

Lemma pydiv_Raise (a b : Q) (e : PyExc) :
  pydiv a b = Raise e -> b == 0 /\ e = ZeroDivisionError.
Proof.
  unfold pydiv. destruct (Qeq_bool b 0) eqn:E; intros H; inversion H.
  split; [|reflexivity]. now apply Qeq_bool_iff.
Qed.

Lemma pydiv_nonzero (a b : Q) :
  ~ b == 0 -> pydiv a b = Ok (a / b).
Proof.
  intros Hb. unfold pydiv. destruct (Qeq_bool b 0) eqn:E; [|reflexivity].
  apply Qeq_bool_iff in E. contradiction.
Qed.

Lemma pydiv_zero (a b : Q) :
  b == 0 -> pydiv a b = Raise ZeroDivisionError.
Proof.
  intros Hb. unfold pydiv. apply Qeq_bool_iff in Hb. now rewrite Hb.
Qed.

Lemma bind_Ok {A B : Type} (x : Exc A) (k : A -> Exc B) (b : B) :
  bind x k = Ok b -> exists a, x = Ok a /\ k a = Ok b.
Proof. destruct x; simpl; intros H; [eauto | discriminate]. Qed.

Lemma eval_in_Done {A : Type} (self : TwoElement) (x : Exc A) (k : A -> Res) s' :
  eval_in self x k = Done s' -> exists a, x = Ok a /\ k a = Done s'.
Proof. destruct x; simpl; intros H; [eauto | discriminate]. Qed.

Lemma and_then_Done (r : Res) (k : TwoElement -> Res) s' :
  and_then r k = Done s' -> exists s, r = Done s /\ k s = Done s'.
Proof. destruct r; simpl; intros H; [eauto | discriminate]. Qed.

(** ** The chain-matrix loop is the fold of the specification *)

Lemma fold_spec_step_Raise (omega : Q) (others : list Element) (e : PyExc) :
  fold_left (spec_step omega) others (Raise e) = Raise e.
Proof. induction others as [|x xs IH]; simpl; [reflexivity | exact IH]. Qed.

Lemma chain_matrix_body_first (omega : Q) (e0 e1 : Element) (rest : list Element)
    (locals : option (Q * Q)) :
  chain_matrix_body (e0 :: e1 :: rest) omega 0 locals =
  (p <- spec_combine omega (r1 e0, c1 e0) e1 ;; Ok (Some p)).
Proof.
  unfold chain_matrix_body, spec_combine, pydiv; simpl.
  destruct (Qeq_bool _ 0); simpl; [reflexivity|].
  destruct (Qeq_bool _ 0); reflexivity.
Qed.

Lemma chain_matrix_body_next (omega : Q) (l : list Element) (k : nat)
    (p : Q * Q) (e' : Element) :
  (0 < k)%nat -> nth_error l (k + 1) = Some e' ->
  chain_matrix_body l omega k (Some p) =
  (q <- spec_combine omega p e' ;; Ok (Some q)).
Proof.
  intros Hk Hn. unfold chain_matrix_body.
  destruct (Nat.eqb_spec k 0) as [->|_]; [lia|].
  destruct p as [r1x c1x].
  unfold py_index. rewrite Hn. unfold spec_combine, pydiv; simpl.
  destruct (Qeq_bool _ 0); simpl; [reflexivity|].
  destruct (Qeq_bool _ 0); reflexivity.
Qed.

Lemma chain_matrix_loop_suffix (omega : Q) (l : list Element) :
  forall (others : list Element) (k : nat) (p : Q * Q),
    (0 < k)%nat ->
    (forall j, nth_error l (k + 1 + j) = nth_error others j) ->
    chain_matrix_loop l omega (seq k (length others)) (Some p) =
    (q <- fold_left (spec_step omega) others (Ok p) ;; Ok (Some q)).
Proof.
  induction others as [|e others IH]; intros k p Hk Hn; [reflexivity|].
  cbn [length seq chain_matrix_loop fold_left].
  rewrite (chain_matrix_body_next omega l k p e Hk).
  2:{ specialize (Hn 0%nat). rewrite Nat.add_0_r in Hn. exact Hn. }
  unfold spec_step at 2. cbn [bind].
  destruct (spec_combine omega p e) as [q|err]; cbn [bind].
  - apply IH; [lia|].
    intros j. specialize (Hn (S j)).
    replace (S k + 1 + j)%nat with (k + 1 + S j)%nat by lia. exact Hn.
  - now rewrite fold_spec_step_Raise.
Qed.

Lemma calc_chain_matrix_fold (omega : Q) (first second : Element) (others : list Element) :
  _calc_chain_matrix (first :: second :: others) omega =
  spec_reduce omega first (second :: others).
Proof.
  unfold _calc_chain_matrix, spec_reduce.
  cbn [length Nat.sub seq chain_matrix_loop fold_left].
  rewrite chain_matrix_body_first.
  unfold spec_step at 2. cbn [bind].
  destruct (spec_combine omega (r1 first, c1 first) second) as [p|err]; cbn [bind].
  - rewrite (chain_matrix_loop_suffix omega (first :: second :: others) others 1 p);
      [|lia|reflexivity].
    destruct (fold_left (spec_step omega) others (Ok p)) as [[ra ca]|err];
      reflexivity.
  - now rewrite fold_spec_step_Raise.
Qed.

(** ** Which exceptions an expression can raise *)

Definition only_zde {A : Type} (x : Exc A) : Prop :=
  forall e, x = Raise e -> e = ZeroDivisionError.

Lemma only_zde_Ok {A : Type} (a : A) : only_zde (Ok a).
Proof. intros e H. discriminate. Qed.

Lemma only_zde_pydiv (a b : Q) : only_zde (pydiv a b).
Proof. intros e H. now apply pydiv_Raise in H. Qed.

Lemma only_zde_bind {A B : Type} (x : Exc A) (k : A -> Exc B) :
  only_zde x -> (forall a, only_zde (k a)) -> only_zde (bind x k).
Proof.
  intros Hx Hk e. destruct x as [a|e']; simpl.
  - apply Hk.
  - intros H. inversion H; subst. now apply Hx.
Qed.

Lemma only_zde_pysum_from {A : Type} (f : A -> Exc Q) (xs : list A) :
  (forall x, only_zde (f x)) -> forall acc, only_zde (pysum_from f xs acc).
Proof.
  intros Hf. induction xs as [|x xs IH]; intros acc; simpl.
  - apply only_zde_Ok.
  - apply only_zde_bind; [apply Hf | intros; apply IH].
Qed.

Lemma only_zde_pysumE {A : Type} (f : A -> Exc Q) (xs : list A) :
  (forall x, only_zde (f x)) -> only_zde (pysumE f xs).
Proof. intros Hf. now apply only_zde_pysum_from. Qed.

Create HintDb zde discriminated.
#[local] Hint Resolve only_zde_Ok only_zde_pydiv only_zde_bind only_zde_pysumE : zde.

Definition raises_only_zde (r : Res) : Prop :=
  forall e s, r = Raised e s -> e = ZeroDivisionError.

Lemma raises_only_zde_Done (s : TwoElement) : raises_only_zde (Done s).
Proof. intros e s' H. discriminate. Qed.

Lemma raises_only_zde_eval_in {A : Type} self (x : Exc A) (k : A -> Res) :
  only_zde x -> (forall a, raises_only_zde (k a)) ->
  raises_only_zde (eval_in self x k).
Proof.
  intros Hx Hk e s. destruct x as [a|e']; simpl.
  - apply Hk.
  - intros H. inversion H; subst. now apply Hx.
Qed.

Lemma try_except_transparent (body : Res) (handler : TwoElement -> Res) :
  raises_only_zde body -> try_except_RuntimeError body handler = body.
Proof.
  intros Hb. destruct body as [s|e s]; [reflexivity|].
  rewrite (Hb e s eq_refl). reflexivity.
Qed.

(** Steps through the statements of a method in a goal
    [raises_only_zde _]. *)
Ltac only_zde_steps :=
  repeat first
    [ apply raises_only_zde_Done
    | apply raises_only_zde_eval_in;
      [ auto 8 with zde
      | let v := fresh "v" in intros v; cbv beta ] ].

(** One expression of a method that completed: it returned a value [v]. *)
Ltac step_done H :=
  let v := fresh "v" in
  let E := fresh "E" in
  apply eval_in_Done in H; destruct H as (v & E & H); cbv beta in H.

Lemma separate_windows_try_only_zde (self : TwoElement) :
  raises_only_zde (separate_windows_try self).
Proof. unfold separate_windows_try. only_zde_steps. Qed.

Lemma merged_windows_try_only_zde (self : TwoElement) :
  raises_only_zde (merged_windows_try self).
Proof. unfold merged_windows_try. only_zde_steps. Qed.

(** ** Sums *)

Lemma pysum_from_pydiv {A : Type} (a : Q) (f : A -> Q) (xs : list A) :
  forall acc v,
    pysum_from (fun x => pydiv a (f x)) xs acc = Ok v ->
    v = fold_left Qplus (map (fun x => a / f x) xs) acc /\
    Forall (fun x => ~ f x == 0) xs.
Proof.
  induction xs as [|x xs IH]; intros acc v H; simpl in *.
  - inversion H. split; [reflexivity | constructor].
  - apply bind_Ok in H. destruct H as (q & Hq & H).
    apply pydiv_Ok in Hq. destruct Hq as [Hx ->].
    apply IH in H. destruct H as [-> HF].
    split; [reflexivity | now constructor].
Qed.

Lemma pysumE_pydiv {A : Type} (a : Q) (f : A -> Q) (xs : list A) (v : Q) :
  pysumE (fun x => pydiv a (f x)) xs = Ok v ->
  v = pysum (map (fun x => a / f x) xs) /\ Forall (fun x => ~ f x == 0) xs.
Proof. apply pysum_from_pydiv. Qed.

(** Reads of attributes through assignments: [attr (self <| attr' := v |>)]
    becomes [v] or [attr self]. *)
Ltac read_attributes :=
  cbn [set const
      thermal_zone merge_windows t_bt area_iw alpha_conv_inner_iw
      alpha_rad_inner_iw alpha_comb_inner_iw alpha_conv_outer_iw
      alpha_rad_outer_iw alpha_comb_outer_iw ua_value_iw r_conv_inner_iw
      r_rad_inner_iw r_comb_inner_iw r_conv_outer_iw r_rad_outer_iw
      r_comb_outer_iw r1_iw c1_iw area_ow alpha_conv_inner_ow
      alpha_rad_inner_ow alpha_comb_inner_ow alpha_conv_outer_ow
      alpha_rad_outer_ow alpha_comb_outer_ow ua_value_ow r_conv_inner_ow
      r_rad_inner_ow r_comb_inner_ow r_conv_outer_ow r_rad_outer_ow
      r_comb_outer_ow r1_ow r_rest_ow c1_ow r_total_ow
      ir_emissivity_outer_ow ir_emissivity_inner_ow solar_absorp_ow
      weightfactor_ow weightfactor_ground tilt_wall orientation_wall
      outer_walls_areas r_rad_ow_iw area_win alpha_conv_inner_win
      alpha_rad_inner_win alpha_comb_inner_win alpha_conv_outer_win
      alpha_rad_outer_win alpha_comb_outer_win ua_value_win
      r_conv_inner_win r_rad_inner_win r_comb_inner_win r_conv_outer_win
      r_rad_outer_win r_comb_outer_win r1_win ir_emissivity_outer_win
      ir_emissivity_inner_win solar_absorp_win weightfactor_win tilt_win
      orientation_win window_areas g_sunblind_list weighted_g_value
      ir_emissivity_inner_iw r1_1w c1_1w warnings_issued printed] in *;
  unfold const in *.

(** The closing steps for a method that completed: attribute reads are
    resolved and the results of the divisions are replaced by their
    quotients. *)
Ltac resolve_done H :=
  inversion H; clear H;
  read_attributes;
  repeat match goal with
         | E : bind _ _ = Ok _ |- _ =>
             apply bind_Ok in E; destruct E as (? & ? & E)
         | E : pysumE _ _ = Ok _ |- _ =>
             apply pysumE_pydiv in E; destruct E as [E _]
         | E : pydiv _ _ = Ok _ |- _ =>
             apply pydiv_Ok in E; destruct E as [_ E]
         | E : Ok _ = Ok _ |- _ => inversion E; clear E
         end;
  subst.

(** ** The window statements of the assembler *)

Lemma separate_windows_skip (s : TwoElement) :
  is_False (merge_windows s) = false -> separate_windows s = Done s.
Proof. intros H. unfold separate_windows. now rewrite H. Qed.

Lemma merged_windows_skip (s : TwoElement) :
  is_True (merge_windows s) = false -> merged_windows s = Done s.
Proof. intros H. unfold merged_windows. now rewrite H. Qed.

Lemma separate_windows_Done (s s' : TwoElement) :
  merge_windows s = PyBool false ->
  separate_windows s = Done s' ->
  s' = spec_separate s.
Proof.
  intros Hmw H. unfold separate_windows in H. rewrite Hmw in H. simpl is_False in H.
  cbv iota in H.
  rewrite try_except_transparent in H by apply separate_windows_try_only_zde.
  unfold separate_windows_try in H.
  repeat step_done H.
  resolve_done H. reflexivity.
Qed.

Lemma merged_windows_Done (s s' : TwoElement) :
  merge_windows s = PyBool true ->
  merged_windows s = Done s' ->
  s' = spec_merged s.
Proof.
  intros Hmw H. unfold merged_windows in H. rewrite Hmw in H. simpl is_True in H.
  cbv iota in H.
  rewrite try_except_transparent in H by apply merged_windows_try_only_zde.
  unfold merged_windows_try in H.
  repeat step_done H.
  resolve_done H. reflexivity.
Qed.

(** ** The lumping statement of the assembler *)

Lemma lump_outer_one (e : Element) (omega : Q) (s : TwoElement) :
  lump_outer [e] omega s = Done (s <| r1_ow := r1 e |> <| c1_ow := c1_korr e |>).
Proof. reflexivity. Qed.

Lemma lump_outer_many (first second : Element) (others : list Element)
    (omega : Q) (s : TwoElement) :
  lump_outer (first :: second :: others) omega s =
  (p <-[s] spec_reduce omega first (second :: others) ;;
   Done (s <| r1_ow := fst p |> <| c1_ow := snd p |>)).
Proof.
  unfold lump_outer. cbn [length Nat.ltb Nat.leb andb].
  now rewrite calc_chain_matrix_fold.
Qed.

Lemma lump_outer_none (omega : Q) (s : TwoElement) :
  lump_outer [] omega s = Done (warnings_warn msg_no_outer_walls s).
Proof. reflexivity. Qed.

(** Whatever the list, the statement writes [r1_ow] and [c1_ow] or issues the
    warning, and nothing else. *)
Lemma lump_outer_frame (l : list Element) (omega : Q) (s s' : TwoElement) :
  lump_outer l omega s = Done s' ->
  s' = s <| r1_ow := r1_ow s' |> <| c1_ow := c1_ow s' |>
         <| warnings_issued := warnings_issued s' |>.
Proof.
  destruct l as [|first [|second others]].
  - rewrite lump_outer_none. intros H. inversion H. destruct s; reflexivity.
  - rewrite lump_outer_one. intros H. inversion H. destruct s; reflexivity.
  - rewrite lump_outer_many. intros H.
    apply eval_in_Done in H. destruct H as (p & _ & H).
    inversion H. destruct s; reflexivity.
Qed.

(** ** The assembler, statement by statement *)

Section Assembler.

Variable calc_equivalent_res : Element -> Element.
Variable calc_ua_value : Element -> Element.

Local Abbreviation recalculated_zone :=
  (recalculated calc_equivalent_res calc_ua_value).
Local Abbreviation calc_outer :=
  (_calc_outer_elements calc_equivalent_res calc_ua_value).

Lemma py_for_each_recalculate (l : list Element) :
  py_for_each (recalculate calc_equivalent_res calc_ua_value) l =
  Ok (map (fun x => calc_ua_value (calc_equivalent_res x)) l).
Proof.
  induction l as [|x l IH]; [reflexivity|].
  cbn [py_for_each map]. rewrite IH. reflexivity.
Qed.

Lemma recalculate_outer_Done (self : TwoElement) :
  recalculate_outer calc_equivalent_res calc_ua_value self =
  Done (self <| thermal_zone := recalculated_zone (thermal_zone self) |>).
Proof.
  unfold recalculate_outer, for_each_outer, for_each_window.
  rewrite !py_for_each_recalculate. cbn [bind eval_in].
  rewrite py_for_each_recalculate. reflexivity.
Qed.

Lemma calc_outer_elements_Done (self s' : TwoElement) :
  calc_outer self = Done s' ->
  exists omega s_l,
    omega_of (t_bt self) = Ok omega /\
    lump_outer (outer_elements (recalculated_zone (thermal_zone self))) omega
               (self <| thermal_zone := recalculated_zone (thermal_zone self) |>)
      = Done s_l /\
    (separate_windows s_l ;;> merged_windows) = Done s'.
Proof.
  unfold _calc_outer_elements. intros H.
  apply eval_in_Done in H. destruct H as (omega & Homega & H).
  rewrite recalculate_outer_Done in H. cbn [and_then] in H.
  apply and_then_Done in H. destruct H as (s_l & Hl & H).
  exists omega, s_l. auto.
Qed.

(** The two window statements run one after the other: at most one of them
    does anything. *)
Lemma windows_statements_Done (s s' : TwoElement) :
  (separate_windows s ;;> merged_windows) = Done s' ->
  (merge_windows s = PyBool false /\ s' = spec_separate s) \/
  (merge_windows s = PyBool true /\ s' = spec_merged s) \/
  (is_False (merge_windows s) = false /\ is_True (merge_windows s) = false /\ s' = s).
Proof.
  intros H. apply and_then_Done in H. destruct H as (s1 & H1 & H2).
  destruct (merge_windows s) as [[|]| | |] eqn:Hmw.
  - right; left. split; [reflexivity|].
    rewrite separate_windows_skip in H1 by now rewrite Hmw.
    inversion H1; subst s1. now apply merged_windows_Done.
  - left. split; [reflexivity|].
    pose proof (separate_windows_Done s s1 Hmw H1) as ->.
    rewrite merged_windows_skip in H2 by (cbn; now rewrite Hmw).
    now inversion H2.
  - right; right.
    rewrite separate_windows_skip in H1 by now rewrite Hmw.
    inversion H1; subst s1.
    rewrite merged_windows_skip in H2 by now rewrite Hmw.
    inversion H2. auto.
  - right; right.
    rewrite separate_windows_skip in H1 by now rewrite Hmw.
    inversion H1; subst s1.
    rewrite merged_windows_skip in H2 by now rewrite Hmw.
    inversion H2. auto.
  - right; right.
    rewrite separate_windows_skip in H1 by now rewrite Hmw.
    inversion H1; subst s1.
    rewrite merged_windows_skip in H2 by now rewrite Hmw.
    inversion H2. auto.
Qed.

(** A call of the assembler that completes, taken apart: [omega], the object
    [s_l] left by the lumping statement, and which of the two window
    statements ran. *)
Lemma calc_outer_elements_cases (self s' : TwoElement) :
  calc_outer self = Done s' ->
  exists omega s_l,
    omega_of (t_bt self) = Ok omega /\
    thermal_zone s' = recalculated_zone (thermal_zone self) /\
    lump_outer (outer_elements (thermal_zone s')) omega
               (self <| thermal_zone := thermal_zone s' |>) = Done s_l /\
    s_l = self <| thermal_zone := thermal_zone s' |>
               <| r1_ow := r1_ow s_l |> <| c1_ow := c1_ow s_l |>
               <| warnings_issued := warnings_issued s_l |> /\
    ((merge_windows self = PyBool false /\ s' = spec_separate s_l) \/
     (merge_windows self = PyBool true /\ s' = spec_merged s_l) \/
     (is_False (merge_windows self) = false /\
      is_True (merge_windows self) = false /\ s' = s_l)).
Proof.
  intros H. apply calc_outer_elements_Done in H.
  destruct H as (omega & s_l & Homega & Hl & Hw).
  pose proof (lump_outer_frame _ _ _ _ Hl) as Hf.
  assert (Hz : thermal_zone s_l = recalculated_zone (thermal_zone self))
    by (rewrite Hf; reflexivity).
  assert (Hm : merge_windows s_l = merge_windows self)
    by (rewrite Hf; reflexivity).
  apply windows_statements_Done in Hw. rewrite Hm in Hw.
  assert (Hz' : thermal_zone s' = recalculated_zone (thermal_zone self)).
  { destruct Hw as [[_ ->]|[[_ ->]|(_ & _ & ->)]]; exact Hz. }
  exists omega, s_l. rewrite Hz'. auto.
Qed.

(** ** The lumped pair of the outer elements *)

Lemma omega_of_value (t : Z) (omega : Q) :
  omega_of t = Ok omega -> omega == 2 * math_pi / (86400 * inject_Z t).
Proof.
  unfold omega_of. intros H. apply pydiv_Ok in H. destruct H as [Ht ->].
  field. exact Ht.
Qed.

(** C1.  The reducer applied to a list of at least two elements is the fold
    from the left of the closed forms [combined_r1] and [combined_c1] (a
    combination whose denominator is zero raises [ZeroDivisionError]); the
    lumping statement of the assembler stores the pair it returns in
    [(r1_ow, c1_ow)]; and
    when the assembler completes on a zone with at least two outer elements,
    [omega] is [2 * pi / (86400 * t_bt)], the reduction of
    [outer_walls + ground_floors + rooftops] at [omega] succeeded with a pair
    [p], the lumping statement stored [p] in [(r1_ow, c1_ow)], [c1_ow] still
    holds it at the end, and so does [r1_ow] unless the merged policy went on
    to update it. *)
Theorem chain_matrix_left_to_right
    (omega : Q) (first second : Element) (others : list Element) :
  _calc_chain_matrix (first :: second :: others) omega
    = fold_left (spec_step omega) (second :: others) (Ok (r1 first, c1 first))
  /\
  (forall self,
      lump_outer (first :: second :: others) omega self
      = (p <-[self] spec_reduce omega first (second :: others) ;;
         Done (self <| r1_ow := fst p |> <| c1_ow := snd p |>)))
  /\
  forall self s',
    calc_outer self = Done s' ->
    outer_elements (thermal_zone s') = first :: second :: others ->
    exists w p s_l,
      omega_of (t_bt self) = Ok w /\
      w == 2 * math_pi / (86400 * inject_Z (t_bt self)) /\
      spec_reduce w first (second :: others) = Ok p /\
      lump_outer ((outer_walls (thermal_zone s') ++ ground_floors (thermal_zone s'))
                  ++ rooftops (thermal_zone s')) w
                 (self <| thermal_zone := thermal_zone s' |>) = Done s_l /\
      (r1_ow s_l, c1_ow s_l) = p /\
      c1_ow s' = snd p /\
      (is_True (merge_windows self) = false -> r1_ow s' = fst p).
Proof.
  split; [apply calc_chain_matrix_fold|].
  split; [intros self; apply lump_outer_many|].
  intros self s' H Hl.
  apply calc_outer_elements_cases in H.
  destruct H as (w & s_l & Hw & Hz & Hlump & Hf & Hcases).
  pose proof Hlump as Hlump'.
  rewrite Hl, lump_outer_many in Hlump'.
  apply eval_in_Done in Hlump'. destruct Hlump' as (p & Hp & Hd).
  exists w, p, s_l.
  assert (Hpair : (r1_ow s_l, c1_ow s_l) = p).
  { inversion Hd. destruct p; reflexivity. }
  split; [exact Hw|].
  split; [now apply omega_of_value|].
  split; [exact Hp|].
  split; [exact Hlump|].
  split; [exact Hpair|].
  rewrite <- Hpair. cbn [fst snd]. split.
  - destruct Hcases as [[_ ->]|[[_ ->]|(_ & _ & ->)]]; reflexivity.
  - intros Hnot.
    destruct Hcases as [[_ ->]|[[Ht _]|(_ & _ & ->)]]; try reflexivity.
    rewrite Ht in Hnot. discriminate.
Qed.

(** C3.  For a list of exactly one outer element the lumping statement
    copies the element's own [r1] and [c1_korr] into [r1_ow] and [c1_ow]:
    no reduction, no division, no dependence on [omega].  When the assembler
    completes on such a zone, [c1_ow] is the element's [c1_korr] and, unless
    the merged policy went on to update it, [r1_ow] is the element's [r1]. *)
Theorem single_outer_element_unchanged (e : Element) :
  (forall omega self,
      lump_outer [e] omega self
      = Done (self <| r1_ow := r1 e |> <| c1_ow := c1_korr e |>))
  /\
  forall self s',
    calc_outer self = Done s' ->
    outer_elements (thermal_zone s') = [e] ->
    c1_ow s' = c1_korr e /\
    (is_True (merge_windows self) = false -> r1_ow s' = r1 e).
Proof.
  split; [intros; apply lump_outer_one|].
  intros self s' H Hl.
  apply calc_outer_elements_cases in H.
  destruct H as (w & s_l & Hw & Hz & Hlump & Hf & Hcases).
  rewrite Hl, lump_outer_one in Hlump. inversion Hlump as [Hs]. clear Hlump.
  assert (Hr : r1_ow s_l = r1 e) by (rewrite <- Hs; reflexivity).
  assert (Hc : c1_ow s_l = c1_korr e) by (rewrite <- Hs; reflexivity).
  clear Hs Hf. split.
  - rewrite <- Hc.
    destruct Hcases as [[_ ->]|[[_ ->]|(_ & _ & ->)]]; reflexivity.
  - intros Hnot. rewrite <- Hr.
    destruct Hcases as [[_ ->]|[[Ht _]|(_ & _ & ->)]]; try reflexivity.
    rewrite Ht in Hnot. discriminate.
Qed.

(** C4.  When the assembler completes, with [s_l] the object left by the
    lumping statement: under [merge_windows = False],
    [r1_win = 1 / sum(1 / (r1_i + r_outer_comb_i))] over the windows,
    [r_total_ow = 1 / ua_value_ow] and [r1_ow] is the lumped value
    unchanged; under [merge_windows = True],
    [r1_win = sum(1 / (r1_i / 6))],
    [r1_ow = 1 / (1 / r1_ow(lumped) + r1_win)] and
    [r_total_ow = 1 / (ua_value_ow + ua_value_win)]. *)
Theorem window_policy_values (self s' : TwoElement) :
  calc_outer self = Done s' ->
  exists omega s_l,
    lump_outer (outer_elements (thermal_zone s')) omega
               (self <| thermal_zone := thermal_zone s' |>) = Done s_l /\
    (merge_windows self = PyBool false ->
       r1_win s' = 1 / pysum (map (fun win => 1 / (r1 win + r_outer_comb win))
                                  (windows (thermal_zone s'))) /\
       r_total_ow s' = 1 / ua_value_ow self /\
       r1_ow s' = r1_ow s_l) /\
    (merge_windows self = PyBool true ->
       r1_win s' = pysum (map (fun win => 1 / (r1 win / 6))
                              (windows (thermal_zone s'))) /\
       r1_ow s' = 1 / (1 / r1_ow s_l + r1_win s') /\
       r_total_ow s' = 1 / (ua_value_ow self + ua_value_win self)).
Proof.
  intros H.
  apply calc_outer_elements_cases in H.
  destruct H as (w & s_l & Hw & Hz & Hlump & Hf & Hcases).
  exists w, s_l. split; [exact Hlump|].
  assert (Hua : ua_value_ow s_l = ua_value_ow self) by (rewrite Hf; reflexivity).
  assert (Huw : ua_value_win s_l = ua_value_win self) by (rewrite Hf; reflexivity).
  assert (Htz : thermal_zone s_l = thermal_zone s') by (rewrite Hf; reflexivity).
  clear Hf. split; intros Hmw.
  - destruct Hcases as [[_ Hs]|[[Ht _]|(Hf' & _ & _)]];
      [|congruence|rewrite Hmw in Hf'; discriminate].
    rewrite <- Hua, <- Htz. rewrite Hs. repeat split.
  - destruct Hcases as [[Ht _]|[[_ Hs]|(_ & Hf' & _)]];
      [congruence| |rewrite Hmw in Hf'; discriminate].
    rewrite <- Hua, <- Huw, <- Htz. rewrite Hs. repeat split.
Qed.

(** C5 (as amended).  When the assembler completes under the separate
    policy, [r_total_ow = r1_ow + r_rest_ow + parallel(r_conv_inner_ow,
    r_rad_ow_iw)]; under the merged policy the third term is the parallel
    combination of three resistances, [1 / (1/r_conv_inner_ow +
    1/r_conv_inner_win + 1/r_rad_ow_iw)].  The assembler compares nothing and
    prints nothing. *)
Theorem lumped_network_balance (self s' : TwoElement) :
  calc_outer self = Done s' ->
  (merge_windows self = PyBool false ->
     r_total_ow s' ==
     r1_ow s' + r_rest_ow s' + parallel (r_conv_inner_ow s') (r_rad_ow_iw s')) /\
  (merge_windows self = PyBool true ->
     r_total_ow s' ==
     r1_ow s' + r_rest_ow s'
     + 1 / (1 / r_conv_inner_ow s' + 1 / r_conv_inner_win s' + 1 / r_rad_ow_iw s')) /\
  printed s' = printed self.
Proof.
  intros H.
  apply calc_outer_elements_cases in H.
  destruct H as (w & s_l & Hw & Hz & Hlump & Hf & Hcases).
  assert (Hp : printed s_l = printed self) by (rewrite Hf; reflexivity).
  clear Hf Hlump. split; [|split].
  - intros Hmw.
    destruct Hcases as [[_ Hs]|[[Ht _]|(Hf' & _ & _)]];
      [|congruence|rewrite Hmw in Hf'; discriminate].
    rewrite Hs. unfold spec_separate. read_attributes. ring.
  - intros Hmw.
    destruct Hcases as [[Ht _]|[[_ Hs]|(_ & Hf' & _)]];
      [congruence| |rewrite Hmw in Hf'; discriminate].
    rewrite Hs. unfold spec_merged. read_attributes. ring.
  - rewrite <- Hp.
    destruct Hcases as [[_ ->]|[[_ ->]|(_ & _ & ->)]]; reflexivity.
Qed.

End Assembler.

(** ** Weight factors *)

Lemma fold_left_Qplus_acc (xs : list Q) (a : Q) :
  fold_left Qplus xs a == a + pysum xs.
Proof.
  unfold pysum. revert a. induction xs as [|x xs IH]; intros a; simpl.
  - ring.
  - rewrite (IH (a + x)), (IH (0 + x)). ring.
Qed.

Lemma pysum_cons (x : Q) (xs : list Q) : pysum (x :: xs) == x + pysum xs.
Proof.
  unfold pysum at 1. simpl. rewrite fold_left_Qplus_acc. ring.
Qed.

Lemma pysum_app (xs ys : list Q) : pysum (xs ++ ys) == pysum xs + pysum ys.
Proof.
  induction xs as [|x xs IH]; simpl.
  - unfold pysum at 2. simpl. ring.
  - rewrite !pysum_cons, IH. ring.
Qed.

Lemma sum3_outer_elements (f : Element -> Q) (tz : ThermalZone) :
  sum3 f (outer_walls tz) (ground_floors tz) (rooftops tz)
  == pysum (map f (outer_elements tz)).
Proof.
  unfold sum3, outer_elements. rewrite !map_app, !pysum_app. reflexivity.
Qed.

Lemma pysum_scaled {A : Type} (f : A -> Q) (d : Q) (xs : list A) :
  pysum (map (fun x => f x / d) xs) == pysum (map f xs) / d.
Proof.
  induction xs as [|x xs IH]; simpl.
  - unfold pysum. simpl. unfold Qdiv. ring.
  - rewrite !pysum_cons, IH. unfold Qdiv. ring.
Qed.

Lemma py_for_each_assign_wf (d : Q) (xs xs' : list Element) :
  py_for_each (assign_wf_out d) xs = Ok xs' ->
  xs' = map (with_wf_out d) xs /\ (xs <> [] -> ~ d == 0).
Proof.
  revert xs'. induction xs as [|x xs IH]; intros xs' H; simpl in H.
  - inversion H. split; [reflexivity | congruence].
  - apply bind_Ok in H. destruct H as (y & Hy & H).
    apply bind_Ok in H. destruct H as (ys & Hys & H).
    inversion H; subst xs'; clear H.
    unfold assign_wf_out in Hy.
    apply bind_Ok in Hy. destruct Hy as (v & Hv & Hy).
    apply pydiv_Ok in Hv. destruct Hv as [Hd ->].
    inversion Hy; subst y; clear Hy.
    apply IH in Hys. destruct Hys as [-> _].
    split; [reflexivity | intros _; exact Hd].
Qed.

Lemma py_for_each_assign_wf_nonzero (d : Q) (xs : list Element) :
  ~ d == 0 -> py_for_each (assign_wf_out d) xs = Ok (map (with_wf_out d) xs).
Proof.
  intros Hd. induction xs as [|x xs IH]; [reflexivity|].
  cbn [py_for_each map]. unfold assign_wf_out at 1.
  rewrite (pydiv_nonzero _ _ Hd). cbn [bind]. rewrite IH. reflexivity.
Qed.

Lemma sum_with_wf_out (d : Q) (xs : list Element) :
  pysum (map wf_out (map (with_wf_out d) xs)) == pysum (map ua_value xs) / d.
Proof.
  rewrite map_map. apply (pysum_scaled ua_value d xs).
Qed.

(** The zone after the two loops of [_calc_wf] with denominators [d_wall] and
    [d_win]. *)
Lemma wf_loops_Done (d_wall d_win : Q) (self s' : TwoElement) :
  (tz <-[self] for_each_outer (assign_wf_out d_wall) (thermal_zone self) ;;
   let self := self <| thermal_zone := tz |> in
   tz <-[self] for_each_window (assign_wf_out d_win) (thermal_zone self) ;;
   let self := self <| thermal_zone := tz |> in
   Done self) = Done s' ->
  outer_elements (thermal_zone s')
    = map (with_wf_out d_wall) (outer_elements (thermal_zone self)) /\
  windows (thermal_zone s')
    = map (with_wf_out d_win) (windows (thermal_zone self)) /\
  (outer_elements (thermal_zone self) <> [] -> ~ d_wall == 0) /\
  (windows (thermal_zone self) <> [] -> ~ d_win == 0).
Proof.
  intros H.
  apply eval_in_Done in H. destruct H as (tz1 & H1 & H). cbv beta zeta in H.
  apply eval_in_Done in H. destruct H as (tz2 & H2 & H). cbv beta zeta in H.
  inversion H; subst s'; clear H.
  unfold for_each_outer in H1.
  apply bind_Ok in H1. destruct H1 as (ows & Hows & H1).
  apply bind_Ok in H1. destruct H1 as (gfs & Hgfs & H1).
  apply bind_Ok in H1. destruct H1 as (rts & Hrts & H1).
  inversion H1; subst tz1; clear H1.
  unfold for_each_window in H2.
  apply bind_Ok in H2. destruct H2 as (ws & Hws & H2).
  inversion H2; subst tz2; clear H2.
  cbn in Hws.
  apply py_for_each_assign_wf in Hows, Hgfs, Hrts, Hws.
  destruct Hows as [-> Ho], Hgfs as [-> Hg], Hrts as [-> Hr], Hws as [-> Hwn].
  split; [|split; [|split]].
  - unfold outer_elements. cbn. now rewrite !map_app.
  - reflexivity.
  - unfold outer_elements. intros Hne.
    destruct (outer_walls (thermal_zone self)) as [|a l]; [|apply Ho; congruence].
    destruct (ground_floors (thermal_zone self)) as [|b l]; [|apply Hg; congruence].
    apply Hr. exact Hne.
  - exact Hwn.
Qed.

(** C6.  When the weight-factor pass completes: under [merge_windows =
    False] every outer element gets [wf_out = ua_value / ua_value_ow] and
    every window [wf_out = ua_value / ua_value_win]; under [merge_windows =
    True] walls and windows get [wf_out = ua_value / (ua_value_ow +
    ua_value_win)].  With [ua_value_ow] and [ua_value_win] the totals the
    aggregation passes assign, the weight factors of a non-empty
    normalization group add up to 1: the walls and the windows each under
    the separate policy, walls and windows together under the merged one. *)
Theorem weight_factors_normalised (self s' : TwoElement) :
  _calc_wf self = Done s' ->
  let tz := thermal_zone self in
  let tz' := thermal_zone s' in
  (merge_windows self = PyBool false ->
     outer_elements tz'
       = map (fun x => x <| wf_out := ua_value x / ua_value_ow self |>)
             (outer_elements tz) /\
     windows tz'
       = map (fun x => x <| wf_out := ua_value x / ua_value_win self |>)
             (windows tz) /\
     (outer_elements tz <> [] ->
      ua_value_ow self
        == sum3 ua_value (outer_walls tz) (ground_floors tz) (rooftops tz) ->
      pysum (map wf_out (outer_elements tz')) == 1) /\
     (windows tz <> [] ->
      ua_value_win self == pysum (map ua_value (windows tz)) ->
      pysum (map wf_out (windows tz')) == 1))
  /\
  (merge_windows self = PyBool true ->
     outer_elements tz'
       = map (fun x => x <| wf_out :=
                ua_value x / (ua_value_ow self + ua_value_win self) |>)
             (outer_elements tz) /\
     windows tz'
       = map (fun x => x <| wf_out :=
                ua_value x / (ua_value_ow self + ua_value_win self) |>)
             (windows tz) /\
     (outer_elements tz ++ windows tz <> [] ->
      ua_value_ow self
        == sum3 ua_value (outer_walls tz) (ground_floors tz) (rooftops tz) ->
      ua_value_win self == pysum (map ua_value (windows tz)) ->
      pysum (map wf_out (outer_elements tz' ++ windows tz')) == 1)).
Proof.
  intros H tz tz'. subst tz tz'. unfold _calc_wf in H. split; intros Hmw.
  - rewrite Hmw in H. cbn [is_True is_False] in H.
    pose proof (wf_loops_Done (ua_value_ow self) (ua_value_win self) self s' H)
      as (Ho & Hwn & Hdo & Hdw).
    rewrite Ho, Hwn. split; [reflexivity|]. split; [reflexivity|]. split.
    + intros Hne Hsum. rewrite sum_with_wf_out.
      rewrite sum3_outer_elements in Hsum. rewrite <- Hsum.
      field. now apply Hdo.
    + intros Hne Hsum. rewrite sum_with_wf_out. rewrite <- Hsum.
      field. now apply Hdw.
  - rewrite Hmw in H. cbn [is_True is_False] in H.
    pose proof (wf_loops_Done (ua_value_ow self + ua_value_win self)
                  (ua_value_ow self + ua_value_win self) self s' H)
      as (Ho & Hwn & Hdo & Hdw).
    rewrite Ho, Hwn. split; [reflexivity|]. split; [reflexivity|].
    intros Hne Hso Hsw.
    rewrite map_app, pysum_app, !sum_with_wf_out.
    rewrite sum3_outer_elements in Hso. rewrite <- Hso, <- Hsw.
    field.
    destruct (outer_elements (thermal_zone self)) as [|a l];
      [apply Hdw; exact Hne | apply Hdo; congruence].
Qed.

(** ** The constructor *)

Lemma eval_in_case {A : Type} (P : Res -> Prop) self (x : Exc A) (k : A -> Res) :
  (forall a, x = Ok a -> P (k a)) ->
  (forall e, x = Raise e -> P (Raised e self)) ->
  P (eval_in self x k).
Proof. intros Hok Hraise. destruct x; simpl; auto. Qed.

Lemma only_zde_recip_sum1 (attr : Element -> Q) (xs : list Element) :
  only_zde (recip_sum1 attr xs).
Proof. unfold recip_sum1, sum_recip. auto 8 with zde. Qed.

Lemma pysum_from_layer0_Raise (prop : Material -> Q) (xs : list Element) :
  forall acc e,
    pysum_from (fun x => ly <- py_index (layer x) 0 ;;
                         Ok (prop (material ly) * area x)) xs acc = Raise e ->
    e = IndexError /\ Exists (fun x => layer x = []) xs.
Proof.
  induction xs as [|x xs IH]; intros acc e H; simpl in H; [discriminate|].
  destruct (layer x) as [|ly lys] eqn:Hl; simpl in H.
  - inversion H. split; [reflexivity|]. now constructor.
  - apply IH in H. destruct H as [-> H]. split; [reflexivity|].
    now apply Exists_cons_tl.
Qed.

Lemma sum_layer0_Raise (prop : Material -> Q) (xs : list Element) (e : PyExc) :
  sum_layer0 prop xs = Raise e ->
  e = IndexError /\ Exists (fun x => layer x = []) xs.
Proof. apply pysum_from_layer0_Raise. Qed.

(** Runs one expression of the window pass: either it returned, or the
    exception it raised ends the pass. *)
Ltac fwd_eval :=
  lazymatch goal with
  | |- window_pass_fails ?s0 (eval_in _ _ _) =>
      apply (eval_in_case (window_pass_fails s0));
      [ let v := fresh "v" in
        let E := fresh "E" in
        intros v E; cbv beta
      | let e := fresh "e" in
        let E := fresh "E" in
        intros e E; split;
        [ reflexivity
        | first [ left; eapply only_zde_recip_sum1; exact E
                | left; eapply only_zde_pydiv; exact E
                | right; eapply sum_layer0_Raise; exact E ] ] ]
  end.

Lemma sum_window_elements_fails (s : TwoElement) :
  r_rad_inner_win s == 0 ->
  window_pass_fails s (_sum_window_elements s).
Proof.
  intros H0. unfold _sum_window_elements.
  do 5 fwd_eval.
  (* alpha_rad_inner_win = 1 / (r_rad_inner_win * area_win) *)
  lazymatch goal with
  | |- window_pass_fails _ (eval_in _ (pydiv 1 (r_rad_inner_win ?x * ?a)) _) =>
      assert (Hz : r_rad_inner_win x * a == 0)
        by (change (r_rad_inner_win x) with (r_rad_inner_win s);
            rewrite H0; ring)
  end.
  rewrite (pydiv_zero _ _ Hz). cbn [eval_in].
  split; [reflexivity | left; reflexivity].
Qed.

(** The attributes the outer-wall and inner-wall passes leave alone. *)
Ltac frame_done H :=
  repeat step_done H;
  inversion H; clear H;
  repeat match goal with E : _ = Ok _ |- _ => clear E end;
  repeat split.

Lemma sum_outer_wall_elements_frame (s s' : TwoElement) :
  _sum_outer_wall_elements s = Done s' ->
  thermal_zone s' = thermal_zone s /\
  r_rad_inner_win s' = r_rad_inner_win s /\
  r1_iw s' = r1_iw s /\ c1_iw s' = c1_iw s.
Proof. unfold _sum_outer_wall_elements. intros H. frame_done H. Qed.

Lemma sum_inner_wall_elements_frame (s s' : TwoElement) :
  _sum_inner_wall_elements s = Done s' ->
  thermal_zone s' = thermal_zone s /\
  r_rad_inner_win s' = r_rad_inner_win s /\
  r1_iw s' = r1_iw s /\ c1_iw s' = c1_iw s.
Proof. unfold _sum_inner_wall_elements. intros H. frame_done H. Qed.

Section Constructor.

Variable calc_equivalent_res : Element -> Element.
Variable calc_ua_value : Element -> Element.

Local Abbreviation construct :=
  (__init__ calc_equivalent_res calc_ua_value).


End Constructor.

(** ** The inner pair *)

Ltac keep_steps s :=
  repeat (apply (eval_in_case (keeps_inner_pair s));
          [ intros ? ?; cbv beta | intros ? ?; split; reflexivity ]);
  split; reflexivity.

Lemma sum_outer_wall_elements_keeps (s : TwoElement) :
  keeps_inner_pair s (_sum_outer_wall_elements s).
Proof. unfold _sum_outer_wall_elements. keep_steps s. Qed.

Lemma sum_inner_wall_elements_keeps (s : TwoElement) :
  keeps_inner_pair s (_sum_inner_wall_elements s).
Proof. unfold _sum_inner_wall_elements. keep_steps s. Qed.

Lemma sum_window_elements_keeps (s : TwoElement) :
  keeps_inner_pair s (_sum_window_elements s).
Proof. unfold _sum_window_elements. keep_steps s. Qed.

Section InnerPair.

Variable calc_equivalent_res : Element -> Element.
Variable calc_ua_value : Element -> Element.

(** Whatever the zone, the constructor ends with an exception and [r1_iw],
    [c1_iw] hold the initial 0. *)
Lemma constructor_raises (tz : ThermalZone) (mw : PyObj) (t : Z) :
  exists e s',
    __init__ calc_equivalent_res calc_ua_value tz mw t = Raised e s' /\
    r1_iw s' = 0 /\ c1_iw s' = 0.
Proof.
  unfold __init__.
  pose proof (sum_outer_wall_elements_keeps (initial tz mw t)) as K1.
  destruct (_sum_outer_wall_elements (initial tz mw t)) as [s1|e1 s1] eqn:H1;
    cbn [and_then]; [|exists e1, s1; split; [reflexivity | exact K1]].
  pose proof (sum_inner_wall_elements_keeps s1) as K2.
  destruct (_sum_inner_wall_elements s1) as [s2|e2 s2] eqn:H2;
    cbn [and_then].
  2:{ exists e2, s2. split; [reflexivity|].
      destruct K1 as [A B], K2 as [C D]. rewrite C, D. split; assumption. }
  pose proof (sum_window_elements_keeps s2) as K3.
  pose proof (sum_outer_wall_elements_frame _ _ H1) as (_ & Hr1 & _).
  pose proof (sum_inner_wall_elements_frame _ _ H2) as (_ & Hr2 & _).
  assert (H0 : r_rad_inner_win s2 == 0) by (rewrite Hr2, Hr1; reflexivity).
  pose proof (sum_window_elements_fails s2 H0) as Hw.
  destruct (_sum_window_elements s2) as [s3|e3 s3]; [contradiction|].
  cbn [and_then]. exists e3, s3. split; [reflexivity|].
  destruct K1 as [A B], K2 as [C D], K3 as [E F].
  rewrite E, F, C, D. split; assumption.
Qed.

(** [_calc_inner_elements] stores its result under the names [r1_1w] and
    [c1_1w]. *)
Lemma calc_inner_elements_keeps (s : TwoElement) :
  keeps_inner_pair s (_calc_inner_elements calc_equivalent_res calc_ua_value s).
Proof.
  unfold _calc_inner_elements.
  apply (eval_in_case (keeps_inner_pair s));
    [intros omega _ | intros ? ?; split; reflexivity].
  apply (eval_in_case (keeps_inner_pair s));
    [intros tz _; cbv beta zeta | intros ? ?; split; reflexivity].
  destruct (_ && _)%bool; [keep_steps s|].
  destruct (_ <? _)%nat; keep_steps s.
Qed.

End InnerPair.

(** ** An unrecognised [merge_windows] *)

Section Configuration.

Variable calc_equivalent_res : Element -> Element.
Variable calc_ua_value : Element -> Element.

(** C9 (as amended).  For a [merge_windows] that is neither [True] nor
    [False], the weight-factor pass raises [ValueError]; the two window
    statements of the assembler do nothing and raise nothing, so an
    assembler call that completes leaves [r1_win], [r_total_ow],
    [r_rad_ow_iw] and [r_rest_ow] as they were and prints nothing. *)
Theorem unrecognised_merge_windows (self : TwoElement) :
  is_True (merge_windows self) = false ->
  is_False (merge_windows self) = false ->
  _calc_wf self = Raised (ValueError msg_merge_windows) self /\
  (separate_windows self ;;> merged_windows) = Done self /\
  forall s',
    _calc_outer_elements calc_equivalent_res calc_ua_value self = Done s' ->
    r1_win s' = r1_win self /\ r_total_ow s' = r_total_ow self /\
    r_rad_ow_iw s' = r_rad_ow_iw self /\ r_rest_ow s' = r_rest_ow self /\
    printed s' = printed self.
Proof.
  intros Ht Hf. split; [|split].
  - unfold _calc_wf. now rewrite Ht, Hf.
  - rewrite (separate_windows_skip _ Hf). cbn [and_then].
    now apply merged_windows_skip.
  - intros s' H. apply calc_outer_elements_cases in H.
    destruct H as (w & s_l & _ & _ & _ & Hs & Hcases).
    destruct Hcases as [[Hm _]|[[Hm _]|(_ & _ & ->)]];
      [rewrite Hm in Hf; discriminate | rewrite Hm in Ht; discriminate|].
    rewrite Hs. repeat split.
Qed.

End Configuration.

(** * Completion

    The passes complete on inputs with positive resistances, capacities and
    totals: the reducer's denominators are then positive, and so is every
    divisor of the two window policies. *)

Lemma Qsquare (x : Q) : x ^ 2 == x * x.
Proof. reflexivity. Qed.

Lemma Qsquare_nonneg (x : Q) : 0 <= x * x.
Proof. nra. Qed.

Ltac nonneg :=
  first [ assumption
        | apply Qlt_le_weak; assumption
        | apply Qmult_le_0_compat; nonneg ].

Lemma combine_denominators_pos (omega ra ca rb cb : Q) :
  0 < ra -> 0 < ca -> 0 < rb -> 0 < cb ->
  0 < (ca + cb) ^ 2 + omega ^ 2 * (ra + rb) ^ 2 * ca ^ 2 * cb ^ 2 /\
  0 < ca + cb + omega ^ 2 * (ra ^ 2 * ca + rb ^ 2 * cb) * ca * cb /\
  0 < ra * ca ^ 2 + rb * cb ^ 2 + omega ^ 2 * ra * rb * (ra + rb) * ca ^ 2 * cb ^ 2.
Proof.
  intros Hra Hca Hrb Hcb. rewrite !Qsquare.
  pose proof (Qsquare_nonneg omega) as Hw.
  assert (Hcc : 0 < ca * ca) by now apply Qmult_lt_0_compat.
  assert (Hdd : 0 < cb * cb) by now apply Qmult_lt_0_compat.
  assert (Hrr : 0 < ra + rb) by lra.
  assert (Hss : 0 < ca + cb) by lra.
  assert (Hrr2 : 0 < (ra + rb) * (ra + rb)) by now apply Qmult_lt_0_compat.
  assert (Hss2 : 0 < (ca + cb) * (ca + cb)) by now apply Qmult_lt_0_compat.
  assert (Ha : 0 < ra * ra * ca + rb * rb * cb).
  { assert (0 < ra * ra * ca) by (repeat apply Qmult_lt_0_compat; assumption).
    assert (0 < rb * rb * cb) by (repeat apply Qmult_lt_0_compat; assumption).
    lra. }
  assert (T1 : 0 <= omega * omega * ((ra + rb) * (ra + rb)) * (ca * ca) * (cb * cb))
    by nonneg.
  assert (T2 : 0 <= omega * omega * (ra * ra * ca + rb * rb * cb) * ca * cb)
    by nonneg.
  assert (T3 : 0 <= omega * omega * ra * rb * (ra + rb) * (ca * ca) * (cb * cb))
    by nonneg.
  assert (T4 : 0 < ra * (ca * ca)) by now apply Qmult_lt_0_compat.
  assert (T5 : 0 < rb * (cb * cb)) by now apply Qmult_lt_0_compat.
  repeat split; lra.
Qed.

Lemma Qpos_nonzero (x : Q) : 0 < x -> ~ x == 0.
Proof. intros H E. rewrite E in H. lra. Qed.

Lemma Qdiv_pos (a b : Q) : 0 < a -> 0 < b -> 0 < a / b.
Proof.
  intros Ha Hb. apply Qlt_shift_div_l; [exact Hb|]. lra.
Qed.

Lemma Qeq_bool_pos (x : Q) : 0 < x -> Qeq_bool x 0 = false.
Proof.
  intros H. destruct (Qeq_bool x 0) eqn:E; [|reflexivity].
  apply Qeq_bool_iff in E. now apply Qpos_nonzero in H.
Qed.

Lemma pydiv_pos (a b : Q) : 0 < b -> pydiv a b = Ok (a / b).
Proof. intros Hb. apply pydiv_nonzero. now apply Qpos_nonzero. Qed.

Lemma spec_combine_pos (omega ra ca : Q) (next : Element) :
  0 < ra -> 0 < ca -> 0 < r1 next -> 0 < c1 next ->
  exists r c, spec_combine omega (ra, ca) next = Ok (r, c) /\ 0 < r /\ 0 < c.
Proof.
  intros Hra Hca Hrb Hcb.
  destruct (combine_denominators_pos omega ra ca (r1 next) (c1 next)
              Hra Hca Hrb Hcb) as (Hdr & Hdc & Hnr).
  unfold spec_combine.
  rewrite (Qeq_bool_pos _ Hdr), (Qeq_bool_pos _ Hdc).
  eexists _, _. split; [reflexivity|].
  unfold combined_r1, combined_c1. split; now apply Qdiv_pos.
Qed.

Lemma fold_spec_step_pos (omega : Q) (others : list Element) :
  Forall (fun e => 0 < r1 e /\ 0 < c1 e) others ->
  forall ra ca, 0 < ra -> 0 < ca ->
  exists r c,
    fold_left (spec_step omega) others (Ok (ra, ca)) = Ok (r, c) /\
    0 < r /\ 0 < c.
Proof.
  induction 1 as [|e others [Hr Hc] _ IH]; intros ra ca Hra Hca.
  - exists ra, ca. auto.
  - destruct (spec_combine_pos omega ra ca e Hra Hca Hr Hc)
      as (r & c & Hs & Hr' & Hc').
    cbn [fold_left]. unfold spec_step at 2. cbn [bind]. rewrite Hs.
    now apply IH.
Qed.

Lemma spec_reduce_completes (omega : Q) (first : Element) (others : list Element) :
  Forall (fun e => 0 < r1 e /\ 0 < c1 e) (first :: others) ->
  exists r c, spec_reduce omega first others = Ok (r, c) /\ 0 < r /\ 0 < c.
Proof.
  intros H. inversion H as [|? ? [Hr Hc] Ho]; subst.
  now apply fold_spec_step_pos.
Qed.

Lemma fold_left_Qplus_map_pydiv {A : Type} (a : Q) (f : A -> Q) (xs : list A) :
  Forall (fun x => ~ f x == 0) xs ->
  forall acc,
    pysum_from (fun x => pydiv a (f x)) xs acc
    = Ok (fold_left Qplus (map (fun x => a / f x) xs) acc).
Proof.
  induction 1 as [|x xs Hx _ IH]; intros acc; [reflexivity|].
  cbn [pysum_from map fold_left]. rewrite (pydiv_nonzero _ _ Hx). cbn [bind].
  apply IH.
Qed.

Lemma pysumE_pydiv_nonzero {A : Type} (a : Q) (f : A -> Q) (xs : list A) :
  Forall (fun x => ~ f x == 0) xs ->
  pysumE (fun x => pydiv a (f x)) xs = Ok (pysum (map (fun x => a / f x) xs)).
Proof. intros H. now apply fold_left_Qplus_map_pydiv. Qed.

Lemma pysum_nonneg (xs : list Q) : Forall (fun q => 0 < q) xs -> 0 <= pysum xs.
Proof.
  induction 1 as [|x xs Hx _ IH].
  - unfold pysum. simpl. lra.
  - rewrite pysum_cons. lra.
Qed.

Lemma pysum_pos (xs : list Q) :
  xs <> [] -> Forall (fun q => 0 < q) xs -> 0 < pysum xs.
Proof.
  intros Hne H. destruct H as [|x xs Hx Hxs]; [congruence|].
  rewrite pysum_cons. pose proof (pysum_nonneg xs Hxs). lra.
Qed.

Lemma separate_windows_completes (s : TwoElement) :
  merge_windows s = PyBool false ->
  windows (thermal_zone s) <> [] ->
  Forall (fun win => 0 < r1 win + r_outer_comb win) (windows (thermal_zone s)) ->
  0 < ua_value_ow s -> 0 < r_rad_inner_ow s -> 0 < r_conv_inner_ow s ->
  separate_windows s = Done (spec_separate s).
Proof.
  intros Hmw Hne Hw Hua Hrad Hconv.
  unfold separate_windows. rewrite Hmw. cbn [is_False].
  rewrite try_except_transparent by apply separate_windows_try_only_zde.
  unfold separate_windows_try.
  rewrite pysumE_pydiv_nonzero.
  2:{ eapply Forall_impl; [|exact Hw]. intros a Ha. now apply Qpos_nonzero. }
  cbn [bind].
  rewrite pydiv_pos.
  2:{ apply pysum_pos.
      - destruct (windows (thermal_zone s)); [congruence | discriminate].
      - apply Forall_map. eapply Forall_impl; [|exact Hw].
        intros a Ha. apply Qdiv_pos; [lra | exact Ha]. }
  cbn [eval_in]. read_attributes.
  rewrite (pydiv_pos _ _ Hua). cbn [eval_in]. read_attributes.
  assert (Hrr : 0 < 1 / r_rad_inner_ow s) by (apply Qdiv_pos; [lra | exact Hrad]).
  rewrite (pydiv_pos _ _ Hrad). cbn [bind].
  rewrite (pydiv_pos _ _ Hrr). cbn [eval_in]. read_attributes.
  assert (Hri : 0 < 1 / (1 / r_rad_inner_ow s))
    by (apply Qdiv_pos; [lra | exact Hrr]).
  assert (Hcc : 0 < 1 / r_conv_inner_ow s)
    by (apply Qdiv_pos; [lra | exact Hconv]).
  assert (Hrii : 0 < 1 / (1 / (1 / r_rad_inner_ow s)))
    by (apply Qdiv_pos; [lra | exact Hri]).
  rewrite (pydiv_pos _ _ Hconv). cbn [bind].
  rewrite (pydiv_pos _ _ Hri). cbn [bind].
  rewrite pydiv_pos by lra. cbn [bind eval_in].
  reflexivity.
Qed.

Lemma merged_windows_completes (s : TwoElement) :
  merge_windows s = PyBool true ->
  Forall (fun win => 0 < r1 win) (windows (thermal_zone s)) ->
  0 < r1_ow s ->
  0 < ua_value_ow s + ua_value_win s ->
  0 < r_rad_inner_ow s -> 0 < r_rad_inner_win s ->
  0 < r_conv_inner_ow s -> 0 < r_conv_inner_win s ->
  0 < area_ow s + area_win s ->
  merged_windows s = Done (spec_merged s).
Proof.
  intros Hmw Hw Hr1 Hua Hrad Hradw Hconv Hconvw Harea.
  unfold merged_windows. rewrite Hmw. cbn [is_True].
  rewrite try_except_transparent by apply merged_windows_try_only_zde.
  unfold merged_windows_try.
  assert (Hw6 : Forall (fun win => 0 < r1 win / 6) (windows (thermal_zone s))).
  { eapply Forall_impl; [|exact Hw]. intros a Ha. apply Qdiv_pos; [exact Ha | lra]. }
  rewrite pysumE_pydiv_nonzero.
  2:{ eapply Forall_impl; [|exact Hw6]. intros a Ha. now apply Qpos_nonzero. }
  cbn [eval_in]. read_attributes.
  set (r1_win' := pysum (map (fun x => 1 / (r1 x / 6)) (windows (thermal_zone s)))).
  assert (Hsum : 0 <= r1_win').
  { apply pysum_nonneg. apply Forall_map. eapply Forall_impl; [|exact Hw6].
    intros a Ha. apply Qdiv_pos; [lra | exact Ha]. }
  assert (H1 : 0 < 1 / r1_ow s) by (apply Qdiv_pos; [lra | exact Hr1]).
  rewrite (pydiv_pos _ _ Hr1). cbn [bind].
  rewrite pydiv_pos by lra. cbn [eval_in]. read_attributes.
  rewrite (pydiv_pos _ _ Hua). cbn [eval_in]. read_attributes.
  assert (H2 : 0 < 1 / r_rad_inner_ow s) by (apply Qdiv_pos; [lra | exact Hrad]).
  assert (H3 : 0 < 1 / r_rad_inner_win s) by (apply Qdiv_pos; [lra | exact Hradw]).
  rewrite (pydiv_pos _ _ Hrad). cbn [bind].
  rewrite (pydiv_pos _ _ Hradw). cbn [bind].
  rewrite pydiv_pos by lra. cbn [eval_in]. read_attributes.
  assert (H4 : 0 < 1 / (1 / r_rad_inner_ow s + 1 / r_rad_inner_win s))
    by (apply Qdiv_pos; lra).
  assert (H5 : 0 < 1 / r_conv_inner_ow s) by (apply Qdiv_pos; [lra | exact Hconv]).
  assert (H6 : 0 < 1 / r_conv_inner_win s) by (apply Qdiv_pos; [lra | exact Hconvw]).
  assert (H7 : 0 < 1 / (1 / (1 / r_rad_inner_ow s + 1 / r_rad_inner_win s)))
    by (apply Qdiv_pos; [lra | exact H4]).
  rewrite (pydiv_pos _ _ Hconv). cbn [bind].
  rewrite (pydiv_pos _ _ Hconvw). cbn [bind].
  rewrite (pydiv_pos _ _ H4). cbn [bind].
  rewrite pydiv_pos by lra. cbn [bind eval_in]. read_attributes.
  rewrite !(pydiv_pos _ _ Harea). cbn [eval_in].
  reflexivity.
Qed.

Lemma lump_outer_completes (l : list Element) (omega : Q) (s : TwoElement) :
  l <> [] ->
  Forall (fun e => 0 < r1 e /\ 0 < c1 e) l ->
  exists s', lump_outer l omega s = Done s' /\ 0 < r1_ow s'.
Proof.
  intros Hne Hpos.
  destruct l as [|first [|second others]]; [congruence| |].
  - rewrite lump_outer_one. eexists. split; [reflexivity|].
    inversion Hpos as [|? ? [Hr _] _]; subst. exact Hr.
  - rewrite lump_outer_many.
    destruct (spec_reduce_completes omega first (second :: others) Hpos)
      as (r & c & -> & Hr & _).
    cbn [eval_in]. eexists. split; [reflexivity | exact Hr].
Qed.

Lemma omega_of_completes (t : Z) :
  t <> 0%Z -> omega_of t = Ok (2 * math_pi / 86400 / inject_Z t).
Proof.
  intros Ht. unfold omega_of. apply pydiv_nonzero.
  unfold Qeq. simpl. lia.
Qed.

Lemma calc_wf_completes (self : TwoElement) :
  (merge_windows self = PyBool false ->
   ~ ua_value_ow self == 0 -> ~ ua_value_win self == 0 ->
   exists s', _calc_wf self = Done s') /\
  (merge_windows self = PyBool true ->
   ~ ua_value_ow self + ua_value_win self == 0 ->
   exists s', _calc_wf self = Done s').
Proof.
  split.
  - intros Hmw Ho Hw. unfold _calc_wf, for_each_outer, for_each_window.
    rewrite Hmw. cbn [is_True is_False].
    rewrite !(py_for_each_assign_wf_nonzero _ _ Ho). cbn [bind eval_in].
    rewrite py_for_each_assign_wf_nonzero by exact Hw. cbn [bind eval_in].
    eexists. reflexivity.
  - intros Hmw Hd. unfold _calc_wf, for_each_outer, for_each_window.
    rewrite Hmw. cbn [is_True is_False].
    rewrite !(py_for_each_assign_wf_nonzero _ _ Hd). cbn [bind eval_in].
    rewrite py_for_each_assign_wf_nonzero by exact Hd. cbn [bind eval_in].
    eexists. reflexivity.
Qed.

Section AssemblerCompletes.

Variable calc_equivalent_res : Element -> Element.
Variable calc_ua_value : Element -> Element.

Local Abbreviation recalculated_zone :=
  (recalculated calc_equivalent_res calc_ua_value).
Local Abbreviation calc_outer :=
  (_calc_outer_elements calc_equivalent_res calc_ua_value).

Lemma calc_outer_elements_completes (self : TwoElement) :
  t_bt self <> 0%Z ->
  outer_elements (recalculated_zone (thermal_zone self)) <> [] ->
  Forall (fun e => 0 < r1 e /\ 0 < c1 e)
         (outer_elements (recalculated_zone (thermal_zone self))) ->
  0 < r_rad_inner_ow self -> 0 < r_conv_inner_ow self ->
  (merge_windows self = PyBool false ->
   windows (recalculated_zone (thermal_zone self)) <> [] ->
   Forall (fun win => 0 < r1 win + r_outer_comb win)
          (windows (recalculated_zone (thermal_zone self))) ->
   0 < ua_value_ow self ->
   exists s', calc_outer self = Done s') /\
  (merge_windows self = PyBool true ->
   Forall (fun win => 0 < r1 win)
          (windows (recalculated_zone (thermal_zone self))) ->
   0 < ua_value_ow self + ua_value_win self ->
   0 < r_rad_inner_win self -> 0 < r_conv_inner_win self ->
   0 < area_ow self + area_win self ->
   exists s', calc_outer self = Done s').
Proof.
  intros Ht Hne Hpos Hrad Hconv.
  destruct (lump_outer_completes _ (2 * math_pi / 86400 / inject_Z (t_bt self))
              (self <| thermal_zone := recalculated_zone (thermal_zone self) |>)
              Hne Hpos) as (s_l & Hl & Hr1).
  pose proof (lump_outer_frame _ _ _ _ Hl) as Hf.
  assert (Hz : thermal_zone s_l = recalculated_zone (thermal_zone self))
    by (rewrite Hf; reflexivity).
  assert (Hm : merge_windows s_l = merge_windows self)
    by (rewrite Hf; reflexivity).
  assert (E1 : ua_value_ow s_l = ua_value_ow self) by (rewrite Hf; reflexivity).
  assert (E2 : ua_value_win s_l = ua_value_win self) by (rewrite Hf; reflexivity).
  assert (E3 : r_rad_inner_ow s_l = r_rad_inner_ow self) by (rewrite Hf; reflexivity).
  assert (E4 : r_rad_inner_win s_l = r_rad_inner_win self) by (rewrite Hf; reflexivity).
  assert (E5 : r_conv_inner_ow s_l = r_conv_inner_ow self) by (rewrite Hf; reflexivity).
  assert (E6 : r_conv_inner_win s_l = r_conv_inner_win self) by (rewrite Hf; reflexivity).
  assert (E7 : area_ow s_l = area_ow self) by (rewrite Hf; reflexivity).
  assert (E8 : area_win s_l = area_win self) by (rewrite Hf; reflexivity).
  clear Hf.
  assert (Hhead : calc_outer self = (separate_windows s_l ;;> merged_windows)).
  { unfold _calc_outer_elements. rewrite (omega_of_completes _ Ht). cbn [eval_in].
    rewrite recalculate_outer_Done. cbn [and_then].
    match goal with
    | |- context [lump_outer ?a ?b ?c] =>
        change (lump_outer a b c)
          with (lump_outer (outer_elements (recalculated_zone (thermal_zone self)))
                           b c)
    end.
    rewrite Hl. reflexivity. }
  rewrite Hhead. split.
  - intros Hmw Hwne Hw Hua.
    rewrite separate_windows_completes;
      rewrite ?Hm, ?Hz, ?E1, ?E3, ?E5; try assumption.
    cbn [and_then]. rewrite merged_windows_skip.
    + eexists. reflexivity.
    + change (merge_windows (spec_separate s_l)) with (merge_windows s_l).
      rewrite Hm, Hmw. reflexivity.
  - intros Hmw Hw Hua Hradw Hconvw Harea.
    rewrite separate_windows_skip by (rewrite Hm, Hmw; reflexivity).
    cbn [and_then].
    rewrite merged_windows_completes;
      rewrite ?Hm, ?Hz, ?E1, ?E2, ?E3, ?E4, ?E5, ?E6, ?E7, ?E8; try assumption.
    eexists. reflexivity.
Qed.

End AssemblerCompletes.

(** * The properties on the sample zones *)

Lemma assemble_wall_roof_window_separate :
  _calc_outer_elements up_to_date up_to_date (sample_object zone_wall_roof_window (PyBool false))
  = Done (assembled zone_wall_roof_window (PyBool false)).
Proof. vm_compute. reflexivity. Defined.

Lemma assemble_wall_window_separate :
  _calc_outer_elements up_to_date up_to_date (sample_object zone_wall_window (PyBool false))
  = Done (assembled zone_wall_window (PyBool false)).
Proof. vm_compute. reflexivity. Defined.

Lemma assemble_wall_window_merged :
  _calc_outer_elements up_to_date up_to_date (sample_object zone_wall_window (PyBool true))
  = Done (assembled zone_wall_window (PyBool true)).
Proof. vm_compute. reflexivity. Defined.

Lemma assemble_wall_window_unrecognised :
  _calc_outer_elements up_to_date up_to_date (sample_object zone_wall_window PyNone)
  = Done (assembled zone_wall_window PyNone).
Proof. vm_compute. reflexivity. Defined.

Lemma chain_matrix_left_to_right_witness :
  exists w p,
    omega_of 5 = Ok w /\
    spec_reduce w sample_wall [sample_roof] = Ok p /\
    c1_ow (assembled zone_wall_roof_window (PyBool false)) = snd p /\
    r1_ow (assembled zone_wall_roof_window (PyBool false)) = fst p.
Proof.
  destruct (proj2 (proj2 (chain_matrix_left_to_right up_to_date up_to_date
                            0 sample_wall sample_roof []))
              (sample_object zone_wall_roof_window (PyBool false))
              (assembled zone_wall_roof_window (PyBool false))
              assemble_wall_roof_window_separate
              ltac:(vm_compute; reflexivity))
    as (w & p & s_l & Hw & _ & Hp & _ & _ & Hc & Hr).
  exists w, p. repeat split; try assumption.
  apply Hr. reflexivity.
Defined.

Lemma single_outer_element_unchanged_witness :
  c1_ow (assembled zone_wall_window (PyBool false)) = c1_korr sample_wall /\
  r1_ow (assembled zone_wall_window (PyBool false)) = r1 sample_wall.
Proof.
  destruct (proj2 (single_outer_element_unchanged up_to_date up_to_date sample_wall)
              (sample_object zone_wall_window (PyBool false))
              (assembled zone_wall_window (PyBool false))
              assemble_wall_window_separate
              ltac:(vm_compute; reflexivity))
    as [Hc Hr].
  split; [exact Hc | apply Hr; reflexivity].
Defined.

Lemma window_policy_values_witness :
  r1_win (assembled zone_wall_window (PyBool false)) == 3 # 100 /\
  r_total_ow (assembled zone_wall_window (PyBool false)) == 1 # 40 /\
  r1_win (assembled zone_wall_window (PyBool true)) == 600 /\
  r_total_ow (assembled zone_wall_window (PyBool true)) == 1 # 48.
Proof.
  destruct (window_policy_values up_to_date up_to_date
              (sample_object zone_wall_window (PyBool false))
              (assembled zone_wall_window (PyBool false))
              assemble_wall_window_separate)
    as (w & s_l & _ & Hsep & _).
  destruct (Hsep eq_refl) as (H1 & H2 & _).
  destruct (window_policy_values up_to_date up_to_date
              (sample_object zone_wall_window (PyBool true))
              (assembled zone_wall_window (PyBool true))
              assemble_wall_window_merged)
    as (w' & s_l' & _ & _ & Hmer).
  destruct (Hmer eq_refl) as (H3 & _ & H4).
  rewrite H1, H2, H3, H4.
  vm_compute. repeat split; reflexivity.
Defined.

Lemma lumped_network_balance_witness :
  r_total_ow (assembled zone_wall_window (PyBool false)) ==
  r1_ow (assembled zone_wall_window (PyBool false))
  + r_rest_ow (assembled zone_wall_window (PyBool false))
  + parallel (r_conv_inner_ow (assembled zone_wall_window (PyBool false)))
             (r_rad_ow_iw (assembled zone_wall_window (PyBool false))).
Proof.
  destruct (lumped_network_balance up_to_date up_to_date
              (sample_object zone_wall_window (PyBool false))
              (assembled zone_wall_window (PyBool false))
              assemble_wall_window_separate)
    as (Hsep & _ & _).
  exact (Hsep eq_refl).
Defined.

(** Under the merged policy the assembler completes, prints and warns
    nothing, and the two-branch balance of C5 is off by more than 1/4000. *)
Lemma lumped_network_balance_merged_counterexample :
  _calc_outer_elements up_to_date up_to_date (sample_object zone_wall_window (PyBool true))
  = Done (assembled zone_wall_window (PyBool true)) /\
  ~ r_total_ow (assembled zone_wall_window (PyBool true)) ==
    r1_ow (assembled zone_wall_window (PyBool true))
    + r_rest_ow (assembled zone_wall_window (PyBool true))
    + parallel (r_conv_inner_ow (assembled zone_wall_window (PyBool true)))
               (r_rad_ow_iw (assembled zone_wall_window (PyBool true))) /\
  1 # 4000 <
    r1_ow (assembled zone_wall_window (PyBool true))
    + r_rest_ow (assembled zone_wall_window (PyBool true))
    + parallel (r_conv_inner_ow (assembled zone_wall_window (PyBool true)))
               (r_rad_ow_iw (assembled zone_wall_window (PyBool true)))
    - r_total_ow (assembled zone_wall_window (PyBool true)) /\
  printed (assembled zone_wall_window (PyBool true)) = [] /\
  warnings_issued (assembled zone_wall_window (PyBool true)) = [].
Proof.
  split; [exact assemble_wall_window_merged|].
  split; [vm_compute; discriminate|].
  split; [vm_compute; reflexivity|].
  split; vm_compute; reflexivity.
Qed.

Lemma calc_wf_sample_separate :
  _calc_wf (sample_object zone_wall_roof_window (PyBool false))
  = Done (after (_calc_wf (sample_object zone_wall_roof_window (PyBool false)))).
Proof. vm_compute. reflexivity. Defined.

Lemma calc_wf_sample_merged :
  _calc_wf (sample_object zone_wall_roof_window (PyBool true))
  = Done (after (_calc_wf (sample_object zone_wall_roof_window (PyBool true)))).
Proof. vm_compute. reflexivity. Defined.

Lemma weight_factors_normalised_witness :
  pysum (map wf_out (outer_elements (thermal_zone
    (after (_calc_wf (sample_object zone_wall_roof_window (PyBool false)))))))
  == 1 /\
  pysum (map wf_out (windows (thermal_zone
    (after (_calc_wf (sample_object zone_wall_roof_window (PyBool false)))))))
  == 1 /\
  pysum (map wf_out
    (outer_elements (thermal_zone
       (after (_calc_wf (sample_object zone_wall_roof_window (PyBool true)))))
     ++ windows (thermal_zone
       (after (_calc_wf (sample_object zone_wall_roof_window (PyBool true)))))))
  == 1.
Proof.
  destruct (weight_factors_normalised _ _ calc_wf_sample_separate)
    as [Hsep _].
  destruct (Hsep eq_refl) as (_ & _ & Hwalls & Hwins).
  destruct (weight_factors_normalised _ _ calc_wf_sample_merged)
    as [_ Hmer].
  destruct (Hmer eq_refl) as (_ & _ & Hall).
  split; [|split].
  - apply Hwalls; [discriminate | vm_compute; reflexivity].
  - apply Hwins; [discriminate | vm_compute; reflexivity].
  - apply Hall; [discriminate | vm_compute; reflexivity
                 | vm_compute; reflexivity].
Defined.


(** Without windows the window pass stops at its first division. *)
Lemma constructor_no_windows :
  exists s',
    __init__ up_to_date up_to_date zone_no_windows (PyBool false) 5
    = Raised ZeroDivisionError s' /\
    r_conv_inner_win s' = 0 /\ area_win s' == 0.
Proof.
  eexists. split; [vm_compute; reflexivity|]. split; reflexivity.
Qed.


Lemma unrecognised_merge_windows_witness :
  _calc_wf (sample_object zone_wall_window PyNone)
  = Raised (ValueError msg_merge_windows) (sample_object zone_wall_window PyNone) /\
  r_total_ow (assembled zone_wall_window PyNone)
  = r_total_ow (sample_object zone_wall_window PyNone).
Proof.
  destruct (unrecognised_merge_windows up_to_date up_to_date
              (sample_object zone_wall_window PyNone) eq_refl eq_refl)
    as (Hwf & _ & Hskip).
  split; [exact Hwf|].
  destruct (Hskip _ assemble_wall_window_unrecognised) as (_ & Ht & _).
  exact Ht.
Defined.

(** With [merge_windows = None] the assembler completes without a word and
    leaves the policy-dependent attributes at 0; the constructor on the same
    zone ends with [ZeroDivisionError], not with a configuration error. *)
Lemma unrecognised_merge_windows_counterexample :
  _calc_outer_elements up_to_date up_to_date (sample_object zone_wall_window PyNone)
  = Done (assembled zone_wall_window PyNone) /\
  r1_win (assembled zone_wall_window PyNone) = 0 /\
  r_total_ow (assembled zone_wall_window PyNone) = 0 /\
  r_rest_ow (assembled zone_wall_window PyNone) = 0 /\
  warnings_issued (assembled zone_wall_window PyNone) = [] /\
  printed (assembled zone_wall_window PyNone) = [] /\
  exists s', __init__ up_to_date up_to_date zone_wall_window PyNone 5
             = Raised ZeroDivisionError s'.
Proof.
  split; [exact assemble_wall_window_unrecognised|].
  repeat (split; [vm_compute; reflexivity|]).
  eexists. vm_compute. reflexivity.
Qed.

(** ** Where the code departs from its documentation *)

(** C7.  On a zone with one outer wall (area 20) and one rooftop (area 10),
    both with emissivity 9/10 and absorptivity 1/2 on either side, the
    aggregator completes with [area_ow = 30] and
    [ir_emissivity_inner_ow = ir_emissivity_outer_ow = 183/10] and
    [solar_absorp_ow = 61/6]: the wall's term is not divided by the area.
    The area-weighted emissivity is 9/10. *)
Lemma emissivity_divides_last_term_only :
  _sum_outer_wall_elements (initial zone_wall_roof_window (PyBool false) 5)
  = Done (outer_summed zone_wall_roof_window (PyBool false)) /\
  area_ow (outer_summed zone_wall_roof_window (PyBool false)) == 30 /\
  ir_emissivity_inner_ow (outer_summed zone_wall_roof_window (PyBool false))
  == 183 # 10 /\
  ir_emissivity_outer_ow (outer_summed zone_wall_roof_window (PyBool false))
  == 183 # 10 /\
  solar_absorp_ow (outer_summed zone_wall_roof_window (PyBool false))
  == 61 # 6 /\
  exists v,
    area_weighted inner_emissivity (outer_elements zone_wall_roof_window)
      (area_ow (outer_summed zone_wall_roof_window (PyBool false))) = Ok v /\
    v == 9 # 10.
Proof.
  split; [vm_compute; reflexivity|].
  repeat (split; [vm_compute; reflexivity|]).
  eexists. split; vm_compute; reflexivity.
Qed.

(** C8.  With no outer wall, no ground floor and no rooftop the first
    division of the aggregator is [1 / (0 + 0 + 0)]: the constructor ends
    with [ZeroDivisionError], no warning issued and nothing printed. *)
Lemma empty_outer_group_raises
    (calc_equivalent_res calc_ua_value : Element -> Element)
    (ws iws fls cls : list Element) (mw : PyObj) (t : Z) :
  exists s',
    __init__ calc_equivalent_res calc_ua_value
      {| outer_walls := []; ground_floors := []; rooftops := [];
         windows := ws; inner_walls := iws; floors := fls; ceilings := cls |}
      mw t
    = Raised ZeroDivisionError s' /\
    warnings_issued s' = [] /\ printed s' = [].
Proof. eexists. split; [reflexivity|]. split; reflexivity. Qed.

(** The assembler run on the same kind of zone issues its warning and then
    divides by [ua_value_ow = 0]; the handler for [RuntimeError] does not
    catch the [ZeroDivisionError]. *)
Lemma empty_outer_group_assembler :
  exists s',
    _calc_outer_elements up_to_date up_to_date (sample_object zone_no_outer (PyBool false))
    = Raised ZeroDivisionError s' /\
    warnings_issued s' = [msg_no_outer_walls] /\ printed s' = [].
Proof. eexists. split; [vm_compute; reflexivity|]. split; reflexivity. Qed.

(** C10.  On a zone with one inner wall ([r1 = 2/1000],
    [c1_korr = 5000000]) the constructor ends with [r1_iw = c1_iw = 0]; and
    [_calc_inner_elements], which the constructor does not call, stores the
    pair under [r1_1w] and [c1_1w] and leaves [r1_iw] and [c1_iw] at 0. *)
Lemma inner_pair_not_computed :
  (exists e s',
     __init__ up_to_date up_to_date zone_wall_window (PyBool false) 5 = Raised e s' /\
     r1_iw s' = 0 /\ c1_iw s' = 0) /\
  (exists s,
     _calc_inner_elements up_to_date up_to_date
       (inner_summed zone_wall_window (PyBool false)) = Done s /\
     r1_iw s = 0 /\ c1_iw s = 0 /\
     r1_1w s = Some (r1 sample_wall) /\
     c1_1w s = Some (c1_korr sample_wall)) /\
  ~ r1 sample_wall == 0 /\ ~ c1_korr sample_wall == 0.
Proof.
  split; [apply constructor_raises|].
  split.
  - eexists. split; [vm_compute; reflexivity|]. repeat split.
  - split; discriminate.
Qed.

(** * Further properties *)

(** ** The chain matrix keeps the admittance *)

Lemma branch_norm_pos (omega r c : Q) : 0 < 1 + omega ^ 2 * r ^ 2 * c ^ 2.
Proof.
  rewrite !Qsquare.
  pose proof (Qsquare_nonneg omega). pose proof (Qsquare_nonneg r).
  pose proof (Qsquare_nonneg c).
  assert (0 <= omega * omega * (r * r) * (c * c)) by nonneg.
  lra.
Qed.

Lemma Qsquare_pos (a : Q) : 0 < a -> 0 < a ^ 2.
Proof. intros H. rewrite Qsquare. now apply Qmult_lt_0_compat. Qed.

Lemma Qplus_square_nonzero (a b : Q) : 0 < a -> ~ a + b ^ 2 == 0.
Proof.
  intros H. apply Qpos_nonzero. rewrite Qsquare.
  pose proof (Qsquare_nonneg b). lra.
Qed.

Ltac branch_side :=
  repeat split;
  first [ apply Qplus_square_nonzero;
          first [ lra | apply Qsquare_pos; first [assumption | lra] ]
        | apply Qpos_nonzero; assumption ].

Lemma combine_branches (omega ra ca rb cb : Q) :
  0 < ra -> 0 < ca -> 0 < rb -> 0 < cb ->
  branch_re omega (combined_r1 omega ra ca rb cb) (combined_c1 omega ra ca rb cb)
  == branch_re omega ra ca + branch_re omega rb cb /\
  branch_im omega (combined_r1 omega ra ca rb cb) (combined_c1 omega ra ca rb cb)
  == branch_im omega ra ca + branch_im omega rb cb.
Proof.
  intros Hra Hca Hrb Hcb.
  destruct (combine_denominators_pos omega ra ca rb cb Hra Hca Hrb Hcb)
    as (Hdr & Hdc & Hnr).
  unfold branch_re, branch_im, combined_r1, combined_c1.
  split; field; branch_side.
Qed.

Lemma branch_injective (omega r c r' c' : Q) :
  0 < r -> 0 < c -> 0 < r' -> 0 < c' ->
  branch_re omega r c == branch_re omega r' c' ->
  branch_im omega r c == branch_im omega r' c' ->
  r == r' /\ c == c'.
Proof.
  intros Hr Hc Hr' Hc' Hg Hb.
  pose proof (branch_norm_pos omega r c) as HD.
  pose proof (branch_norm_pos omega r' c') as HD'.
  unfold branch_re, branch_im in Hg, Hb.
  set (D := 1 + omega ^ 2 * r ^ 2 * c ^ 2) in *.
  set (D' := 1 + omega ^ 2 * r' ^ 2 * c' ^ 2) in *.
  assert (H1 : c * D' == c' * D).
  { assert (E : c * D' == c / D * (D * D')) by (field; now apply Qpos_nonzero).
    rewrite E, Hb. field. now apply Qpos_nonzero. }
  assert (H2 : r * c ^ 2 * D' == r' * c' ^ 2 * D).
  { assert (E : r * c ^ 2 * D' == r * c ^ 2 / D * (D * D'))
      by (field; now apply Qpos_nonzero).
    rewrite E, Hg. field. now apply Qpos_nonzero. }
  assert (Hp : r * c == r' * c').
  { apply (Qmult_inj_r _ _ (c' * D)).
    - apply Qpos_nonzero. now apply Qmult_lt_0_compat.
    - rewrite <- H1 at 1.
      transitivity (r * c ^ 2 * D'); [ring|].
      rewrite H2. ring. }
  assert (HDD : D == D').
  { unfold D, D'.
    transitivity (1 + omega ^ 2 * (r * c) ^ 2); [ring|].
    rewrite Hp. ring. }
  assert (Hcc : c == c').
  { apply (Qmult_inj_r _ _ D); [now apply Qpos_nonzero|].
    rewrite <- H1. rewrite HDD. reflexivity. }
  split; [|exact Hcc].
  apply (Qmult_inj_r _ _ c); [now apply Qpos_nonzero|].
  rewrite Hp, Hcc. reflexivity.
Qed.

Lemma pysum_Permutation (xs ys : list Q) :
  Permutation xs ys -> pysum xs == pysum ys.
Proof.
  induction 1 as [|x xs ys _ IH|x y xs|xs ys zs _ IH1 _ IH2].
  - reflexivity.
  - rewrite !pysum_cons, IH. reflexivity.
  - rewrite !pysum_cons. ring.
  - now rewrite IH1.
Qed.

Lemma pysum_map_Qeq {A : Type} (f g : A -> Q) (xs : list A) :
  (forall x, In x xs -> f x == g x) ->
  pysum (map f xs) == pysum (map g xs).
Proof.
  induction xs as [|x xs IH]; intros H; [reflexivity|].
  cbn [map]. rewrite !pysum_cons, IH.
  - rewrite (H x (or_introl eq_refl)). reflexivity.
  - intros y Hy. apply H. now right.
Qed.

Lemma fold_spec_step_branches (omega : Q) (others : list Element) :
  Forall (fun e => 0 < r1 e /\ 0 < c1 e) others ->
  forall ra ca, 0 < ra -> 0 < ca ->
  exists r c,
    fold_left (spec_step omega) others (Ok (ra, ca)) = Ok (r, c) /\
    0 < r /\ 0 < c /\
    branch_re omega r c
    == branch_re omega ra ca
       + pysum (map (fun e => branch_re omega (r1 e) (c1 e)) others) /\
    branch_im omega r c
    == branch_im omega ra ca
       + pysum (map (fun e => branch_im omega (r1 e) (c1 e)) others).
Proof.
  induction 1 as [|e others [Hr Hc] _ IH]; intros ra ca Hra Hca.
  - exists ra, ca. repeat split; try assumption; unfold pysum; simpl; ring.
  - destruct (spec_combine_pos omega ra ca e Hra Hca Hr Hc)
      as (r & c & Hs & Hr' & Hc').
    pose proof Hs as Hs'. unfold spec_combine in Hs'.
    destruct (Qeq_bool _ 0); [discriminate|].
    destruct (Qeq_bool _ 0); [discriminate|].
    inversion Hs'; subst r c; clear Hs'.
    destruct (combine_branches omega ra ca (r1 e) (c1 e) Hra Hca Hr Hc)
      as [Hg Hb].
    cbn [fold_left map]. unfold spec_step at 2. cbn [bind]. rewrite Hs.
    destruct (IH _ _ Hr' Hc') as (r & c & Hf & Hrp & Hcp & Hgs & Hbs).
    exists r, c. repeat split; try assumption.
    + rewrite Hgs, Hg, pysum_cons. ring.
    + rewrite Hbs, Hb, pysum_cons. ring.
Qed.

Lemma chain_matrix_branches
    (omega : Q) (first second : Element) (others : list Element) :
  Forall (fun e => 0 < r1 e /\ 0 < c1 e) (first :: second :: others) ->
  exists r c,
    _calc_chain_matrix (first :: second :: others) omega = Ok (r, c) /\
    0 < r /\ 0 < c /\
    branch_re omega r c
    == pysum (map (fun e => branch_re omega (r1 e) (c1 e))
                  (first :: second :: others)) /\
    branch_im omega r c
    == pysum (map (fun e => branch_im omega (r1 e) (c1 e))
                  (first :: second :: others)).
Proof.
  intros H. inversion H as [|? ? [Hr Hc] Ho]; subst.
  rewrite calc_chain_matrix_fold. unfold spec_reduce.
  destruct (fold_spec_step_branches omega (second :: others) Ho _ _ Hr Hc)
    as (r & c & Hf & Hrp & Hcp & Hg & Hb).
  exists r, c. repeat split; try assumption.
  - rewrite Hg. symmetry. exact (pysum_cons _ _).
  - rewrite Hb. symmetry. exact (pysum_cons _ _).
Qed.

(** X1.  On elements with positive [r1] and [c1] the chain-matrix reduction
    returns a positive pair that keeps the admittance of the parallel
    connection: both [r * c^2 / (1 + omega^2 r^2 c^2)] and
    [c / (1 + omega^2 r^2 c^2)] of the result are the sums of the same
    quantities over the elements. *)
Theorem chain_matrix_parallel_connection
    (omega : Q) (first second : Element) (others : list Element) :
  Forall (fun e => 0 < r1 e /\ 0 < c1 e) (first :: second :: others) ->
  exists r c,
    _calc_chain_matrix (first :: second :: others) omega = Ok (r, c) /\
    0 < r /\ 0 < c /\
    branch_re omega r c
    == pysum (map (fun e => branch_re omega (r1 e) (c1 e))
                  (first :: second :: others)) /\
    branch_im omega r c
    == pysum (map (fun e => branch_im omega (r1 e) (c1 e))
                  (first :: second :: others)).
Proof. apply chain_matrix_branches. Qed.

(** X2.  The result of the chain-matrix reduction does not depend on the
    order of the elements: on two lists with the same positive elements in a
    different order it returns equal pairs. *)
Theorem chain_matrix_order_independent
    (omega : Q) (l l' : list Element) :
  Permutation l l' ->
  (2 <= length l)%nat ->
  Forall (fun e => 0 < r1 e /\ 0 < c1 e) l ->
  exists r c r' c',
    _calc_chain_matrix l omega = Ok (r, c) /\
    _calc_chain_matrix l' omega = Ok (r', c') /\
    r == r' /\ c == c'.
Proof.
  intros HP Hlen Hpos.
  assert (Hpos' : Forall (fun e => 0 < r1 e /\ 0 < c1 e) l')
    by (eapply Permutation_Forall; eassumption).
  assert (Hlen' : (2 <= length l')%nat)
    by (rewrite <- (Permutation_length HP); exact Hlen).
  destruct l as [|a [|b l]]; [simpl in Hlen; lia | simpl in Hlen; lia|].
  destruct l' as [|a' [|b' l']]; [simpl in Hlen'; lia | simpl in Hlen'; lia|].
  destruct (chain_matrix_branches omega a b l Hpos)
    as (r & c & H1 & Hr & Hc & Hg & Hb).
  destruct (chain_matrix_branches omega a' b' l' Hpos')
    as (r' & c' & H1' & Hr' & Hc' & Hg' & Hb').
  exists r, c, r', c'. split; [exact H1|]. split; [exact H1'|].
  apply (branch_injective omega); try assumption.
  - rewrite Hg, Hg'. apply pysum_Permutation. now apply Permutation_map.
  - rewrite Hb, Hb'. apply pysum_Permutation. now apply Permutation_map.
Qed.

(** X3.  At [omega = 0] the reduction adds the capacities, [c = sum c1],
    and [r * c^2 = sum (r1 * c1^2)]. *)
Theorem chain_matrix_zero_frequency
    (first second : Element) (others : list Element) :
  Forall (fun e => 0 < r1 e /\ 0 < c1 e) (first :: second :: others) ->
  exists r c,
    _calc_chain_matrix (first :: second :: others) 0 = Ok (r, c) /\
    c == pysum (map c1 (first :: second :: others)) /\
    r * c ^ 2
    == pysum (map (fun e => r1 e * c1 e ^ 2) (first :: second :: others)).
Proof.
  intros H.
  destruct (chain_matrix_branches 0 first second others H)
    as (r & c & H1 & Hr & Hc & Hg & Hb).
  exists r, c. split; [exact H1|]. split.
  - transitivity (branch_im 0 r c); [unfold branch_im; field|].
    rewrite Hb. apply pysum_map_Qeq. intros e _.
    unfold branch_im. field.
  - transitivity (branch_re 0 r c); [unfold branch_re; field|].
    rewrite Hg. apply pysum_map_Qeq. intros e _.
    unfold branch_re. field.
Qed.

(** X4.  On a list with fewer than two elements the loop of
    [_calc_chain_matrix] has no iteration and [return r1, c1] raises
    [UnboundLocalError]. *)
Theorem chain_matrix_short_list (omega : Q) (l : list Element) :
  (length l <= 1)%nat ->
  _calc_chain_matrix l omega = Raise UnboundLocalError.
Proof.
  intros H. destruct l as [|a [|b l]]; [reflexivity | reflexivity|].
  simpl in H. lia.
Qed.

(** ** The outer-wall pass *)

(** What a completed outer-wall pass evaluated. *)
Lemma sum_outer_wall_elements_Done (s s' : TwoElement) :
  _sum_outer_wall_elements s = Done s' ->
  let tz := thermal_zone s in
  area_ow s' = sum3 area (outer_walls tz) (ground_floors tz) (rooftops tz) /\
  ua_value_ow s' = sum3 ua_value (outer_walls tz) (ground_floors tz) (rooftops tz) /\
  recip_sum3 r_inner_conv (outer_walls tz) (ground_floors tz) (rooftops tz)
    = Ok (r_conv_inner_ow s') /\
  recip_sum3 r_inner_rad (outer_walls tz) (ground_floors tz) (rooftops tz)
    = Ok (r_rad_inner_ow s') /\
  recip_sum3 r_inner_comb (outer_walls tz) (ground_floors tz) (rooftops tz)
    = Ok (r_comb_inner_ow s') /\
  recip_sum2 r_outer_conv (outer_walls tz) (rooftops tz) = Ok (r_conv_outer_ow s') /\
  recip_sum2 r_outer_rad (outer_walls tz) (rooftops tz) = Ok (r_rad_outer_ow s') /\
  recip_sum2 r_outer_comb (outer_walls tz) (rooftops tz) = Ok (r_comb_outer_ow s') /\
  pydiv 1 (r_conv_inner_ow s' * area_ow s') = Ok (alpha_conv_inner_ow s') /\
  pydiv 1 (r_rad_inner_ow s' * area_ow s') = Ok (alpha_rad_inner_ow s') /\
  pydiv 1 (r_comb_inner_ow s' * area_ow s') = Ok (alpha_comb_inner_ow s') /\
  pydiv 1 (r_conv_outer_ow s' * area_ow s') = Ok (alpha_conv_outer_ow s') /\
  pydiv 1 (r_rad_outer_ow s' * area_ow s') = Ok (alpha_rad_outer_ow s') /\
  pydiv 1 (r_comb_outer_ow s' * area_ow s') = Ok (alpha_comb_outer_ow s').
Proof.
  intros H tz. subst tz. unfold _sum_outer_wall_elements in H.
  repeat step_done H. inversion H; clear H.
  read_attributes.
  repeat split; assumption.
Qed.

Lemma sum_recip_Ok (attr : Element -> Q) (xs : list Element) (v : Q) :
  sum_recip attr xs = Ok v ->
  v = pysum (map (fun x => 1 / attr x) xs) /\ Forall (fun x => ~ attr x == 0) xs.
Proof. apply pysumE_pydiv. Qed.

Lemma recip_sum3_law (attr : Element -> Q) (xs ys zs : list Element) (v : Q) :
  recip_sum3 attr xs ys zs = Ok v ->
  v * pysum (map (fun x => 1 / attr x) ((xs ++ ys) ++ zs)) == 1.
Proof.
  unfold recip_sum3. intros H.
  apply bind_Ok in H. destruct H as (a & Ha & H).
  apply bind_Ok in H. destruct H as (b & Hb & H).
  apply bind_Ok in H. destruct H as (c & Hc & H).
  apply sum_recip_Ok in Ha, Hb, Hc.
  destruct Ha as [Ha _], Hb as [Hb _], Hc as [Hc _].
  apply pydiv_Ok in H. destruct H as [Hne ->].
  rewrite !map_app, !pysum_app, <- Ha, <- Hb, <- Hc.
  field. exact Hne.
Qed.

Lemma recip_sum2_law (attr : Element -> Q) (xs zs : list Element) (v : Q) :
  recip_sum2 attr xs zs = Ok v ->
  v * pysum (map (fun x => 1 / attr x) (xs ++ zs)) == 1.
Proof.
  unfold recip_sum2. intros H.
  apply bind_Ok in H. destruct H as (a & Ha & H).
  apply bind_Ok in H. destruct H as (c & Hc & H).
  apply sum_recip_Ok in Ha, Hc.
  destruct Ha as [Ha _], Hc as [Hc _].
  apply pydiv_Ok in H. destruct H as [Hne ->].
  rewrite !map_app, !pysum_app, <- Ha, <- Hc.
  field. exact Hne.
Qed.


Lemma alpha_law (r a alpha : Q) :
  pydiv 1 (r * a) = Ok alpha -> alpha * r * a == 1.
Proof.
  intros H. apply pydiv_Ok in H. destruct H as [Hne ->]. field.
  split; intros E; apply Hne; rewrite E; ring.
Qed.

(** X5.  When [_sum_outer_wall_elements] completes: the area and the UA
    value are the sums over outer walls, ground floors and rooftops; each
    inner resistance is the parallel connection of the elements' resistances
    (resistance times the sum of the reciprocals is 1), each ambient-side
    resistance the parallel connection over outer walls and rooftops only;
    and each coefficient of heat transfer satisfies
    [alpha * r * area_ow = 1]. *)
Theorem outer_parallel_resistance_law (s s' : TwoElement) :
  _sum_outer_wall_elements s = Done s' ->
  let all := outer_elements (thermal_zone s) in
  let ambient := outer_walls (thermal_zone s) ++ rooftops (thermal_zone s) in
  area_ow s' == pysum (map area all) /\
  ua_value_ow s' == pysum (map ua_value all) /\
  r_conv_inner_ow s' * pysum (map (fun x => 1 / r_inner_conv x) all) == 1 /\
  r_rad_inner_ow s' * pysum (map (fun x => 1 / r_inner_rad x) all) == 1 /\
  r_comb_inner_ow s' * pysum (map (fun x => 1 / r_inner_comb x) all) == 1 /\
  r_conv_outer_ow s' * pysum (map (fun x => 1 / r_outer_conv x) ambient) == 1 /\
  r_rad_outer_ow s' * pysum (map (fun x => 1 / r_outer_rad x) ambient) == 1 /\
  r_comb_outer_ow s' * pysum (map (fun x => 1 / r_outer_comb x) ambient) == 1 /\
  alpha_conv_inner_ow s' * r_conv_inner_ow s' * area_ow s' == 1 /\
  alpha_rad_inner_ow s' * r_rad_inner_ow s' * area_ow s' == 1 /\
  alpha_comb_inner_ow s' * r_comb_inner_ow s' * area_ow s' == 1 /\
  alpha_conv_outer_ow s' * r_conv_outer_ow s' * area_ow s' == 1 /\
  alpha_rad_outer_ow s' * r_rad_outer_ow s' * area_ow s' == 1 /\
  alpha_comb_outer_ow s' * r_comb_outer_ow s' * area_ow s' == 1.
Proof.
  intros H all ambient. subst all ambient.
  apply sum_outer_wall_elements_Done in H. cbv zeta in H.
  destruct H as (Ha & Hu & H1 & H2 & H3 & H4 & H5 & H6
                 & A1 & A2 & A3 & A4 & A5 & A6).
  split; [rewrite Ha; apply sum3_outer_elements|].
  split; [rewrite Hu; apply sum3_outer_elements|].
  split; [exact (recip_sum3_law _ _ _ _ _ H1)|].
  split; [exact (recip_sum3_law _ _ _ _ _ H2)|].
  split; [exact (recip_sum3_law _ _ _ _ _ H3)|].
  split; [exact (recip_sum2_law _ _ _ _ H4)|].
  split; [exact (recip_sum2_law _ _ _ _ H5)|].
  split; [exact (recip_sum2_law _ _ _ _ H6)|].
  split; [exact (alpha_law _ _ _ A1)|].
  split; [exact (alpha_law _ _ _ A2)|].
  split; [exact (alpha_law _ _ _ A3)|].
  split; [exact (alpha_law _ _ _ A4)|].
  split; [exact (alpha_law _ _ _ A5)|].
  exact (alpha_law _ _ _ A6).
Qed.

(** X6.  Ground floors have no ambient side: on a zone without outer walls
    and rooftops the pass never completes, whatever the ground floors
    ([1 / (0 + 0)] for [r_conv_outer_ow] at the latest). *)
Theorem ground_floors_alone_never_complete (s : TwoElement) :
  outer_walls (thermal_zone s) = [] ->
  rooftops (thermal_zone s) = [] ->
  forall s', _sum_outer_wall_elements s <> Done s'.
Proof.
  intros Ho Hr s' H.
  apply sum_outer_wall_elements_Done in H. cbv zeta in H.
  destruct H as (_ & _ & _ & _ & _ & H4 & _).
  rewrite Ho, Hr in H4. discriminate.
Qed.

(** X7.  The weight factors computed from the totals of the outer-wall
    pass: when [_sum_outer_wall_elements] and then [_calc_wf] complete under
    the separate policy, the outer group is not empty and its weight factors
    add up to 1. *)
Theorem outer_pass_then_weight_factors (s s1 s2 : TwoElement) :
  _sum_outer_wall_elements s = Done s1 ->
  merge_windows s = PyBool false ->
  _calc_wf s1 = Done s2 ->
  pysum (map wf_out (outer_elements (thermal_zone s2))) == 1.
Proof.
  intros H1 Hmw H2.
  pose proof (sum_outer_wall_elements_frame _ _ H1) as (Hz & _).
  pose proof (sum_outer_wall_elements_Done _ _ H1) as H. cbv zeta in H.
  destruct H as (_ & Hu & H3 & _).
  assert (Hm : merge_windows s1 = PyBool false).
  { unfold _sum_outer_wall_elements in H1. repeat step_done H1.
    inversion H1. exact Hmw. }
  (* the outer group is not empty: the pass divided by the sum of its
     reciprocals *)
  assert (Hne : outer_elements (thermal_zone s1) <> []).
  { rewrite Hz. unfold outer_elements. intros E.
    apply app_eq_nil in E. destruct E as [E Er].
    apply app_eq_nil in E. destruct E as [Eo Eg].
    rewrite Eo, Eg, Er in H3. discriminate. }
  unfold _calc_wf in H2. rewrite Hm in H2. cbn [is_True is_False] in H2.
  pose proof (wf_loops_Done (ua_value_ow s1) (ua_value_win s1) s1 s2 H2)
    as (Ho & _ & Hd & _).
  rewrite Ho, sum_with_wf_out, <- sum3_outer_elements, Hz, <- Hu.
  field. now apply Hd.
Qed.

(** ** The constructor and the other aggregation passes *)

Lemma zde_or_index_Ok {A : Type} (a : A) : zde_or_index (Ok a).
Proof. intros e H. discriminate. Qed.

Lemma zde_or_index_pydiv (a b : Q) : zde_or_index (pydiv a b).
Proof. intros e H. apply pydiv_Raise in H. now left. Qed.

Lemma zde_or_index_py_index {A : Type} (xs : list A) (i : nat) :
  zde_or_index (py_index xs i).
Proof.
  intros e. unfold py_index. destruct (nth_error xs i); intros H; inversion H.
  now right.
Qed.

Lemma zde_or_index_py_last {A : Type} (xs : list A) : zde_or_index (py_last xs).
Proof.
  intros e. destruct xs as [|x xs]; [intros H; inversion H; now right|].
  apply zde_or_index_py_index.
Qed.

Lemma zde_or_index_bind {A B : Type} (x : Exc A) (k : A -> Exc B) :
  zde_or_index x -> (forall a, zde_or_index (k a)) -> zde_or_index (bind x k).
Proof.
  intros Hx Hk e. destruct x as [a|e']; simpl.
  - apply Hk.
  - intros H. inversion H; subst. now apply Hx.
Qed.

Lemma zde_or_index_pysum_from {A : Type} (f : A -> Exc Q) (xs : list A) :
  (forall x, zde_or_index (f x)) -> forall acc, zde_or_index (pysum_from f xs acc).
Proof.
  intros Hf. induction xs as [|x xs IH]; intros acc; simpl.
  - apply zde_or_index_Ok.
  - apply zde_or_index_bind; [apply Hf | intros; apply IH].
Qed.

Lemma zde_or_index_pysumE {A : Type} (f : A -> Exc Q) (xs : list A) :
  (forall x, zde_or_index (f x)) -> zde_or_index (pysumE f xs).
Proof. intros Hf. now apply zde_or_index_pysum_from. Qed.

Create HintDb zoi discriminated.
#[local] Hint Resolve zde_or_index_Ok zde_or_index_pydiv zde_or_index_py_index
  zde_or_index_py_last zde_or_index_bind zde_or_index_pysumE : zoi.







Lemma sum_inner_wall_elements_Done (s s' : TwoElement) :
  _sum_inner_wall_elements s = Done s' ->
  let tz := thermal_zone s in
  area_iw s' = sum3 area (inner_walls tz) (floors tz) (ceilings tz) /\
  ua_value_iw s' = sum3 ua_value (inner_walls tz) (floors tz) (ceilings tz) /\
  recip_sum3 r_inner_conv (inner_walls tz) (floors tz) (ceilings tz)
    = Ok (r_conv_inner_iw s') /\
  recip_sum3 r_inner_rad (inner_walls tz) (floors tz) (ceilings tz)
    = Ok (r_rad_inner_iw s') /\
  recip_sum3 r_inner_comb (inner_walls tz) (floors tz) (ceilings tz)
    = Ok (r_comb_inner_iw s') /\
  pydiv 1 (r_conv_inner_iw s' * area_iw s') = Ok (alpha_conv_inner_iw s') /\
  pydiv 1 (r_rad_inner_iw s' * area_iw s') = Ok (alpha_rad_inner_iw s') /\
  pydiv 1 (r_comb_inner_iw s' * area_iw s') = Ok (alpha_comb_inner_iw s') /\
  ir_emissivity_inner_iw s' <> None.
Proof.
  intros H tz. subst tz. unfold _sum_inner_wall_elements in H.
  repeat step_done H. inversion H; clear H.
  read_attributes.
  repeat split; try assumption. discriminate.
Qed.

Lemma inner_elements_sum3 (f : Element -> Q) (tz : ThermalZone) :
  sum3 f (inner_walls tz) (floors tz) (ceilings tz)
  == pysum (map f (inner_elements tz)).
Proof.
  unfold sum3, inner_elements. rewrite !map_app, !pysum_app. reflexivity.
Qed.

(** X9.  When [_sum_inner_wall_elements] completes: area and UA value are
    the sums over inner walls, floors and ceilings, the three inner
    resistances are the parallel connections, the coefficients satisfy
    [alpha * r * area_iw = 1], and the six attributes facing the adjacent
    zone are not written. *)
Theorem inner_parallel_resistance_law (s s' : TwoElement) :
  _sum_inner_wall_elements s = Done s' ->
  let all := inner_elements (thermal_zone s) in
  area_iw s' == pysum (map area all) /\
  ua_value_iw s' == pysum (map ua_value all) /\
  r_conv_inner_iw s' * pysum (map (fun x => 1 / r_inner_conv x) all) == 1 /\
  r_rad_inner_iw s' * pysum (map (fun x => 1 / r_inner_rad x) all) == 1 /\
  r_comb_inner_iw s' * pysum (map (fun x => 1 / r_inner_comb x) all) == 1 /\
  alpha_conv_inner_iw s' * r_conv_inner_iw s' * area_iw s' == 1 /\
  alpha_rad_inner_iw s' * r_rad_inner_iw s' * area_iw s' == 1 /\
  alpha_comb_inner_iw s' * r_comb_inner_iw s' * area_iw s' == 1 /\
  r_conv_outer_iw s' = r_conv_outer_iw s /\
  r_rad_outer_iw s' = r_rad_outer_iw s /\
  r_comb_outer_iw s' = r_comb_outer_iw s /\
  alpha_conv_outer_iw s' = alpha_conv_outer_iw s /\
  alpha_rad_outer_iw s' = alpha_rad_outer_iw s /\
  alpha_comb_outer_iw s' = alpha_comb_outer_iw s.
Proof.
  intros H all. subst all.
  pose proof (sum_inner_wall_elements_Done _ _ H) as K. cbv zeta in K.
  destruct K as (Ha & Hu & H1 & H2 & H3 & A1 & A2 & A3 & _).
  split; [rewrite Ha; apply inner_elements_sum3|].
  split; [rewrite Hu; apply inner_elements_sum3|].
  split; [exact (recip_sum3_law _ _ _ _ _ H1)|].
  split; [exact (recip_sum3_law _ _ _ _ _ H2)|].
  split; [exact (recip_sum3_law _ _ _ _ _ H3)|].
  split; [exact (alpha_law _ _ _ A1)|].
  split; [exact (alpha_law _ _ _ A2)|].
  split; [exact (alpha_law _ _ _ A3)|].
  unfold _sum_inner_wall_elements in H.
  repeat step_done H. inversion H; clear H.
  repeat split.
Qed.

(** X10.  On a zone without inner walls, floors and ceilings the
    inner-wall pass raises [ZeroDivisionError] at [r_conv_inner_iw], before
    any resistance or the emissivity is assigned. *)
Theorem no_inner_elements_raise (s : TwoElement) :
  inner_walls (thermal_zone s) = [] ->
  floors (thermal_zone s) = [] ->
  ceilings (thermal_zone s) = [] ->
  exists s',
    _sum_inner_wall_elements s = Raised ZeroDivisionError s' /\
    ir_emissivity_inner_iw s' = ir_emissivity_inner_iw s /\
    r_conv_inner_iw s' = r_conv_inner_iw s.
Proof.
  intros Hi Hf Hc. unfold _sum_inner_wall_elements. rewrite Hi, Hf, Hc.
  eexists. split; [reflexivity|]. split; reflexivity.
Qed.



(** ** Exceptions of the assembler *)

Ltac tail_steps s :=
  repeat (apply (eval_in_case (assembler_tail_outcome s));
          [ intros ? ?; cbv beta
          | let e := fresh "e" in
            let E := fresh "E" in
            intros e E; split; [|repeat split];
            lazymatch type of E with
            | ?X = Raise _ =>
                revert e E; change (only_zde X); auto 8 with zde
            end ]);
  repeat split.

Lemma separate_windows_outcome (s : TwoElement) :
  assembler_tail_outcome s (separate_windows s).
Proof.
  unfold separate_windows. destruct (is_False (merge_windows s)).
  - rewrite try_except_transparent by apply separate_windows_try_only_zde.
    unfold separate_windows_try. tail_steps s.
  - repeat split.
Qed.

Lemma merged_windows_outcome (s : TwoElement) :
  assembler_tail_outcome s (merged_windows s).
Proof.
  unfold merged_windows. destruct (is_True (merge_windows s)).
  - rewrite try_except_transparent by apply merged_windows_try_only_zde.
    unfold merged_windows_try. tail_steps s.
  - repeat split.
Qed.

Lemma window_statements_outcome (s : TwoElement) :
  assembler_tail_outcome s (separate_windows s ;;> merged_windows).
Proof.
  pose proof (separate_windows_outcome s) as K1.
  destruct (separate_windows s) as [s1|e1 s1]; cbn [and_then]; [|exact K1].
  pose proof (merged_windows_outcome s1) as K2.
  destruct (merged_windows s1) as [s2|e2 s2];
    cbn [assembler_tail_outcome] in *.
  - destruct K1 as (A & B & C & D), K2 as (A' & B' & C' & D').
    rewrite A', B', C', D'. auto.
  - destruct K1 as (A & B & C & D), K2 as (E & A' & B' & C' & D').
    rewrite A', B', C', D'. auto.
Qed.

(** ** The lumping statement raises only what the reducer raises *)

Lemma only_zde_spec_combine (omega : Q) (p : Q * Q) (next : Element) :
  only_zde (spec_combine omega p next).
Proof.
  unfold spec_combine. destruct p as [ra ca]. intros e.
  destruct (Qeq_bool _ 0); [intros H; now inversion H|].
  destruct (Qeq_bool _ 0); [intros H; now inversion H | discriminate].
Qed.

Lemma only_zde_fold_spec_step (omega : Q) (others : list Element) :
  forall running,
    only_zde running -> only_zde (fold_left (spec_step omega) others running).
Proof.
  induction others as [|x xs IH]; intros running H; simpl; [exact H|].
  apply IH. unfold spec_step. apply only_zde_bind; [exact H|].
  intros p. apply only_zde_spec_combine.
Qed.

Lemma lump_outer_Raised (l : list Element) (omega : Q) (s : TwoElement) e s' :
  lump_outer l omega s = Raised e s' -> e = ZeroDivisionError /\ s' = s.
Proof.
  destruct l as [|a [|b l']].
  - rewrite lump_outer_none. discriminate.
  - rewrite lump_outer_one. discriminate.
  - rewrite lump_outer_many. unfold eval_in.
    destruct (spec_reduce omega a (b :: l')) as [p|e0] eqn:E; [discriminate|].
    intros H. inversion H; subst. split; [|reflexivity].
    revert E. apply only_zde_fold_spec_step. apply only_zde_Ok.
Qed.

Lemma omega_of_Raise (t : Z) (e : PyExc) :
  omega_of t = Raise e -> t = 0%Z /\ e = ZeroDivisionError.
Proof.
  unfold omega_of. intros H. apply pydiv_Raise in H. destruct H as [H ->].
  split; [|reflexivity].
  unfold Qeq in H. simpl in H. lia.
Qed.

Lemma omega_of_Ok (t : Z) (omega : Q) :
  omega_of t = Ok omega -> t <> 0%Z.
Proof.
  unfold omega_of. intros H. apply pydiv_Ok in H. destruct H as [H _].
  intros ->. apply H. reflexivity.
Qed.

Section AssemblerOutcome.

Variable calc_equivalent_res : Element -> Element.
Variable calc_ua_value : Element -> Element.

Local Abbreviation recalculated_zone :=
  (recalculated calc_equivalent_res calc_ua_value).
Local Abbreviation calc_outer :=
  (_calc_outer_elements calc_equivalent_res calc_ua_value).
Local Abbreviation calc_inner :=
  (_calc_inner_elements calc_equivalent_res calc_ua_value).

(** In the model, where [omega] and the squares of the chain matrix do not
    overflow and the element methods return, the assembler raises nothing
    but [ZeroDivisionError]. *)
Lemma calc_outer_elements_Raised (self : TwoElement) e s' :
  calc_outer self = Raised e s' ->
  e = ZeroDivisionError /\
  printed s' = printed self /\
  ((t_bt self = 0%Z /\ s' = self) \/
   (t_bt self <> 0%Z /\ thermal_zone s' = recalculated_zone (thermal_zone self))).
Proof.
  unfold _calc_outer_elements, eval_in.
  destruct (omega_of (t_bt self)) as [omega|e0] eqn:Ho.
  2:{ intros H. inversion H; subst. apply omega_of_Raise in Ho.
      destruct Ho as [Ht ->]. auto. }
  apply omega_of_Ok in Ho.
  rewrite recalculate_outer_Done. cbn [and_then].
  match goal with
  | |- context [lump_outer ?l ?w ?s] =>
      destruct (lump_outer l w s) as [s_l|e1 s1] eqn:Hl
  end; cbn [and_then].
  - apply lump_outer_frame in Hl.
    pose proof (window_statements_outcome s_l) as K.
    intros H.
    assert (H' : (separate_windows s_l ;;> merged_windows) = Raised e s')
      by exact H.
    rewrite H' in K. cbn [assembler_tail_outcome] in K.
    destruct K as (-> & Hz & _ & _ & Hp).
    rewrite Hz, Hp, Hl. read_attributes. auto.
  - apply lump_outer_Raised in Hl. destruct Hl as [-> ->].
    intros H. inversion H; subst. read_attributes. auto.
Qed.

Lemma calc_outer_elements_printed (self : TwoElement) :
  printed (after (calc_outer self)) = printed self.
Proof.
  destruct (calc_outer self) as [s'|e s'] eqn:H; cbn [after].
  - apply calc_outer_elements_Done in H.
    destruct H as (omega & s_l & _ & Hl & H).
    apply lump_outer_frame in Hl.
    pose proof (window_statements_outcome s_l) as K.
    rewrite H in K. cbn [assembler_tail_outcome] in K.
    destruct K as (_ & _ & _ & Hp).
    rewrite Hp, Hl. read_attributes. reflexivity.
  - apply calc_outer_elements_Raised in H. destruct H as (_ & Hp & _).
    exact Hp.
Qed.

(** X12.  The two handlers for [RuntimeError] of [_calc_outer_elements]
    never run: the statements under the two [try] raise nothing but
    [ZeroDivisionError], which the handlers do not catch, and however the
    window statements or the whole call end, nothing has been printed. *)
Theorem assembler_handlers_never_run (self : TwoElement) :
  (forall e s',
      (separate_windows self ;;> merged_windows) = Raised e s' ->
      e = ZeroDivisionError /\ printed s' = printed self) /\
  (forall s',
      (separate_windows self ;;> merged_windows) = Done s' ->
      printed s' = printed self) /\
  printed (after (calc_outer self)) = printed self.
Proof.
  pose proof (window_statements_outcome self) as K.
  split; [|split].
  - intros e s' H. rewrite H in K. cbn [assembler_tail_outcome] in K.
    destruct K as (He & _ & _ & _ & Hp). auto.
  - intros s' H. rewrite H in K. cbn [assembler_tail_outcome] in K.
    destruct K as (_ & _ & _ & Hp). exact Hp.
  - apply calc_outer_elements_printed.
Qed.

(** X13.  With [t_bt = 0] both assemblers stop at their first statement,
    [omega = 2 * math.pi / 86400 / self.t_bt], before any element is
    recalculated and before any attribute is written. *)
Theorem zero_t_bt_raises (self : TwoElement) :
  t_bt self = 0%Z ->
  calc_outer self = Raised ZeroDivisionError self /\
  calc_inner self = Raised ZeroDivisionError self.
Proof.
  intros Ht. unfold _calc_outer_elements, _calc_inner_elements.
  rewrite Ht. split; reflexivity.
Qed.

(** X14.  Under the separate policy the assembler needs at least one
    window: with none, the call never completes ([1 / sum(...)] divides by
    zero if nothing stopped the call before). *)
Theorem separate_policy_needs_a_window (self : TwoElement) :
  merge_windows self = PyBool false ->
  windows (thermal_zone self) = [] ->
  forall s', calc_outer self <> Done s'.
Proof.
  intros Hm Hw s' H.
  apply calc_outer_elements_Done in H.
  destruct H as (omega & s_l & _ & Hl & H).
  apply lump_outer_frame in Hl.
  apply and_then_Done in H. destruct H as (s1 & H & _).
  unfold separate_windows in H.
  assert (Hm' : merge_windows s_l = PyBool false)
    by (rewrite Hl; read_attributes; exact Hm).
  assert (Hw' : windows (thermal_zone s_l) = [])
    by (rewrite Hl; read_attributes; unfold recalculated; read_attributes;
        cbn; rewrite Hw; reflexivity).
  rewrite Hm' in H. cbn [is_False] in H.
  rewrite try_except_transparent in H by apply separate_windows_try_only_zde.
  unfold separate_windows_try in H. rewrite Hw' in H. discriminate.
Qed.

End AssemblerOutcome.

(** ** The merged policy and the lumped resistance *)

Lemma pysum_map_pos {A : Type} (f : A -> Q) (xs : list A) :
  xs <> [] -> Forall (fun x => 0 < f x) xs -> 0 < pysum (map f xs).
Proof.
  intros Hne H. apply pysum_pos.
  - destruct xs; [congruence | discriminate].
  - apply Forall_map. exact H.
Qed.

Lemma pysum_map_ext_Qeq {A : Type} (f g : A -> Q) (xs : list A) :
  Forall (fun x => f x == g x) xs -> pysum (map f xs) == pysum (map g xs).
Proof.
  induction 1 as [|x xs Hx _ IH]; [reflexivity|].
  cbn [map]. rewrite !pysum_cons, Hx, IH. reflexivity.
Qed.

Lemma pysum_map_scaled_left {A : Type} (k : Q) (f : A -> Q) (xs : list A) :
  pysum (map (fun x => k * f x) xs) == k * pysum (map f xs).
Proof.
  induction xs as [|x xs IH]; [cbn; ring|].
  cbn [map]. rewrite !pysum_cons, IH. ring.
Qed.

Lemma merged_r1_win (ws : list Element) :
  Forall (fun win => 0 < r1 win) ws ->
  pysum (map (fun win => 1 / (r1 win / 6)) ws)
  == 6 * pysum (map (fun win => 1 / r1 win) ws).
Proof.
  intros H. rewrite <- pysum_map_scaled_left.
  apply pysum_map_ext_Qeq.
  eapply Forall_impl; [|exact H]. cbv beta. intros win Hpos.
  field. apply Qpos_nonzero. exact Hpos.
Qed.

Lemma parallel_conductance_lowers (r g : Q) :
  0 < r -> 0 < g -> 0 < 1 / (1 / r + g) /\ 1 / (1 / r + g) < r.
Proof.
  intros Hr Hg.
  assert (Hrg : 0 < r * g) by (apply Qmult_lt_0_compat; assumption).
  assert (Hd : 0 < 1 + r * g) by lra.
  assert (E : 1 / (1 / r + g) == r / (1 + r * g)).
  { field. split; apply Qpos_nonzero; [lra | assumption]. }
  rewrite E. split.
  - apply Qdiv_pos; assumption.
  - apply Qlt_shift_div_r; [exact Hd|].
    assert (0 < r * (r * g)) by (apply Qmult_lt_0_compat; assumption).
    lra.
Qed.

Section MergedPolicy.

Variable calc_equivalent_res : Element -> Element.
Variable calc_ua_value : Element -> Element.

Local Abbreviation calc_outer :=
  (_calc_outer_elements calc_equivalent_res calc_ua_value).

(** X15.  Under the merged policy [r1_win] is six times the sum of the
    windows' [1 / r1], and with positive elements and at least one window
    the lumped [r1_ow] is replaced by a positive value strictly below
    it. *)
Theorem merged_policy_lowers_r1_ow (self s' : TwoElement) :
  calc_outer self = Done s' ->
  merge_windows self = PyBool true ->
  outer_elements (thermal_zone s') <> [] ->
  Forall (fun e => 0 < r1 e /\ 0 < c1 e) (outer_elements (thermal_zone s')) ->
  windows (thermal_zone s') <> [] ->
  Forall (fun win => 0 < r1 win) (windows (thermal_zone s')) ->
  exists omega s_l,
    lump_outer (outer_elements (thermal_zone s')) omega
               (self <| thermal_zone := thermal_zone s' |>) = Done s_l /\
    r1_win s' == 6 * pysum (map (fun win => 1 / r1 win) (windows (thermal_zone s'))) /\
    0 < r1_ow s' /\ r1_ow s' < r1_ow s_l.
Proof.
  intros H Hm Hne Hpos Hwne Hw.
  apply calc_outer_elements_cases in H.
  destruct H as (omega & s_l & _ & Hz & Hl & Hf & Hc).
  exists omega, s_l. split; [exact Hl|].
  destruct (lump_outer_completes _ omega (self <| thermal_zone := thermal_zone s' |>)
              Hne Hpos) as (s_l' & Hl' & Hr).
  rewrite Hl in Hl'. inversion Hl'; subst s_l'; clear Hl'.
  assert (Hzl : thermal_zone s_l = thermal_zone s')
    by (rewrite Hf; read_attributes; reflexivity).
  destruct Hc as [[Hc _]|[[_ Hc]|[_ [Hc _]]]];
    [rewrite Hm in Hc; discriminate | | rewrite Hm in Hc; discriminate].
  assert (E1 : r1_win s'
               = pysum (map (fun win => 1 / (r1 win / 6)) (windows (thermal_zone s'))))
    by (rewrite Hc at 1; unfold spec_merged; read_attributes;
        rewrite Hzl; reflexivity).
  assert (E2 : r1_ow s' = 1 / (1 / r1_ow s_l + r1_win s'))
    by (rewrite E1; rewrite Hc at 1; unfold spec_merged; read_attributes;
        rewrite Hzl; reflexivity).
  pose proof (merged_r1_win _ Hw) as E3.
  split; [rewrite E1; exact E3|].
  assert (Hg : 0 < r1_win s').
  { rewrite E1, E3.
    apply Qmult_lt_0_compat; [reflexivity|].
    apply pysum_map_pos; [exact Hwne|].
    eapply Forall_impl; [|exact Hw]. cbv beta. intros win Hp.
    apply Qdiv_pos; [reflexivity | exact Hp]. }
  rewrite E2. apply parallel_conductance_lowers; assumption.
Qed.

End MergedPolicy.

(** ** The weight-factor pass, once more *)

Lemma for_each_outer_assign_wf (d : Q) (tz tz' : ThermalZone) :
  for_each_outer (assign_wf_out d) tz = Ok tz' ->
  tz' = tz <| outer_walls := map (with_wf_out d) (outer_walls tz) |>
           <| ground_floors := map (with_wf_out d) (ground_floors tz) |>
           <| rooftops := map (with_wf_out d) (rooftops tz) |> /\
  (outer_elements tz <> [] -> ~ d == 0).
Proof.
  unfold for_each_outer. intros H.
  apply bind_Ok in H. destruct H as (ows & Hows & H).
  apply bind_Ok in H. destruct H as (gfs & Hgfs & H).
  apply bind_Ok in H. destruct H as (rts & Hrts & H).
  inversion H; subst tz'; clear H.
  apply py_for_each_assign_wf in Hows, Hgfs, Hrts.
  destruct Hows as [-> Ho], Hgfs as [-> Hg], Hrts as [-> Hr].
  split; [reflexivity|].
  unfold outer_elements. intros Hne.
  destruct (outer_walls tz) as [|a l]; [|apply Ho; congruence].
  destruct (ground_floors tz) as [|b l]; [|apply Hg; congruence].
  apply Hr. exact Hne.
Qed.

Lemma for_each_outer_assign_wf_nonzero (d : Q) (tz : ThermalZone) :
  ~ d == 0 ->
  for_each_outer (assign_wf_out d) tz
  = Ok (tz <| outer_walls := map (with_wf_out d) (outer_walls tz) |>
           <| ground_floors := map (with_wf_out d) (ground_floors tz) |>
           <| rooftops := map (with_wf_out d) (rooftops tz) |>).
Proof.
  intros Hd. unfold for_each_outer.
  rewrite !(py_for_each_assign_wf_nonzero d _ Hd). reflexivity.
Qed.

Lemma with_wf_out_twice (d : Q) (xs : list Element) :
  map (with_wf_out d) (map (with_wf_out d) xs) = map (with_wf_out d) xs.
Proof. rewrite map_map. apply map_ext. intros x. reflexivity. Qed.

(** Assigning the weight factors to elements that already have them. *)
Lemma py_for_each_assign_wf_again (d : Q) (xs xs' : list Element) :
  py_for_each (assign_wf_out d) xs = Ok xs' ->
  py_for_each (assign_wf_out d) xs' = Ok xs'.
Proof.
  intros H. apply py_for_each_assign_wf in H. destruct H as [-> Hd].
  destruct xs as [|x xs]; [reflexivity|].
  rewrite py_for_each_assign_wf_nonzero by (apply Hd; discriminate).
  now rewrite with_wf_out_twice.
Qed.

Lemma wf_loops_again (d_wall d_win : Q) (self s' : TwoElement) :
  (tz <-[self] for_each_outer (assign_wf_out d_wall) (thermal_zone self) ;;
   let self := self <| thermal_zone := tz |> in
   tz <-[self] for_each_window (assign_wf_out d_win) (thermal_zone self) ;;
   let self := self <| thermal_zone := tz |> in
   Done self) = Done s' ->
  s' = self <| thermal_zone := thermal_zone s' |> /\
  (tz <-[s'] for_each_outer (assign_wf_out d_wall) (thermal_zone s') ;;
   let self := s' <| thermal_zone := tz |> in
   tz <-[self] for_each_window (assign_wf_out d_win) (thermal_zone self) ;;
   let self := self <| thermal_zone := tz |> in
   Done self) = Done s'.
Proof.
  intros H.
  apply eval_in_Done in H. destruct H as (tz1 & H1 & H). cbv beta zeta in H.
  apply eval_in_Done in H. destruct H as (tz2 & H2 & H). cbv beta zeta in H.
  inversion H; subst s'; clear H.
  split; [destruct self; reflexivity|].
  unfold for_each_outer in H1.
  apply bind_Ok in H1. destruct H1 as (ows & Hows & H1).
  apply bind_Ok in H1. destruct H1 as (gfs & Hgfs & H1).
  apply bind_Ok in H1. destruct H1 as (rts & Hrts & H1).
  inversion H1; subst tz1; clear H1.
  unfold for_each_window in H2.
  apply bind_Ok in H2. destruct H2 as (ws & Hws & H2).
  inversion H2; subst tz2; clear H2.
  cbn in Hws.
  apply py_for_each_assign_wf_again in Hows, Hgfs, Hrts, Hws.
  unfold for_each_outer, for_each_window. cbn. unfold const.
  rewrite Hows, Hgfs, Hrts. cbn. unfold const. rewrite Hws. cbn.
  destruct self; reflexivity.
Qed.

(** X16.  Running the weight-factor pass a second time changes nothing: it
    reads [ua_value], [ua_value_ow] and [ua_value_win] and writes [wf_out]
    only. *)
Theorem calc_wf_idempotent (self s' : TwoElement) :
  _calc_wf self = Done s' ->
  _calc_wf s' = Done s'.
Proof.
  unfold _calc_wf. intros H.
  destruct (is_True (merge_windows self)) eqn:Ht.
  - apply (wf_loops_again (ua_value_ow self + ua_value_win self)
                          (ua_value_ow self + ua_value_win self)) in H.
    destruct H as [Hs H].
    assert (E : merge_windows s' = merge_windows self
                /\ ua_value_ow s' = ua_value_ow self
                /\ ua_value_win s' = ua_value_win self)
      by (rewrite Hs; read_attributes; auto).
    destruct E as (Em & Eo & Ew). read_attributes.
    rewrite Em, Eo, Ew, Ht. exact H.
  - destruct (is_False (merge_windows self)) eqn:Hf; [|discriminate].
    apply (wf_loops_again (ua_value_ow self) (ua_value_win self)) in H.
    destruct H as [Hs H].
    assert (E : merge_windows s' = merge_windows self
                /\ ua_value_ow s' = ua_value_ow self
                /\ ua_value_win s' = ua_value_win self)
      by (rewrite Hs; read_attributes; auto).
    destruct E as (Em & Eo & Ew). read_attributes.
    rewrite Em, Eo, Ew, Ht, Hf. exact H.
Qed.

Lemma py_for_each_assign_wf_zero (d : Q) (xs : list Element) :
  xs <> [] -> d == 0 ->
  py_for_each (assign_wf_out d) xs = Raise ZeroDivisionError.
Proof.
  intros Hne Hz. destruct xs as [|x xs]; [congruence|].
  cbn [py_for_each]. unfold assign_wf_out at 1.
  rewrite (pydiv_zero _ _ Hz). reflexivity.
Qed.

(** X17.  The two loops of [_calc_wf] are not one step: under the separate
    policy with [ua_value_win = 0] and a window, the call raises
    [ZeroDivisionError] after the outer elements have received their weight
    factors; the windows are unchanged. *)
Theorem calc_wf_zero_window_total (self : TwoElement) :
  merge_windows self = PyBool false ->
  ~ ua_value_ow self == 0 ->
  windows (thermal_zone self) <> [] ->
  ua_value_win self == 0 ->
  exists s',
    _calc_wf self = Raised ZeroDivisionError s' /\
    outer_elements (thermal_zone s')
      = map (with_wf_out (ua_value_ow self)) (outer_elements (thermal_zone self)) /\
    windows (thermal_zone s') = windows (thermal_zone self).
Proof.
  intros Hm Ho Hw Hz. unfold _calc_wf. rewrite Hm. cbn [is_True is_False].
  rewrite (for_each_outer_assign_wf_nonzero _ _ Ho). cbn [eval_in].
  unfold for_each_window. read_attributes.
  match goal with
  | |- context [py_for_each ?f (windows ?t)] =>
      change (windows t) with (windows (thermal_zone self));
      change f with (assign_wf_out (ua_value_win self))
  end.
  rewrite (py_for_each_assign_wf_zero _ _ Hw Hz). cbn [bind eval_in].
  eexists. split; [reflexivity|]. read_attributes.
  split; [|reflexivity].
  unfold outer_elements. rewrite !map_app. reflexivity.
Qed.

(** X18.  Under the separate policy with [ua_value_ow = 0] and an outer
    element, [_calc_wf] raises [ZeroDivisionError] at the first element and
    leaves the object as it was. *)
Theorem calc_wf_zero_outer_total (self : TwoElement) :
  merge_windows self = PyBool false ->
  outer_elements (thermal_zone self) <> [] ->
  ua_value_ow self == 0 ->
  _calc_wf self = Raised ZeroDivisionError self.
Proof.
  intros Hm Hne Hz. unfold _calc_wf. rewrite Hm. cbn [is_True is_False].
  destruct (for_each_outer (assign_wf_out (ua_value_ow self)) (thermal_zone self))
    as [tz|e] eqn:E.
  - apply for_each_outer_assign_wf in E. destruct E as [_ E].
    exfalso. exact (E Hne Hz).
  - cbn [eval_in]. f_equal.
    assert (K : only_zde (for_each_outer (assign_wf_out (ua_value_ow self))
                                         (thermal_zone self))).
    { unfold for_each_outer.
      assert (P : forall xs, only_zde (py_for_each (assign_wf_out (ua_value_ow self)) xs)).
      { induction xs as [|x xs IH]; cbn [py_for_each]; [apply only_zde_Ok|].
        apply only_zde_bind.
        - unfold assign_wf_out. apply only_zde_bind; [apply only_zde_pydiv|].
          intros; apply only_zde_Ok.
        - intros y. apply only_zde_bind; [exact IH|]. intros; apply only_zde_Ok. }
      repeat (apply only_zde_bind; [apply P | intros ?]). apply only_zde_Ok. }
    exact (K e E).
Qed.

(** ** Bounds of the weight factors *)

Lemma pysum_nonneg_le (xs : list Q) : Forall (fun q => 0 <= q) xs -> 0 <= pysum xs.
Proof.
  induction 1 as [|x xs Hx _ IH]; [cbn; lra|].
  rewrite pysum_cons. lra.
Qed.

Lemma member_le_pysum {A : Type} (f : A -> Q) (xs : list A) (x : A) :
  Forall (fun y => 0 <= f y) xs -> In x xs -> f x <= pysum (map f xs).
Proof.
  induction 1 as [|y ys Hy Hys IH]; [intros []|].
  cbn [map]. rewrite pysum_cons. intros [->|Hin].
  - assert (0 <= pysum (map f ys)) by (apply pysum_nonneg_le, Forall_map; exact Hys).
    lra.
  - specialize (IH Hin). lra.
Qed.

Lemma quotient_in_unit_interval (a d : Q) :
  0 <= a -> a <= d -> ~ d == 0 -> 0 <= a / d /\ a / d <= 1.
Proof.
  intros Ha Hd Hne.
  assert (Hpos : 0 < d).
  { destruct (Qlt_le_dec 0 d) as [|Hle]; [assumption|].
    exfalso. apply Hne. lra. }
  split.
  - apply Qle_shift_div_l; [exact Hpos | lra].
  - apply Qle_shift_div_r; [exact Hpos | lra].
Qed.

Lemma with_wf_out_bounds (d : Q) (xs : list Element) :
  (xs <> [] -> ~ d == 0) ->
  Forall (fun x => 0 <= ua_value x /\ ua_value x <= d) xs ->
  Forall (fun x => 0 <= wf_out x /\ wf_out x <= 1) (map (with_wf_out d) xs).
Proof.
  intros Hd H. apply Forall_map.
  destruct xs as [|x0 xs0]; [constructor|].
  assert (Hne : ~ d == 0) by (apply Hd; discriminate).
  eapply Forall_impl; [|exact H]. cbv beta. intros x [H0 H1].
  unfold with_wf_out. cbn. apply quotient_in_unit_interval; assumption.
Qed.

(** X19.  With non-negative UA values and the totals the aggregation
    passes assign, every weight factor a completed pass assigns lies between
    0 and 1, under both policies. *)
Theorem weight_factors_between_0_and_1 (self s' : TwoElement) (b : bool) :
  _calc_wf self = Done s' ->
  merge_windows self = PyBool b ->
  Forall (fun x => 0 <= ua_value x)
         (outer_elements (thermal_zone self) ++ windows (thermal_zone self)) ->
  ua_value_ow self == pysum (map ua_value (outer_elements (thermal_zone self))) ->
  ua_value_win self == pysum (map ua_value (windows (thermal_zone self))) ->
  Forall (fun x => 0 <= wf_out x /\ wf_out x <= 1)
         (outer_elements (thermal_zone s') ++ windows (thermal_zone s')).
Proof.
  intros H Hm Hnn Hso Hsw.
  apply Forall_app in Hnn. destruct Hnn as [Hno Hnw].
  assert (Ho0 : 0 <= ua_value_ow self)
    by (rewrite Hso; apply pysum_nonneg_le, Forall_map; exact Hno).
  assert (Hw0 : 0 <= ua_value_win self)
    by (rewrite Hsw; apply pysum_nonneg_le, Forall_map; exact Hnw).
  assert (Bo : Forall (fun x => 0 <= ua_value x /\ ua_value x <= ua_value_ow self)
                      (outer_elements (thermal_zone self))).
  { apply Forall_forall. intros x Hin. split.
    - rewrite Forall_forall in Hno. now apply Hno.
    - rewrite Hso. now apply member_le_pysum. }
  assert (Bw : Forall (fun x => 0 <= ua_value x /\ ua_value x <= ua_value_win self)
                      (windows (thermal_zone self))).
  { apply Forall_forall. intros x Hin. split.
    - rewrite Forall_forall in Hnw. now apply Hnw.
    - rewrite Hsw. now apply member_le_pysum. }
  unfold _calc_wf in H. rewrite Hm in H. destruct b; cbn [is_True is_False] in H.
  - pose proof (wf_loops_Done (ua_value_ow self + ua_value_win self)
                  (ua_value_ow self + ua_value_win self) self s' H)
      as (Eo & Ew & Hdo & Hdw).
    rewrite Eo, Ew. apply Forall_app. split.
    + apply with_wf_out_bounds; [exact Hdo|].
      eapply Forall_impl; [|exact Bo]. cbv beta. intros x [? ?]. split; lra.
    + apply with_wf_out_bounds; [exact Hdw|].
      eapply Forall_impl; [|exact Bw]. cbv beta. intros x [? ?]. split; lra.
  - pose proof (wf_loops_Done (ua_value_ow self) (ua_value_win self) self s' H)
      as (Eo & Ew & Hdo & Hdw).
    rewrite Eo, Ew. apply Forall_app. split.
    + apply with_wf_out_bounds; assumption.
    + apply with_wf_out_bounds; assumption.
Qed.

(** ** The inner assembler *)

Section InnerAssembler.

Variable calc_equivalent_res : Element -> Element.
Variable calc_ua_value : Element -> Element.

Local Abbreviation calc_inner :=
  (_calc_inner_elements calc_equivalent_res calc_ua_value).

Lemma for_each_inner_recalculate (tz : ThermalZone) :
  for_each_inner (recalculate calc_equivalent_res calc_ua_value) tz
  = Ok (tz <| inner_walls := map (fun x => calc_ua_value (calc_equivalent_res x))
                                 (inner_walls tz) |>
           <| floors := map (fun x => calc_ua_value (calc_equivalent_res x))
                            (floors tz) |>
           <| ceilings := map (fun x => calc_ua_value (calc_equivalent_res x))
                              (ceilings tz) |>).
Proof.
  unfold for_each_inner. rewrite !py_for_each_recalculate. reflexivity.
Qed.

(** X20.  What a completed call of [_calc_inner_elements] leaves: the
    inner elements recalculated; with one inner element its [r1] and
    [c1_korr], with more the reduction of the chain matrix, both under the
    names [r1_1w] and [c1_1w]; with none the warning about outer walls.
    [r1_iw] and [c1_iw] are not written. *)
Theorem calc_inner_elements_cases (self s' : TwoElement) :
  calc_inner self = Done s' ->
  exists omega,
    omega_of (t_bt self) = Ok omega /\
    inner_elements (thermal_zone s')
      = map (fun x => calc_ua_value (calc_equivalent_res x))
            (inner_elements (thermal_zone self)) /\
    r1_iw s' = r1_iw self /\ c1_iw s' = c1_iw self /\
    match inner_elements (thermal_zone s') with
    | [] =>
      r1_1w s' = r1_1w self /\ c1_1w s' = c1_1w self /\
      warnings_issued s' = msg_no_outer_walls :: warnings_issued self
    | [e] =>
      r1_1w s' = Some (r1 e) /\ c1_1w s' = Some (c1_korr e) /\
      warnings_issued s' = warnings_issued self
    | first :: others =>
      exists p,
        spec_reduce omega first others = Ok p /\
        r1_1w s' = Some (fst p) /\ c1_1w s' = Some (snd p) /\
        warnings_issued s' = warnings_issued self
    end.
Proof.
  unfold _calc_inner_elements. intros H.
  apply eval_in_Done in H. destruct H as (omega & Ho & H).
  exists omega. split; [exact Ho|].
  rewrite for_each_inner_recalculate in H. cbn [eval_in] in H. cbv zeta in H.
  match type of H with
  | context [py_index (inner_elements ?t) 0] =>
      assert (Hz : inner_elements t
                   = map (fun x => calc_ua_value (calc_equivalent_res x))
                         (inner_elements (thermal_zone self)))
        by (unfold inner_elements; rewrite !map_app; reflexivity);
      destruct (inner_elements t) as [|a [|b l]] eqn:El
  end.
  - cbn in H. inversion H; subst s'; clear H.
    unfold warnings_warn. read_attributes.
    rewrite El. repeat split; try reflexivity. exact Hz.
  - cbn in H. inversion H; subst s'; clear H. read_attributes.
    rewrite El. repeat split; try reflexivity. exact Hz.
  - cbn [length Nat.ltb Nat.leb andb] in H.
    rewrite calc_chain_matrix_fold in H.
    apply eval_in_Done in H. destruct H as (p & Hp & H).
    inversion H; subst s'; clear H. read_attributes.
    rewrite El. split; [exact Hz|]. split; [reflexivity|]. split; [reflexivity|].
    exists p. repeat split; try reflexivity. exact Hp.
Qed.

(** X21.  In exact arithmetic (no rounding, no overflow or underflow of the
    squares and products of the chain matrix), and with the element methods
    returning: [_calc_inner_elements] completes on every object whose
    [t_bt] is not 0 and converts to a float, and whose recalculated inner
    elements have positive [r1] and [c1]. *)
Theorem calc_inner_elements_completes (self : TwoElement) :
  t_bt self <> 0%Z ->
  in_float_range (inject_Z (t_bt self)) = true ->
  Forall (fun e => 0 < r1 (calc_ua_value (calc_equivalent_res e))
                   /\ 0 < c1 (calc_ua_value (calc_equivalent_res e)))
         (inner_elements (thermal_zone self)) ->
  exists s', calc_inner self = Done s'.
Proof.
  intros Ht _ Hpos. unfold _calc_inner_elements.
  rewrite (omega_of_completes _ Ht). cbn [eval_in].
  rewrite for_each_inner_recalculate. cbn [eval_in]. cbv zeta.
  match goal with
  | |- context [py_index (inner_elements ?t) 0] =>
      assert (Hz : inner_elements t
                   = map (fun x => calc_ua_value (calc_equivalent_res x))
                         (inner_elements (thermal_zone self)))
        by (unfold inner_elements; rewrite !map_app; reflexivity);
      assert (Hp : Forall (fun e => 0 < r1 e /\ 0 < c1 e) (inner_elements t))
        by (rewrite Hz; apply Forall_map; exact Hpos);
      destruct (inner_elements t) as [|a [|b l]] eqn:El
  end.
  - cbn. eexists. reflexivity.
  - cbn. eexists. reflexivity.
  - cbn [length Nat.ltb Nat.leb andb].
    rewrite calc_chain_matrix_fold.
    match goal with
    | |- context [spec_reduce ?w a (b :: l)] =>
        destruct (spec_reduce_completes w a (b :: l) Hp) as (r & c & -> & _)
    end.
    cbn [eval_in]. eexists. reflexivity.
Qed.

End InnerAssembler.

(** ** The week profiles of the example *)

Lemma append_day_map (entry : Q -> Q) (workday : list Q) :
  forall week, append_day entry workday week = week ++ map entry workday.
Proof.
  unfold append_day. induction workday as [|v vs IH]; intros week; simpl.
  - now rewrite app_nil_r.
  - rewrite IH, <- app_assoc. reflexivity.
Qed.

Lemma days_loop (entry : nat -> Q -> Q) (workday : list Q) (days : list nat) :
  forall week,
    fold_left (fun week day => append_day (entry day) workday week) days week
    = week ++ concat (map (fun day => map (entry day) workday) days).
Proof.
  induction days as [|d ds IH]; intros week; simpl.
  - now rewrite app_nil_r.
  - rewrite IH, append_day_map, <- app_assoc. reflexivity.
Qed.

Lemma length_days (entry : nat -> Q -> Q) (workday : list Q) (n : nat) :
  length (concat (map (fun day => map (entry day) workday) (seq 0 n)))
  = (n * length workday)%nat.
Proof.
  induction n as [|n IH]; [reflexivity|].
  rewrite seq_S, map_app, concat_app, length_app, IH.
  cbn [map concat Nat.add]. rewrite app_nil_r, length_map. lia.
Qed.

Lemma nth_error_days (entry : nat -> Q -> Q) (workday : list Q) (n day hour : nat) :
  (day < n)%nat -> (hour < length workday)%nat ->
  nth_error (concat (map (fun day => map (entry day) workday) (seq 0 n)))
            (day * length workday + hour)
  = option_map (entry day) (nth_error workday hour).
Proof.
  intros Hd Hh. induction n as [|n IH]; [lia|].
  rewrite seq_S, map_app, concat_app.
  cbn [map concat Nat.add]. rewrite app_nil_r.
  destruct (Nat.eq_dec day n) as [->|Hne].
  - rewrite nth_error_app2 by (rewrite length_days; lia).
    rewrite length_days.
    replace (n * length workday + hour - n * length workday)%nat with hour by lia.
    apply nth_error_map.
  - rewrite nth_error_app1 by (rewrite length_days; nia).
    apply IH. lia.
Qed.

Lemma week_loop_entries (entry : nat -> Q -> Q) (workday : list Q) :
  length (week_loop entry workday) = (7 * length workday)%nat /\
  forall day hour,
    (day < 7)%nat -> (hour < length workday)%nat ->
    nth_error (week_loop entry workday) (day * length workday + hour)
    = option_map (entry day) (nth_error workday hour).
Proof.
  unfold week_loop. rewrite days_loop. cbn [app]. split.
  - apply length_days.
  - intros day hour. apply nth_error_days.
Qed.

(** X22.  The week profiles hold seven days of as many entries as the
    workday list: hour [hour] of day [day] is at index [day * len + hour];
    on the first five days it is the workday entry, on the last two the
    ventilation ratio is 0.2 where the workday entry equals 1 and 0.0
    elsewhere, and the heating set point is 290. *)
Theorem week_profiles_by_day_and_hour
    (workday heating : list Q) (day hour : nat) (v t : Q) :
  (day < 7)%nat ->
  nth_error workday hour = Some v ->
  nth_error heating hour = Some t ->
  length (v_flow_week workday) = (7 * length workday)%nat /\
  length (heating_profile_week heating) = (7 * length heating)%nat /\
  nth_error (v_flow_week workday) (day * length workday + hour)
    = Some (if (day <? 5)%nat then v else if Qeq_bool v 1 then 2 # 10 else 0) /\
  nth_error (heating_profile_week heating) (day * length heating + hour)
    = Some (if (day <? 5)%nat then t else 290).
Proof.
  intros Hd Hv Ht.
  assert (Hhv : (hour < length workday)%nat)
    by (apply nth_error_Some; congruence).
  assert (Hht : (hour < length heating)%nat)
    by (apply nth_error_Some; congruence).
  destruct (week_loop_entries ratio workday) as [L1 E1].
  destruct (week_loop_entries set_point heating) as [L2 E2].
  split; [exact L1|]. split; [exact L2|]. split.
  - unfold v_flow_week. rewrite (E1 day hour Hd Hhv), Hv. reflexivity.
  - unfold heating_profile_week. rewrite (E2 day hour Hd Hht), Ht. reflexivity.
Qed.

(** X23.  Reducing the ventilation at the weekend never raises it: where
    the workday ratio is not negative, the entry of the week lies between 0
    and the workday entry of the same hour. *)
Theorem v_flow_weekend_not_above_workday
    (workday : list Q) (day hour : nat) (v w : Q) :
  (day < 7)%nat ->
  nth_error workday hour = Some v ->
  0 <= v ->
  nth_error (v_flow_week workday) (day * length workday + hour) = Some w ->
  0 <= w /\ w <= v.
Proof.
  intros Hd Hv H0 Hw.
  assert (Hh : (hour < length workday)%nat)
    by (apply nth_error_Some; congruence).
  destruct (week_loop_entries ratio workday) as [_ E].
  unfold v_flow_week in Hw. rewrite (E day hour Hd Hh), Hv in Hw.
  cbn [option_map] in Hw. inversion Hw; subst w; clear Hw.
  unfold ratio. destruct (day <? 5)%nat; [split; lra|].
  destruct (Qeq_bool v 1) eqn:E1.
  - apply Qeq_bool_iff in E1. rewrite E1. split; discriminate.
  - split; [discriminate | exact H0].
Qed.

(** ** The properties above on the sample data *)

Lemma sample_elements_positive :
  Forall (fun e => 0 < r1 e /\ 0 < c1 e) [sample_wall; sample_roof].
Proof. repeat constructor. Qed.

Lemma chain_matrix_parallel_connection_witness :
  exists r c,
    _calc_chain_matrix [sample_wall; sample_roof] (1 # 1000) = Ok (r, c) /\
    0 < r /\ 0 < c /\
    branch_re (1 # 1000) r c
    == pysum (map (fun e => branch_re (1 # 1000) (r1 e) (c1 e))
                  [sample_wall; sample_roof]) /\
    branch_im (1 # 1000) r c
    == pysum (map (fun e => branch_im (1 # 1000) (r1 e) (c1 e))
                  [sample_wall; sample_roof]).
Proof.
  exact (chain_matrix_parallel_connection (1 # 1000) sample_wall sample_roof []
           sample_elements_positive).
Defined.

Lemma chain_matrix_order_independent_witness :
  exists r c r' c',
    _calc_chain_matrix [sample_wall; sample_roof] (1 # 1000) = Ok (r, c) /\
    _calc_chain_matrix [sample_roof; sample_wall] (1 # 1000) = Ok (r', c') /\
    r == r' /\ c == c'.
Proof.
  apply (chain_matrix_order_independent (1 # 1000)
           [sample_wall; sample_roof] [sample_roof; sample_wall]).
  - apply perm_swap.
  - simpl. lia.
  - exact sample_elements_positive.
Defined.

Lemma chain_matrix_zero_frequency_witness :
  exists r c,
    _calc_chain_matrix [sample_wall; sample_roof] 0 = Ok (r, c) /\
    c == pysum (map c1 [sample_wall; sample_roof]) /\
    r * c ^ 2
    == pysum (map (fun e => r1 e * c1 e ^ 2) [sample_wall; sample_roof]).
Proof.
  exact (chain_matrix_zero_frequency sample_wall sample_roof []
           sample_elements_positive).
Defined.

Lemma chain_matrix_short_list_witness :
  _calc_chain_matrix [sample_wall] (1 # 1000) = Raise UnboundLocalError.
Proof.
  apply (chain_matrix_short_list (1 # 1000) [sample_wall]). simpl. lia.
Defined.

(** *** The aggregation passes on the sample zones *)

Lemma sum_outer_wall_roof_window :
  _sum_outer_wall_elements (initial zone_wall_roof_window (PyBool false) 5)
  = Done (outer_summed zone_wall_roof_window (PyBool false)).
Proof. vm_compute. reflexivity. Qed.

Lemma outer_parallel_resistance_law_witness :
  area_ow (outer_summed zone_wall_roof_window (PyBool false)) == 30 /\
  r_conv_inner_ow (outer_summed zone_wall_roof_window (PyBool false)) == 1 # 70 /\
  r_conv_inner_ow (outer_summed zone_wall_roof_window (PyBool false))
  * pysum (map (fun x => 1 / r_inner_conv x)
               (outer_elements
                  (thermal_zone (initial zone_wall_roof_window (PyBool false) 5))))
  == 1.
Proof.
  pose proof (outer_parallel_resistance_law
                (initial zone_wall_roof_window (PyBool false) 5)
                (outer_summed zone_wall_roof_window (PyBool false))
                sum_outer_wall_roof_window) as H.
  cbv zeta in H. destruct H as (_ & _ & H & _).
  split; [vm_compute; reflexivity|]. split; [vm_compute; reflexivity|].
  exact H.
Defined.

Lemma ground_floors_alone_never_complete_witness :
  _sum_outer_wall_elements (initial zone_ground_only (PyBool false) 5)
  <> Done (initial zone_ground_only (PyBool false) 5).
Proof.
  apply (ground_floors_alone_never_complete
           (initial zone_ground_only (PyBool false) 5)); reflexivity.
Defined.

Lemma sum_outer_no_windows :
  _sum_outer_wall_elements (initial zone_no_windows (PyBool false) 5)
  = Done (outer_summed zone_no_windows (PyBool false)).
Proof. vm_compute. reflexivity. Qed.

Lemma calc_wf_no_windows :
  _calc_wf (outer_summed zone_no_windows (PyBool false))
  = Done (after (_calc_wf (outer_summed zone_no_windows (PyBool false)))).
Proof. vm_compute. reflexivity. Qed.

Lemma outer_pass_then_weight_factors_witness :
  pysum (map wf_out
           (outer_elements
              (thermal_zone
                 (after (_calc_wf (outer_summed zone_no_windows (PyBool false)))))))
  == 1.
Proof.
  apply (outer_pass_then_weight_factors
           (initial zone_no_windows (PyBool false) 5)
           (outer_summed zone_no_windows (PyBool false))
           (after (_calc_wf (outer_summed zone_no_windows (PyBool false))))).
  - exact sum_outer_no_windows.
  - reflexivity.
  - exact calc_wf_no_windows.
Defined.

Lemma sum_inner_wall_window :
  _sum_inner_wall_elements (outer_summed zone_wall_window (PyBool false))
  = Done (inner_summed zone_wall_window (PyBool false)).
Proof. vm_compute. reflexivity. Qed.

Lemma inner_parallel_resistance_law_witness :
  area_iw (inner_summed zone_wall_window (PyBool false)) == 20 /\
  r_conv_inner_iw (inner_summed zone_wall_window (PyBool false))
  * pysum (map (fun x => 1 / r_inner_conv x)
               (inner_elements
                  (thermal_zone (outer_summed zone_wall_window (PyBool false)))))
  == 1.
Proof.
  pose proof (inner_parallel_resistance_law
                (outer_summed zone_wall_window (PyBool false))
                (inner_summed zone_wall_window (PyBool false))
                sum_inner_wall_window) as H.
  cbv zeta in H. destruct H as (_ & _ & H & _).
  split; [vm_compute; reflexivity | exact H].
Defined.

Lemma no_inner_elements_raise_witness :
  exists s',
    _sum_inner_wall_elements (initial zone_no_inner (PyBool false) 5)
    = Raised ZeroDivisionError s' /\
    ir_emissivity_inner_iw s'
    = ir_emissivity_inner_iw (initial zone_no_inner (PyBool false) 5) /\
    r_conv_inner_iw s' = r_conv_inner_iw (initial zone_no_inner (PyBool false) 5).
Proof.
  apply (no_inner_elements_raise (initial zone_no_inner (PyBool false) 5));
    reflexivity.
Defined.



(** *** The assembler on the sample objects *)


Lemma window_statements_no_outer :
  (separate_windows (sample_object zone_no_outer (PyBool false)) ;;> merged_windows)
  = Raised ZeroDivisionError
      (after (separate_windows (sample_object zone_no_outer (PyBool false))
              ;;> merged_windows)).
Proof. vm_compute. reflexivity. Qed.

Lemma assembler_handlers_never_run_witness :
  printed (after (separate_windows (sample_object zone_no_outer (PyBool false))
                  ;;> merged_windows))
  = printed (sample_object zone_no_outer (PyBool false)) /\
  printed (after (_calc_outer_elements up_to_date up_to_date
                    (sample_object zone_no_outer (PyBool false))))
  = printed (sample_object zone_no_outer (PyBool false)).
Proof.
  destruct (assembler_handlers_never_run up_to_date up_to_date
              (sample_object zone_no_outer (PyBool false))) as (HR & _ & HP).
  split; [|exact HP].
  exact (proj2 (HR ZeroDivisionError _ window_statements_no_outer)).
Defined.

Lemma zero_t_bt_raises_witness :
  _calc_outer_elements up_to_date up_to_date
    ((sample_object zone_wall_window (PyBool false)) <| t_bt := 0%Z |>)
  = Raised ZeroDivisionError
      ((sample_object zone_wall_window (PyBool false)) <| t_bt := 0%Z |>) /\
  _calc_inner_elements up_to_date up_to_date
    ((sample_object zone_wall_window (PyBool false)) <| t_bt := 0%Z |>)
  = Raised ZeroDivisionError
      ((sample_object zone_wall_window (PyBool false)) <| t_bt := 0%Z |>).
Proof.
  apply (zero_t_bt_raises up_to_date up_to_date
           ((sample_object zone_wall_window (PyBool false)) <| t_bt := 0%Z |>)).
  reflexivity.
Defined.

Lemma separate_policy_needs_a_window_witness :
  _calc_outer_elements up_to_date up_to_date
    (sample_object zone_no_windows (PyBool false))
  <> Done (sample_object zone_no_windows (PyBool false)).
Proof.
  apply (separate_policy_needs_a_window up_to_date up_to_date
           (sample_object zone_no_windows (PyBool false)));
    vm_compute; reflexivity.
Defined.

Lemma merged_policy_lowers_r1_ow_witness :
  exists omega s_l,
    lump_outer (outer_elements (thermal_zone (assembled zone_wall_window (PyBool true))))
               omega
               ((sample_object zone_wall_window (PyBool true))
                  <| thermal_zone :=
                       thermal_zone (assembled zone_wall_window (PyBool true)) |>)
    = Done s_l /\
    r1_win (assembled zone_wall_window (PyBool true))
    == 6 * pysum (map (fun win => 1 / r1 win)
                      (windows (thermal_zone (assembled zone_wall_window (PyBool true))))) /\
    0 < r1_ow (assembled zone_wall_window (PyBool true)) /\
    r1_ow (assembled zone_wall_window (PyBool true)) < r1_ow s_l.
Proof.
  apply (merged_policy_lowers_r1_ow up_to_date up_to_date
           (sample_object zone_wall_window (PyBool true))
           (assembled zone_wall_window (PyBool true))).
  - exact assemble_wall_window_merged.
  - vm_compute. reflexivity.
  - vm_compute. discriminate.
  - vm_compute. repeat constructor.
  - vm_compute. discriminate.
  - vm_compute. repeat constructor.
Defined.

(** *** The weight-factor pass on the sample objects *)

Lemma calc_wf_idempotent_witness :
  _calc_wf (after (_calc_wf (outer_summed zone_no_windows (PyBool false))))
  = Done (after (_calc_wf (outer_summed zone_no_windows (PyBool false)))).
Proof.
  exact (calc_wf_idempotent
           (outer_summed zone_no_windows (PyBool false))
           (after (_calc_wf (outer_summed zone_no_windows (PyBool false))))
           calc_wf_no_windows).
Defined.

Lemma calc_wf_zero_window_total_witness :
  exists s',
    _calc_wf (outer_summed zone_wall_window (PyBool false))
    = Raised ZeroDivisionError s' /\
    outer_elements (thermal_zone s')
    = map (with_wf_out (ua_value_ow (outer_summed zone_wall_window (PyBool false))))
          (outer_elements (thermal_zone (outer_summed zone_wall_window (PyBool false)))) /\
    windows (thermal_zone s')
    = windows (thermal_zone (outer_summed zone_wall_window (PyBool false))).
Proof.
  apply (calc_wf_zero_window_total (outer_summed zone_wall_window (PyBool false))).
  - vm_compute. reflexivity.
  - vm_compute. discriminate.
  - vm_compute. discriminate.
  - vm_compute. reflexivity.
Defined.

Lemma calc_wf_zero_outer_total_witness :
  _calc_wf (initial zone_wall_window (PyBool false) 5)
  = Raised ZeroDivisionError (initial zone_wall_window (PyBool false) 5).
Proof.
  apply (calc_wf_zero_outer_total (initial zone_wall_window (PyBool false) 5)).
  - reflexivity.
  - vm_compute. discriminate.
  - reflexivity.
Defined.

Lemma weight_factors_between_0_and_1_witness :
  Forall (fun x => 0 <= wf_out x /\ wf_out x <= 1)
         (outer_elements
            (thermal_zone (after (_calc_wf (outer_summed zone_no_windows (PyBool false)))))
          ++ windows
               (thermal_zone
                  (after (_calc_wf (outer_summed zone_no_windows (PyBool false)))))).
Proof.
  apply (weight_factors_between_0_and_1
           (outer_summed zone_no_windows (PyBool false))
           (after (_calc_wf (outer_summed zone_no_windows (PyBool false))))
           false).
  - exact calc_wf_no_windows.
  - vm_compute. reflexivity.
  - vm_compute. repeat constructor. discriminate.
  - vm_compute. reflexivity.
  - vm_compute. reflexivity.
Defined.

(** *** The inner assembler on the sample object *)

Lemma calc_inner_wall_window :
  _calc_inner_elements up_to_date up_to_date
    (inner_summed zone_wall_window (PyBool false))
  = Done (after (_calc_inner_elements up_to_date up_to_date
                   (inner_summed zone_wall_window (PyBool false)))).
Proof. vm_compute. reflexivity. Qed.

Lemma calc_inner_elements_cases_witness :
  r1_1w (after (_calc_inner_elements up_to_date up_to_date
                  (inner_summed zone_wall_window (PyBool false))))
  = Some (r1 sample_wall) /\
  c1_1w (after (_calc_inner_elements up_to_date up_to_date
                  (inner_summed zone_wall_window (PyBool false))))
  = Some (c1_korr sample_wall) /\
  r1_iw (after (_calc_inner_elements up_to_date up_to_date
                  (inner_summed zone_wall_window (PyBool false))))
  = r1_iw (inner_summed zone_wall_window (PyBool false)).
Proof.
  destruct (calc_inner_elements_cases up_to_date up_to_date
              (inner_summed zone_wall_window (PyBool false))
              (after (_calc_inner_elements up_to_date up_to_date
                        (inner_summed zone_wall_window (PyBool false))))
              calc_inner_wall_window) as (omega & _ & _ & Hr & _ & _).
  split; [vm_compute; reflexivity|]. split; [vm_compute; reflexivity|].
  exact Hr.
Defined.

Lemma calc_inner_elements_completes_witness :
  exists s',
    _calc_inner_elements up_to_date up_to_date
      (inner_summed zone_wall_window (PyBool false)) = Done s'.
Proof.
  apply (calc_inner_elements_completes up_to_date up_to_date
           (inner_summed zone_wall_window (PyBool false))).
  - vm_compute. discriminate.
  - vm_compute. reflexivity.
  - vm_compute. repeat constructor.
Defined.

(** *** The week profiles of the example *)

Lemma week_profiles_by_day_and_hour_witness :
  length (v_flow_week v_flow_workday) = (7 * length v_flow_workday)%nat /\
  length (heating_profile_week heating_profile_workday)
  = (7 * length heating_profile_workday)%nat /\
  nth_error (v_flow_week v_flow_workday) (5 * length v_flow_workday + 6)
  = Some (if (5 <? 5)%nat then 1 else if Qeq_bool 1 1 then 2 # 10 else 0) /\
  nth_error (heating_profile_week heating_profile_workday)
            (5 * length heating_profile_workday + 6)
  = Some (if (5 <? 5)%nat then 293 else 290).
Proof.
  apply (week_profiles_by_day_and_hour
           v_flow_workday heating_profile_workday 5 6 1 293).
  - lia.
  - reflexivity.
  - reflexivity.
Defined.

Lemma v_flow_weekend_not_above_workday_witness :
  0 <= 2 # 10 /\ 2 # 10 <= 1.
Proof.
  apply (v_flow_weekend_not_above_workday v_flow_workday 5 6 1 (2 # 10)).
  - lia.
  - reflexivity.
  - discriminate.
  - reflexivity.
Defined.
